(** * chart-column: a shallow embedding of [dist/chart-column.js]

    The module exports one function, [link], which resolves the string
    attributes of the directive into a configuration, computes the layout and
    draws the chart with d3 (version 3: [d3.scale.linear], [d3.svg.axis]).

    Conventions of the embedding.
    - A JavaScript number is [NaN] or an exact rational.  IEEE rounding,
      overflow, the infinities and the sign of zero are not modelled; the one
      place where the infinities would be observable ([parseFloat] on the
      literal [Infinity]) is flagged as outside the model.
    - The directive binds every attribute with ['@'], so a parameter is a
      string or [undefined]: [option string].
    - The data and the thresholds are typed as the header comment of the
      source documents them; a payload that parses but has another shape is
      reported as [Unmodelled] rather than given a made-up behaviour.
    - The drawing is the list of the children of the [svg] node, in document
      order.  A d3 transition is represented by the attribute values it ends
      on, a later transition on the same attributes replacing them; time is
      not represented.  Event handlers ([.on]) leave the drawing as it is and
      are omitted. *)

From Stdlib Require Import QArith Qabs Qround ZArith List String Ascii Bool Lia Lqa.
From Stdlib Require Import DecimalString.
Import ListNotations.

Local Open Scope string_scope.
Local Open Scope list_scope.

(* ================================================================= *)
(** ** Numbers *)

Inductive num : Type :=
  | NaN
  | Num (q : Q).

Definition lift2 (f : Q -> Q -> Q) (a b : num) : num :=
  match a, b with
  | Num x, Num y => Num (f x y)
  | _, _ => NaN
  end.

Definition nadd : num -> num -> num := lift2 Qplus.
Definition nsub : num -> num -> num := lift2 Qminus.
Definition nmul : num -> num -> num := lift2 Qmult.

(** Division.  Every divisor in the source is a non-zero constant or the odd
    integer [2 * numCols - 1]; a zero divisor (an infinity in JavaScript) is
    outside the model and reads [NaN]. *)
Definition ndiv (a b : num) : num :=
  match a, b with
  | Num x, Num y => if Qeq_bool y 0 then NaN else Num (x / y)
  | _, _ => NaN
  end.

Definition nabs (a : num) : num :=
  match a with
  | Num x => Num (Qabs x)
  | NaN => NaN
  end.

(** Relational operators: every comparison with [NaN] is false. *)
Definition nle (a b : num) : bool :=
  match a, b with
  | Num x, Num y => Qle_bool x y
  | _, _ => false
  end.
Definition nlt (a b : num) : bool :=
  match a, b with
  | Num x, Num y => negb (Qle_bool y x)
  | _, _ => false
  end.
Definition nge (a b : num) : bool := nle b a.
Definition ngt (a b : num) : bool := nlt b a.

(** [ToBoolean] on a number: [0] and [NaN] are falsy. *)
Definition num_truthy (a : num) : bool :=
  match a with
  | Num x => negb (Qeq_bool x 0)
  | NaN => false
  end.

(** [ToBoolean] on a string: only the empty string is falsy. *)
Definition str_truthy (s : string) : bool :=
  match s with
  | EmptyString => false
  | String _ _ => true
  end.

(** [ToBoolean] on an attribute: [undefined] is falsy. *)
Definition attr_truthy (a : option string) : bool :=
  match a with
  | Some s => str_truthy s
  | None => false
  end.

(** Numeric equality up to the representation of the rational. *)
Definition num_eq (a b : num) : Prop :=
  match a, b with
  | Num x, Num y => x == y
  | NaN, NaN => True
  | _, _ => False
  end.

Declare Scope num_scope.
Delimit Scope num_scope with num.
Bind Scope num_scope with num.
Infix "+" := nadd : num_scope.
Infix "-" := nsub : num_scope.
Infix "*" := nmul : num_scope.
Infix "/" := ndiv : num_scope.
Infix "<=?" := nle (at level 70) : num_scope.
Infix "<?" := nlt (at level 70) : num_scope.
Infix ">=?" := nge (at level 70) : num_scope.
Infix ">?" := ngt (at level 70) : num_scope.
Infix "=n=" := num_eq (at level 70).

Definition of_Z (z : Z) : num := Num (inject_Z z).
Definition of_nat (n : nat) : num := of_Z (Z.of_nat n).

(* ================================================================= *)
(** ** Characters and numerals *)

Definition is_ws (c : ascii) : bool :=
  let n := nat_of_ascii c in
  ((9 <=? n) && (n <=? 13) || (n =? 32))%nat.

Definition is_digit (c : ascii) : bool :=
  let n := nat_of_ascii c in
  ((48 <=? n) && (n <=? 57))%nat.

Definition digit_val (c : ascii) : option Z :=
  let n := nat_of_ascii c in
  if ((48 <=? n) && (n <=? 57))%nat then Some (Z.of_nat (n - 48)) else None.

Definition hex_val (c : ascii) : option Z :=
  let n := nat_of_ascii c in
  if ((48 <=? n) && (n <=? 57))%nat then Some (Z.of_nat (n - 48))
  else if ((65 <=? n) && (n <=? 70))%nat then Some (Z.of_nat (n - 55))
  else if ((97 <=? n) && (n <=? 102))%nat then Some (Z.of_nat (n - 87))
  else None.

Fixpoint skip_ws (l : list ascii) : list ascii :=
  match l with
  | c :: r => if is_ws c then skip_ws r else l
  | [] => []
  end.

(** The longest prefix of digits in the given radix: its value, its length
    and what follows it. *)
Fixpoint take_digits (val : ascii -> option Z) (radix : Z) (l : list ascii)
    (acc : Z) (n : nat) : Z * nat * list ascii :=
  match l with
  | c :: r =>
      match val c with
      | Some d => take_digits val radix r (acc * radix + d)%Z (S n)
      | None => (acc, n, l)
      end
  | [] => (acc, n, l)
  end.

Definition take_sign (l : list ascii) : bool * list ascii :=
  match l with
  | "-"%char :: r => (true, r)
  | "+"%char :: r => (false, r)
  | _ => (false, l)
  end.

Definition signed (neg : bool) (q : Q) : Q := if neg then (- q)%Q else q.

Fixpoint starts_with (p l : list ascii) : bool :=
  match p, l with
  | [], _ => true
  | a :: p', b :: l' => Ascii.eqb a b && starts_with p' l'
  | _ :: _, [] => false
  end.

(** [parseInt(s)] with no radix: leading white space, a sign, an optional
    [0x] prefix, then the longest run of digits; [NaN] when there is none. *)
Definition parseInt (s : string) : num :=
  let l := skip_ws (list_ascii_of_string s) in
  let '(neg, l1) := take_sign l in
  let '(radix, val, l2) :=
    match l1 with
    | "0"%char :: ("x"%char | "X"%char) :: r => (16%Z, hex_val, r)
    | _ => (10%Z, digit_val, l1)
    end in
  let '(v, n, _) := take_digits val radix l2 0%Z 0%nat in
  match n with
  | O => NaN
  | S _ => Num (signed neg (inject_Z v))
  end.

(** The exponent part of a decimal literal, taken only when it is complete. *)
Definition take_exponent (l : list ascii) : Z :=
  match l with
  | ("e"%char | "E"%char) :: r =>
      let '(eneg, r1) := take_sign r in
      let '(ev, en, _) := take_digits digit_val 10%Z r1 0%Z 0%nat in
      match en with
      | O => 0%Z
      | S _ => if eneg then (- ev)%Z else ev
      end
  | _ => 0%Z
  end.

(** [parseFloat(s)]: leading white space, then the longest prefix that is a
    decimal literal; [NaN] when there is none.  [None] marks the literal
    [Infinity], whose value the model does not have. *)
Definition parseFloat (s : string) : option num :=
  let l := skip_ws (list_ascii_of_string s) in
  let '(neg, l1) := take_sign l in
  if starts_with (list_ascii_of_string "Infinity") l1 then None
  else
    let '(ip, ni, l2) := take_digits digit_val 10%Z l1 0%Z 0%nat in
    let '(fp, nf, l3) :=
      match l2 with
      | "."%char :: r =>
          let '(fp, nf, r') := take_digits digit_val 10%Z r 0%Z 0%nat in
          match ni, nf with
          | O, O => (0%Z, 0%nat, l2)
          | _, _ => (fp, nf, r')
          end
      | _ => (0%Z, 0%nat, l2)
      end in
    match (ni + nf)%nat with
    | O => Some NaN
    | S _ =>
        let m := (inject_Z ip + inject_Z fp / inject_Z (10 ^ Z.of_nat nf))%Q in
        Some (Num (signed neg (m * Qpower 10 (take_exponent l3))%Q))
    end.

(** [parseFloat] applied to an attribute: [undefined] is first converted to
    the string ["undefined"]. *)
Definition parseFloat_attr (a : option string) : option num :=
  match a with
  | Some s => parseFloat s
  | None => parseFloat "undefined"
  end.

(** [parseFloat] applied to a number converts it to a string and reads it
    back: the number itself. *)
Definition parseFloat_num (v : num) : num := v.

(* ----------------------------------------------------------------- *)
(** *** [Number.prototype.toString] *)

Definition string_of_Z (z : Z) : string :=
  NilZero.string_of_uint (N.to_uint (Z.to_N z)).

Definition string_of_nat (n : nat) : string := string_of_Z (Z.of_nat n).

Fixpoint repeat_char (c : ascii) (n : nat) : string :=
  match n with
  | O => EmptyString
  | S n' => String c (repeat_char c n')
  end.

Fixpoint drop_zeros (l : list ascii) : list ascii :=
  match l with
  | "0"%char :: r => drop_zeros r
  | _ => l
  end.

Definition strip_trailing_zeros (s : string) : string :=
  string_of_list_ascii (rev (drop_zeros (rev (list_ascii_of_string s)))).

(** For [0 < q < 1], the number of zeros between the point and the first
    significant digit. *)
Fixpoint leading_zeros (fuel : nat) (q : Q) : nat :=
  match fuel with
  | O => O
  | S f => if Qle_bool 1 (q * 10)%Q then O else S (leading_zeros f (q * 10)%Q)
  end.

(** The decimal exponent [n] of [q > 0]: [10^(n-1) <= q < 10^n]. *)
Definition dec_exponent (q : Q) : Z :=
  if Qle_bool 1 q
  then Z.of_nat (String.length (string_of_Z (Qfloor q)))
  else (- Z.of_nat (leading_zeros (Pos.size_nat (Qden q)) q))%Z.

(** The digits of [q > 0], at most 17 of them as in a double, without
    trailing zeros.  For a terminating decimal of up to 17 digits these are
    its exact digits. *)
Definition dec_digits (q : Q) : string :=
  strip_trailing_zeros (string_of_Z (Qfloor (q * Qpower 10 (17 - dec_exponent q))%Q)).

Definition exp_suffix (n : Z) : string :=
  "e" ++ (if (0 <=? n - 1)%Z then "+" else "-") ++ string_of_Z (Z.abs (n - 1)).

(** The five cases of [Number::toString] for a positive number with digits
    [s] (there are [k] of them) and decimal exponent [n]. *)
Definition format_digits (s : string) (n : Z) : string :=
  let k := Z.of_nat (String.length s) in
  if ((k <=? n) && (n <=? 21))%Z then
    s ++ repeat_char "0" (Z.to_nat (n - k))
  else if ((0 <? n) && (n <=? 21))%Z then
    substring 0 (Z.to_nat n) s ++ "." ++ substring (Z.to_nat n) (Z.to_nat (k - n)) s
  else if ((-6 <? n) && (n <=? 0))%Z then
    "0." ++ repeat_char "0" (Z.to_nat (- n)) ++ s
  else if (k =? 1)%Z then
    s ++ exp_suffix n
  else
    substring 0 1 s ++ "." ++ substring 1 (Z.to_nat (k - 1)) s ++ exp_suffix n.

Definition Number_toString (v : num) : string :=
  match v with
  | NaN => "NaN"
  | Num q =>
      if Qeq_bool q 0 then "0"
      else
        let a := Qabs q in
        (if Qle_bool 0 q then EmptyString else "-") ++ format_digits (dec_digits a) (dec_exponent a)
  end.

(* ================================================================= *)
(** ** DEFAULTS *)

Module defaults.
Definition duration : num := Num 300.
Module colors.
Definition hh := "#f15854".
Definition h := "#faa43a".
Definition l := "#faa43a".
Definition ll := "#f15854".
Definition default := "#5da5da".
Definition threshold := "#e4e4ea".
Definition background := "#e4e4ea".
Definition reference := "#242326".
Definition labels := "#242326".
Definition borders := "#e4e4ea".

(** [defaults.colors[key]]; [None] is [undefined]. *)
Definition get (key : string) : option string :=
  if String.eqb key "hh" then Some hh
  else if String.eqb key "h" then Some h
  else if String.eqb key "l" then Some l
  else if String.eqb key "ll" then Some ll
  else if String.eqb key "default" then Some default
  else if String.eqb key "threshold" then Some threshold
  else if String.eqb key "background" then Some background
  else if String.eqb key "reference" then Some reference
  else if String.eqb key "labels" then Some labels
  else if String.eqb key "borders" then Some borders
  else None.
End colors.
End defaults.

(* ================================================================= *)
(** ** The data model *)

(** [{h: .., l: ..}]; a bound that is left out reads [undefined], which every
    use converts to [NaN]. *)
Module ErrorRange.
Record t : Type := mk { h : num; l : num }.
End ErrorRange.

(** One column.  [value] left out reads [undefined], which every use converts
    to [NaN]; [name] left out is drawn as the empty text. *)
Module DataPoint.
Record t : Type := mk {
  name : string;
  value : num;
  color : option string;
  reference : option Q;
  error : option ErrorRange.t
}.
End DataPoint.

(** The thresholds object: its own properties in insertion order. *)
Definition Thresholds : Type := list (string * Q).

Fixpoint lookup {A : Type} (key : string) (o : list (string * A)) : option A :=
  match o with
  | (k, v) :: r => if String.eqb k key then Some v else lookup key r
  | [] => None
  end.

(** A property read that is used as a number: [undefined] becomes [NaN]. *)
Definition prop (t : Thresholds) (key : string) : num :=
  match lookup key t with
  | Some q => Num q
  | None => NaN
  end.

(** A number or [null], used as a number: [null] becomes [0]. *)
Definition ToNumber (v : option num) : num :=
  match v with
  | Some n => n
  | None => Num 0
  end.

Definition opt_truthy (v : option num) : bool :=
  match v with
  | Some n => num_truthy n
  | None => false
  end.

(** [d.color ? ..]: a colour that is left out or empty is falsy. *)
Definition color_truthy (c : option string) : bool := attr_truthy c.

(** [d.reference ? ..] *)
Definition reference_truthy (r : option Q) : bool :=
  match r with
  | Some q => num_truthy (Num q)
  | None => false
  end.

(** [d.reference || 0] *)
Definition reference_or_0 (r : option Q) : num :=
  match r with
  | Some q => if num_truthy (Num q) then Num q else Num 0
  | None => Num 0
  end.

(* ----------------------------------------------------------------- *)
(** *** d3.scale.linear *)

(** A linear scale with a two-point domain and range, not clamped. *)
Module linear.
Record t : Type := mk { d0 : num; d1 : num; r0 : num; r1 : num }.
End linear.

(** [scale(x)].  d3 divides [x - d0] by [d1 - d0], or by [1 / 0] when the
    domain is a single point, and interpolates [r0 * (1 - t) + r1 * t]. *)
Definition scale (s : linear.t) (x : num) : num :=
  let b := (linear.d1 s - linear.d0 s)%num in
  let t := if num_truthy b then ((x - linear.d0 s) / b)%num
           else match b with
                | Num _ => ((x - linear.d0 s) * Num 0)%num
                | NaN => NaN
                end in
  (linear.r0 s * (Num 1 - t) + linear.r1 s * t)%num.

(* ----------------------------------------------------------------- *)
(** *** The configuration object *)

Module config.
Record t : Type := mk {
  width : num;
  height : num;
  max : num;
  min : num;
  baseline : option num;
  thresholds : option Thresholds;
  data : list DataPoint.t;
  colWidth : num;
  stroke : num;
  marginTop : num;
  marginBottom : num;
  marginLeft : num;
  marginRight : num;
  showColoredThresholds : bool;
  showTooltip : bool;
  yScale : linear.t;
  xScale : linear.t;
  yAxisLabelScale : linear.t
}.

(** [update] assigns [config.data]. *)
Definition set_data (c : t) (newData : list DataPoint.t) : t :=
  mk (width c) (height c) (max c) (min c) (baseline c) (thresholds c) newData
     (colWidth c) (stroke c) (marginTop c) (marginBottom c) (marginLeft c)
     (marginRight c) (showColoredThresholds c) (showTooltip c)
     (yScale c) (xScale c) (yAxisLabelScale c).
End config.

(* ================================================================= *)
(** ** UTILITY METHODS *)

Definition getColor (v : num) (t : option Thresholds) : string :=
  let color := defaults.colors.default in
  match t with
  | Some t =>
      let v := parseFloat_num v in
      let color :=
        if (v <=? prop t "l")%num then
          let color := defaults.colors.l in
          if (v <=? prop t "ll")%num then defaults.colors.ll else color
        else color in
      let color :=
        if (v >=? prop t "h")%num then
          let color := defaults.colors.h in
          if (v >=? prop t "hh")%num then defaults.colors.hh else color
        else color in
      color
  | None => color
  end.

Definition getFontSize (colWidth : num) : num :=
  let size := (colWidth * Num 0.6)%num in
  let size := if (size <? Num 9)%num then Num 9 else size in
  size.

Definition getTickCount (height : num) : num :=
  let numTicks := (height / Num 20)%num in
  numTicks.

(** [Math.max(max.toString().length, min.toString().length)] *)
Definition numChars (max min : num) : nat :=
  Nat.max (String.length (Number_toString max)) (String.length (Number_toString min)).

Module margins.
Record t : Type := mk { left : num; right : num; bottom : num; top : num }.
End margins.

Definition getMargins (colWidth max min : num) (showXAxis showYAxis : bool) : margins.t :=
  let numChars := numChars max min in
  let left := if showYAxis then (getFontSize colWidth * of_nat numChars)%num else Num 0 in
  let bottom := if showXAxis then (Num 1.3 * getFontSize colWidth)%num else Num 1 in
  let top := (Num 0.5 * getFontSize colWidth)%num in
  margins.mk left (Num 5) bottom top.

Definition getColWidth (width : num) (numCols : nat) (max min : num) (showYAxis : bool) : num :=
  let numChars := numChars max min in
  let colWidth :=
    if (width / (Num 2 * of_nat numCols - Num 1) <? Num 20)%num
    then (width / (Num 2 * of_nat numCols - Num 1))%num
    else Num 20 in
  if showYAxis then
    if ((width - Num 10 * of_nat numChars) / (Num 2 * of_nat numCols - Num 1) <? Num 20)%num
    then ((width - Num 10 * of_nat numChars) / (Num 2 * of_nat numCols - Num 1))%num
    else Num 20
  else colWidth.

(** The object [errorBars] returns; [xCenter] is assigned only when the
    point has an error range. *)
Module errorbar.
Record t : Type := mk {
  x1 : num; x2 : num; y1 : num; y2 : num; stroke : num;
  xCenter : option num
}.
End errorbar.

Definition errorBars (d : DataPoint.t) (i : nat) (c : config.t) : errorbar.t :=
  match DataPoint.error d with
  | Some e =>
      let xi := scale (config.xScale c) (of_nat i) in
      let x1 := if (config.colWidth c >? Num 10)%num
                then (xi + config.colWidth c * Num 0.25)%num else xi in
      let xCenter := (xi + config.colWidth c * Num 0.5)%num in
      let x2 := if (config.colWidth c >? Num 10)%num
                then (xi + config.colWidth c * Num 0.75)%num
                else (xi + config.colWidth c)%num in
      let ys := scale (config.yScale c) in
      let base := ToNumber (config.baseline c) in
      if opt_truthy (config.baseline c) then
        let baselineY :=
          (config.height c - config.marginBottom c + config.marginTop c - ys base)%num in
        let y1 := if (ErrorRange.h e >=? base)%num
                  then (baselineY - nabs (ys base - ys (ErrorRange.h e)))%num
                  else (baselineY + nabs (ys base - ys (ErrorRange.h e)))%num in
        let y2 := if (ErrorRange.l e >=? base)%num
                  then (baselineY - nabs (ys base - ys (ErrorRange.l e)))%num
                  else (baselineY + nabs (ys base - ys (ErrorRange.l e)))%num in
        errorbar.mk x1 x2 y1 y2 (Num 1) (Some xCenter)
      else
        let y1 := (config.height c - config.marginBottom c + config.marginTop c
                   - ys (ErrorRange.h e))%num in
        let y2 := (config.height c - config.marginBottom c + config.marginTop c
                   - ys (ErrorRange.l e))%num in
        errorbar.mk x1 x2 y1 y2 (Num 1) (Some xCenter)
  | None => errorbar.mk (Num 0) (Num 0) (Num 0) (Num 0) (Num 0) None
  end.

(* ================================================================= *)
(** ** JSON.parse *)

#[local] Unset Elimination Schemes.
Inductive json : Type :=
  | JNull
  | JBool (b : bool)
  | JNumber (q : Q)
  | JString (s : string)
  | JArray (items : list json)
  | JObject (members : list (string * json)).
#[local] Set Elimination Schemes.

Definition dquote : ascii := ascii_of_nat 34.
Definition backslash : ascii := ascii_of_nat 92.

(** What a parser returns: a value and the rest of the input, a syntax
    error, or [PUnsupported] for a [\u] escape, which is not decoded here. *)
Inductive presult (A : Type) : Type :=
  | POk (a : A) (rest : list ascii)
  | PErr
  | PUnsupported.
Arguments POk {A} a rest.
Arguments PErr {A}.
Arguments PUnsupported {A}.

Definition is_jws (c : ascii) : bool :=
  let n := nat_of_ascii c in
  ((n =? 32) || (n =? 9) || (n =? 10) || (n =? 13))%nat.

Fixpoint skip_jws (l : list ascii) : list ascii :=
  match l with
  | c :: r => if is_jws c then skip_jws r else l
  | [] => []
  end.

(** The characters of a string literal after its opening quote. *)
Fixpoint parse_chars (l : list ascii) (acc : list ascii) : presult string :=
  match l with
  | [] => PErr
  | c :: r =>
      if Ascii.eqb c dquote then POk (string_of_list_ascii (rev acc)) r
      else if Ascii.eqb c backslash then
        match r with
        | e :: r' =>
            if Ascii.eqb e dquote then parse_chars r' (e :: acc)
            else if Ascii.eqb e backslash then parse_chars r' (e :: acc)
            else if Ascii.eqb e "/"%char then parse_chars r' (e :: acc)
            else if Ascii.eqb e "b"%char then parse_chars r' (ascii_of_nat 8 :: acc)
            else if Ascii.eqb e "f"%char then parse_chars r' (ascii_of_nat 12 :: acc)
            else if Ascii.eqb e "n"%char then parse_chars r' (ascii_of_nat 10 :: acc)
            else if Ascii.eqb e "r"%char then parse_chars r' (ascii_of_nat 13 :: acc)
            else if Ascii.eqb e "t"%char then parse_chars r' (ascii_of_nat 9 :: acc)
            else if Ascii.eqb e "u"%char then PUnsupported
            else PErr
        | [] => PErr
        end
      else if (nat_of_ascii c <? 32)%nat then PErr
      else parse_chars r (c :: acc)
  end.

(** A JSON number: an optional minus sign, an integer part with no leading
    zero, an optional fraction and an optional exponent, each with at least
    one digit. *)
Definition parse_number (l : list ascii) : presult Q :=
  let '(neg, l1) := match l with
                    | "-"%char :: r => (true, r)
                    | _ => (false, l)
                    end in
  let int_part :=
    match l1 with
    | "0"%char :: r => POk 0%Z r
    | _ => let '(v, n, r) := take_digits digit_val 10%Z l1 0%Z 0%nat in
           match n with O => PErr | S _ => POk v r end
    end in
  match int_part with
  | POk ip l2 =>
      let frac :=
        match l2 with
        | "."%char :: r =>
            let '(fp, nf, r') := take_digits digit_val 10%Z r 0%Z 0%nat in
            match nf with
            | O => PErr
            | S _ => POk (inject_Z fp / inject_Z (10 ^ Z.of_nat nf))%Q r'
            end
        | _ => POk 0%Q l2
        end in
      match frac with
      | POk fq l3 =>
          let expo :=
            match l3 with
            | ("e"%char | "E"%char) :: r =>
                let '(eneg, r1) := take_sign r in
                let '(ev, en, r2) := take_digits digit_val 10%Z r1 0%Z 0%nat in
                match en with
                | O => PErr
                | S _ => POk (if eneg then (- ev)%Z else ev) r2
                end
            | _ => POk 0%Z l3
            end in
          match expo with
          | POk e l4 => POk (signed neg ((inject_Z ip + fq) * Qpower 10 e)%Q) l4
          | PErr => PErr
          | PUnsupported => PUnsupported
          end
      | PErr => PErr
      | PUnsupported => PUnsupported
      end
  | PErr => PErr
  | PUnsupported => PUnsupported
  end.

(** Assigning a property: a key that is already there keeps its place. *)
Fixpoint assign {A : Type} (key : string) (v : A) (o : list (string * A)) : list (string * A) :=
  match o with
  | (k, w) :: r => if String.eqb k key then (k, v) :: r else (k, w) :: assign key v r
  | [] => [(key, v)]
  end.

(** Recursive descent; [fuel] bounds the depth of the calls. *)
Fixpoint parse_value (fuel : nat) (l : list ascii) : presult json :=
  match fuel with
  | O => PUnsupported
  | S f =>
      match skip_jws l with
      | "n"%char :: "u"%char :: "l"%char :: "l"%char :: r => POk JNull r
      | "t"%char :: "r"%char :: "u"%char :: "e"%char :: r => POk (JBool true) r
      | "f"%char :: "a"%char :: "l"%char :: "s"%char :: "e"%char :: r => POk (JBool false) r
      | "["%char :: r =>
          match skip_jws r with
          | "]"%char :: r' => POk (JArray []) r'
          | _ => parse_elements f r []
          end
      | "{"%char :: r =>
          match skip_jws r with
          | "}"%char :: r' => POk (JObject []) r'
          | _ => parse_members f r []
          end
      | c :: r =>
          if Ascii.eqb c dquote then
            match parse_chars r [] with
            | POk s r' => POk (JString s) r'
            | PErr => PErr
            | PUnsupported => PUnsupported
            end
          else if Ascii.eqb c "-"%char || is_digit c then
            match parse_number (c :: r) with
            | POk q r' => POk (JNumber q) r'
            | PErr => PErr
            | PUnsupported => PUnsupported
            end
          else PErr
      | [] => PErr
      end
  end
with parse_elements (fuel : nat) (l : list ascii) (acc : list json) : presult json :=
  match fuel with
  | O => PUnsupported
  | S f =>
      match parse_value f l with
      | POk v r =>
          match skip_jws r with
          | ","%char :: r' => parse_elements f r' (v :: acc)
          | "]"%char :: r' => POk (JArray (rev (v :: acc))) r'
          | _ => PErr
          end
      | PErr => PErr
      | PUnsupported => PUnsupported
      end
  end
with parse_members (fuel : nat) (l : list ascii) (acc : list (string * json)) : presult json :=
  match fuel with
  | O => PUnsupported
  | S f =>
      match skip_jws l with
      | q :: r =>
          if negb (Ascii.eqb q dquote) then PErr else
          match parse_chars r [] with
          | POk k r1 =>
              match skip_jws r1 with
              | ":"%char :: r2 =>
                  match parse_value f r2 with
                  | POk v r3 =>
                      match skip_jws r3 with
                      | ","%char :: r4 => parse_members f r4 (assign k v acc)
                      | "}"%char :: r4 => POk (JObject (assign k v acc)) r4
                      | _ => PErr
                      end
                  | PErr => PErr
                  | PUnsupported => PUnsupported
                  end
              | _ => PErr
              end
          | PErr => PErr
          | PUnsupported => PUnsupported
          end
      | [] => PErr
      end
  end.

Inductive exn : Type := SyntaxError | TypeError.

(** How a call ends: it returns, it throws, or it leaves what is modelled. *)
Inductive outcome (A : Type) : Type :=
  | Returns (a : A)
  | Throws (e : exn)
  | Unmodelled.
Arguments Returns {A} a.
Arguments Throws {A} e.
Arguments Unmodelled {A}.

Definition bind {A B : Type} (m : outcome A) (k : A -> outcome B) : outcome B :=
  match m with
  | Returns a => k a
  | Throws e => Throws e
  | Unmodelled => Unmodelled
  end.

Notation "x <- m ;; k" := (bind m (fun x => k))
  (at level 61, m at next level, right associativity).

(** [JSON.parse(text)]: one value, white space around it, nothing else. *)
Definition JSON_parse (text : string) : outcome json :=
  let l := list_ascii_of_string text in
  match parse_value (2 * List.length l + 2) l with
  | POk v r =>
      match skip_jws r with
      | [] => Returns v
      | _ :: _ => Throws SyntaxError
      end
  | PErr => Throws SyntaxError
  | PUnsupported => Unmodelled
  end.

(** The payload [JSON.parse] rejects. *)
Definition malformed (text : string) : Prop := JSON_parse text = Throws SyntaxError.

(* ----------------------------------------------------------------- *)
(** *** The documented shape of the payloads *)

Definition opt_field {A : Type} (o : list (string * json)) (key : string)
    (read : json -> option A) : option (option A) :=
  match lookup key o with
  | None => Some None
  | Some j => match read j with
              | Some a => Some (Some a)
              | None => None
              end
  end.

Definition as_number (j : json) : option Q :=
  match j with JNumber q => Some q | _ => None end.

Definition as_string (j : json) : option string :=
  match j with JString s => Some s | _ => None end.

Definition num_or_NaN (o : option Q) : num :=
  match o with Some q => Num q | None => NaN end.

Definition as_error (j : json) : option ErrorRange.t :=
  match j with
  | JObject o =>
      match opt_field o "h" as_number, opt_field o "l" as_number with
      | Some h, Some l => Some (ErrorRange.mk (num_or_NaN h) (num_or_NaN l))
      | _, _ => None
      end
  | _ => None
  end.

Definition as_point (j : json) : option DataPoint.t :=
  match j with
  | JObject o =>
      match opt_field o "name" as_string, opt_field o "value" as_number,
            opt_field o "color" as_string, opt_field o "reference" as_number,
            opt_field o "error" as_error with
      | Some n, Some v, Some c, Some r, Some e =>
          Some (DataPoint.mk (match n with Some s => s | None => EmptyString end)
                             (num_or_NaN v) c r e)
      | _, _, _, _, _ => None
      end
  | _ => None
  end.

Fixpoint as_points (l : list json) : option (list DataPoint.t) :=
  match l with
  | [] => Some []
  | j :: r =>
      match as_point j, as_points r with
      | Some d, Some ds => Some (d :: ds)
      | _, _ => None
      end
  end.

(** [data]: an array of columns. *)
Definition as_data (j : json) : outcome (list DataPoint.t) :=
  match j with
  | JArray l => match as_points l with
                | Some ds => Returns ds
                | None => Unmodelled
                end
  | _ => Unmodelled
  end.

Definition threshold_key (k : string) : bool :=
  String.eqb k "hh" || String.eqb k "h" || String.eqb k "l" || String.eqb k "ll".

Fixpoint as_threshold_members (o : list (string * json)) : option Thresholds :=
  match o with
  | [] => Some []
  | (k, JNumber q) :: r =>
      if threshold_key k then
        match as_threshold_members r with
        | Some t => Some ((k, q) :: t)
        | None => None
        end
      else None
  | _ :: _ => None
  end.

(** [thresholds]: [null], or an object with any of [hh], [h], [l], [ll]. *)
Definition as_thresholds (j : json) : outcome (option Thresholds) :=
  match j with
  | JNull => Returns None
  | JObject o => match as_threshold_members o with
                 | Some t => Returns (Some t)
                 | None => Unmodelled
                 end
  | _ => Unmodelled
  end.

(* ================================================================= *)
(** ** The drawing *)

(** An attribute value: a number, a string, or a number written between two
    strings (as in [size + 'px']), kept unformatted. *)
Inductive attrval : Type :=
  | ANum (n : num)
  | AStr (s : string)
  | AFmt (pre : string) (n : num) (post : string).

(** The generator [d3.svg.axis()] as [renderYAxis] configures it; what it
    draws inside its group is d3's business. *)
Module axis.
Record t : Type := mk {
  ticks : num;
  orient : string;
  tickSize : num * num;
  scale : linear.t
}.
End axis.

Inductive content : Type :=
  | Empty
  | Text (s : string)
  | Axis (a : axis.t).

Module element.
Record t : Type := mk {
  tag : string;
  datum : option DataPoint.t;
  attrs : list (string * attrval);
  inner : content
}.

Fixpoint remove (key : string) (l : list (string * attrval)) : list (string * attrval) :=
  match l with
  | (k, v) :: r => if String.eqb k key then r else (k, v) :: remove key r
  | [] => []
  end.

(** [.attr(key, v)]: [setAttribute], or [removeAttribute] when the value
    is [undefined]. *)
Definition attr (key : string) (v : option attrval) (e : t) : t :=
  match v with
  | Some a => mk (tag e) (datum e) (assign key a (attrs e)) (inner e)
  | None => mk (tag e) (datum e) (remove key (attrs e)) (inner e)
  end.

Definition get (key : string) (e : t) : option attrval := lookup key (attrs e).

Definition set_text (s : string) (e : t) : t :=
  mk (tag e) (datum e) (attrs e) (Text s).

Definition set_inner (c : content) (e : t) : t :=
  mk (tag e) (datum e) (attrs e) c.

Definition set_datum (d : DataPoint.t) (e : t) : t :=
  mk (tag e) (Some d) (attrs e) (inner e).

Definition create (tag : string) : t := mk tag None [] Empty.
End element.

Definition drawing : Type := list element.t.

(** The words of a [class] attribute. *)
Fixpoint words_aux (l : list ascii) (cur : list ascii) : list string :=
  match l with
  | [] => match cur with
          | [] => []
          | _ :: _ => [string_of_list_ascii (rev cur)]
          end
  | c :: r =>
      if is_ws c then
        match cur with
        | [] => words_aux r []
        | _ :: _ => string_of_list_ascii (rev cur) :: words_aux r []
        end
      else words_aux r (c :: cur)
  end.

Definition words (s : string) : list string := words_aux (list_ascii_of_string s) [].

Definition classes (e : element.t) : list string :=
  match element.get "class" e with
  | Some (AStr s) => words s
  | _ => []
  end.

Definition has_class (c : string) (e : element.t) : bool :=
  existsb (String.eqb c) (classes e).

(** A selector [tag], [.class] or [tag.class]. *)
Module selector.
Record t : Type := mk { tag : option string; cls : option string }.
End selector.

Definition sel_tag (tag : string) : selector.t := selector.mk (Some tag) None.
Definition sel_class (c : string) : selector.t := selector.mk None (Some c).
Definition sel_tag_class (tag c : string) : selector.t := selector.mk (Some tag) (Some c).

Definition matches (s : selector.t) (e : element.t) : bool :=
  match selector.tag s with
  | Some t => String.eqb t (element.tag e)
  | None => true
  end
  &&
  match selector.cls s with
  | Some c => has_class c e
  | None => true
  end.

(** [svg.selectAll(s)]: the matching elements, in document order. *)
Definition selectAll (s : selector.t) (svg : drawing) : list element.t :=
  filter (matches s) svg.

(** One call of a chain on an entering or appended element. *)
Inductive step : Type :=
  | attr (key : string) (f : DataPoint.t -> nat -> option attrval)
  | text (f : DataPoint.t -> string).

Definition run_step (d : DataPoint.t) (i : nat) (e : element.t) (s : step) : element.t :=
  match s with
  | attr key f => element.attr key (f d i) e
  | text f => element.set_text (f d) e
  end.

(** [.data(values)] on a selection: its first elements are bound anew, by
    index. *)
Fixpoint rebind (s : selector.t) (values : list DataPoint.t) (svg : drawing) : drawing :=
  match svg with
  | [] => []
  | e :: r =>
      if matches s e then
        match values with
        | d :: ds => element.set_datum d e :: rebind s ds r
        | [] => e :: r
        end
      else e :: rebind s values r
  end.

Fixpoint enter_from (i : nat) (values : list DataPoint.t) (tag : string)
    (chain : list step) : drawing :=
  match values with
  | [] => []
  | d :: r =>
      fold_left (run_step d i) chain (element.mk tag (Some d) [] Empty)
        :: enter_from (S i) r tag chain
  end.

(** [svg.selectAll(s).data(values).enter().append(tag)] followed by a chain
    of [.attr] and [.text] calls, transitions included: one new element, at
    the end of the drawing, for every value whose index is beyond the current
    selection.  The callbacks are pure, so running the chain element by
    element gives what d3 gets call by call. *)
Definition enter_append (s : selector.t) (values : list DataPoint.t) (tag : string)
    (chain : list step) (svg : drawing) : drawing :=
  let n := List.length (selectAll s svg) in
  rebind s values svg ++ enter_from n (skipn n values) tag chain.

(** [svg.append(tag)] followed by [.attr] calls with constant values. *)
Definition append (tag : string) (chain : list (string * option attrval))
    (inner : content) (svg : drawing) : drawing :=
  svg ++ [element.set_inner inner
            (fold_left (fun e kv => element.attr (fst kv) (snd kv) e) chain
                       (element.create tag))].

Inductive completion : Type :=
  | Normal
  | Abrupt (e : exn).

(** What a callback of [update] evaluates to. *)
Inductive evaluated : Type :=
  | Value (v : option attrval)
  | Raise (e : exn).

(** [selection.transition().attr(key, f)]: d3 calls [f] at once on each
    selected element, in document order, with the index of the element in
    the selection, and the transition ends on the value returned.  A call
    that throws leaves the elements after it, and the rest of the chain,
    undone.

    The value a transition ends on is written by d3's interpolator.  For a
    number that is the number.  For a text that d3 reads as a colour it is
    the colour in the form [#rrggbb] with lower-case digits, unless the
    attribute already has the text, when d3 leaves it alone.  The colours of
    [defaults] are in that form, so for them, and for every text in that
    form, the value written here is the one d3 writes; what is stated about
    [fill] after an update is stated for such texts only. *)
Fixpoint each_attr (s : selector.t) (key : string) (f : nat -> evaluated) (i : nat)
    (svg : drawing) : drawing * completion :=
  match svg with
  | [] => ([], Normal)
  | e :: r =>
      if matches s e then
        match f i with
        | Value v =>
            let (r', c) := each_attr s key f (S i) r in
            (element.attr key v e :: r', c)
        | Raise ex => (e :: r, Abrupt ex)
        end
      else
        let (r', c) := each_attr s key f i r in
        (e :: r', c)
  end.

Definition and_then (m : drawing * completion) (k : drawing -> drawing * completion)
    : drawing * completion :=
  match m with
  | (svg, Normal) => k svg
  | (svg, Abrupt ex) => (svg, Abrupt ex)
  end.

Notation "m >>= k" := (and_then m k) (at level 50, left associativity).

(** [f(config.data[i])]: reading a property of [undefined] is a TypeError. *)
Definition at_index (data : list DataPoint.t) (f : DataPoint.t -> option attrval)
    (i : nat) : evaluated :=
  match nth_error data i with
  | Some d => Value (f d)
  | None => Raise TypeError
  end.

(* ================================================================= *)
(** ** RENDERING METHODS *)

Definition num_attr (n : num) : option attrval := Some (ANum n).
Definition str_attr (s : string) : option attrval := Some (AStr s).
Definition opt_str_attr (s : option string) : option attrval :=
  match s with
  | Some s => Some (AStr s)
  | None => None
  end.
Definition opt_num_attr (n : option num) : option attrval :=
  match n with
  | Some n => Some (ANum n)
  | None => None
  end.

Definition renderBackgrounds (svg : drawing) (c : config.t) : drawing :=
  enter_append (sel_tag_class "rect" "bg") (config.data c) "rect"
    [ attr "class" (fun _ _ => str_attr "bg");
      attr "x" (fun d i => num_attr (scale (config.xScale c) (of_nat i)));
      attr "y" (fun _ _ => num_attr (config.marginTop c));
      attr "width" (fun _ _ => num_attr (config.colWidth c));
      attr "height" (fun _ _ =>
        num_attr (config.height c - config.marginTop c - config.marginBottom c)%num);
      attr "fill" (fun _ _ => str_attr defaults.colors.background) ]
    svg.

Definition thresholdMarker (c : config.t) (svg : drawing) (kv : string * Q) : drawing :=
  let threshold := fst kv in
  let y := (config.height c - config.marginBottom c + config.marginTop c
            - scale (config.yScale c) (Num (snd kv)))%num in
  append "line"
    [ ("x1", num_attr (config.marginLeft c));
      ("x2", num_attr (config.width c - config.marginRight c)%num);
      ("y1", num_attr y);
      ("y2", num_attr y);
      ("stroke-width", num_attr (Num 1));
      ("stroke", if config.showColoredThresholds c
                 then opt_str_attr (defaults.colors.get threshold)
                 else str_attr defaults.colors.threshold);
      ("shape-rendering", str_attr "crispEdges") ]
    Empty svg.

Definition renderThresholdMarkers (svg : drawing) (c : config.t) : drawing :=
  match config.thresholds c with
  | Some t => fold_left (thresholdMarker c) t svg
  | None => svg
  end.

(** The labels are the [text] children of the [svg] node.  The labels of
    the ticks, which d3 draws inside the group of the y-axis, are [text]
    nodes too and come after them in the document; a drawing keeps the
    children only, so the join is the one of the source as long as the data
    are no more than the labels drawn, as they are when [link] renders. *)
Definition renderXAxis (svg : drawing) (c : config.t) : drawing :=
  enter_append (sel_tag "text") (config.data c) "text"
    [ text (fun d => DataPoint.name d);
      attr "text-anchor" (fun _ _ => str_attr "middle");
      attr "x" (fun d i =>
        num_attr (scale (config.xScale c) (of_nat i) + config.colWidth c / Num 2)%num);
      attr "y" (fun _ _ =>
        num_attr (config.height c - config.marginBottom c
                  + Num 1.3 * getFontSize (config.colWidth c))%num);
      attr "font-family" (fun _ _ => str_attr "sans-serif");
      attr "font-size" (fun _ _ =>
        Some (AFmt EmptyString (getFontSize (config.colWidth c)) "px"));
      attr "fill" (fun _ _ => str_attr defaults.colors.labels) ]
    svg.

Definition renderYAxis (svg : drawing) (c : config.t) : drawing :=
  let yAxisScale :=
    axis.mk (getTickCount (config.height c - config.marginBottom c)%num)
            "left"
            ((getFontSize (config.colWidth c) / Num 2)%num, Num 0)
            (config.yAxisLabelScale c) in
  append "g"
    [ ("transform", Some (AFmt "translate(" (config.marginLeft c) ",0)"));
      ("font-family", str_attr "sans-serif");
      ("font-size", Some (AFmt EmptyString (getFontSize (config.colWidth c)) "px"));
      ("fill", str_attr defaults.colors.labels) ]
    (Axis yAxisScale) svg.

(** [config.baseline] is a number or [null]; as an operand [null] is [0]. *)
Definition renderDataFromBaseline (svg : drawing) (c : config.t) : drawing :=
  let baselineY :=
    (config.height c - config.marginBottom c + config.marginTop c
     - scale (config.yScale c) (ToNumber (config.baseline c)))%num in
  let svg :=
    enter_append (sel_tag_class "rect" "data") (config.data c) "rect"
      [ attr "class" (fun _ _ => str_attr "data");
        attr "shape-rendering" (fun _ _ => str_attr "crispEdges");
        attr "x" (fun d i => num_attr (scale (config.xScale c) (of_nat i)));
        attr "y" (fun _ _ => num_attr baselineY);
        attr "height" (fun _ _ => num_attr (Num (1 # 1000000)));
        attr "width" (fun _ _ => num_attr (config.colWidth c));
        attr "fill" (fun d _ =>
          if color_truthy (DataPoint.color d) then opt_str_attr (DataPoint.color d)
          else str_attr (getColor (DataPoint.value d) (config.thresholds c)));
        (* .transition().duration(config.defaults.duration) *)
        attr "y" (fun d _ =>
          if (DataPoint.value d >=? ToNumber (config.baseline c))%num then
            num_attr (baselineY - nabs (scale (config.yScale c) (ToNumber (config.baseline c))
                                        - scale (config.yScale c) (DataPoint.value d)))%num
          else num_attr baselineY);
        attr "height" (fun d _ =>
          let h := if num_truthy (DataPoint.value d)
                   then nabs (scale (config.yScale c) (ToNumber (config.baseline c))
                              - scale (config.yScale c) (DataPoint.value d))%num
                   else Num 0 in
          num_attr h) ]
      svg in
  append "line"
    [ ("x1", num_attr (config.marginLeft c));
      ("x2", num_attr (config.width c - config.marginRight c)%num);
      ("y1", num_attr baselineY);
      ("y2", num_attr baselineY);
      ("stroke-width", num_attr (config.stroke c));
      ("stroke", str_attr defaults.colors.reference);
      ("shape-rendering", str_attr "crispEdges") ]
    Empty svg.

Definition updateDataFromBaseline (svg : drawing) (c : config.t) : drawing * completion :=
  let baselineY :=
    (config.height c - config.marginBottom c + config.marginTop c
     - scale (config.yScale c) (ToNumber (config.baseline c)))%num in
  (* .transition().duration(config.defaults.duration) *)
  each_attr (sel_class "data") "fill"
    (at_index (config.data c) (fun di =>
       if color_truthy (DataPoint.color di) then opt_str_attr (DataPoint.color di)
       else str_attr (getColor (DataPoint.value di) (config.thresholds c)))) 0 svg
  >>= each_attr (sel_class "data") "y"
    (at_index (config.data c) (fun di =>
       if (DataPoint.value di >=? ToNumber (config.baseline c))%num then
         num_attr (baselineY - nabs (scale (config.yScale c) (ToNumber (config.baseline c))
                                     - scale (config.yScale c) (DataPoint.value di)))%num
       else num_attr baselineY)) 0
  >>= each_attr (sel_class "data") "height"
    (at_index (config.data c) (fun di =>
       let h := if num_truthy (DataPoint.value di)
                then nabs (scale (config.yScale c) (ToNumber (config.baseline c))
                           - scale (config.yScale c) (DataPoint.value di))%num
                else Num 0 in
       num_attr h)) 0.

Definition renderDataFromAxis (svg : drawing) (c : config.t) : drawing :=
  enter_append (sel_tag_class "rect" "data") (config.data c) "rect"
    [ attr "shape-rendering" (fun _ _ => str_attr "crispEdges");
      attr "class" (fun _ _ => str_attr "data");
      attr "width" (fun _ _ => num_attr (config.colWidth c));
      attr "height" (fun _ _ => num_attr (Num (1 # 1000000)));
      attr "y" (fun _ _ =>
        num_attr (config.height c - config.marginBottom c + config.marginTop c)%num);
      attr "fill" (fun d _ =>
        if color_truthy (DataPoint.color d) then opt_str_attr (DataPoint.color d)
        else str_attr (getColor (DataPoint.value d) (config.thresholds c)));
      attr "x" (fun d i => num_attr (scale (config.xScale c) (of_nat i)));
      (* .transition().duration(config.defaults.duration) *)
      attr "y" (fun d _ =>
        num_attr (config.height c - config.marginBottom c + config.marginTop c
                  - scale (config.yScale c) (DataPoint.value d))%num);
      attr "height" (fun d _ =>
        num_attr (scale (config.yScale c) (DataPoint.value d) - config.marginTop c)%num) ]
    svg.

Definition updateDataFromAxis (svg : drawing) (c : config.t) : drawing * completion :=
  (* .transition().duration(config.defaults.duration) *)
  each_attr (sel_class "data") "fill"
    (at_index (config.data c) (fun di =>
       if color_truthy (DataPoint.color di) then opt_str_attr (DataPoint.color di)
       else str_attr (getColor (DataPoint.value di) (config.thresholds c)))) 0 svg
  >>= each_attr (sel_class "data") "y"
    (at_index (config.data c) (fun di =>
       num_attr (config.height c - config.marginBottom c + config.marginTop c
                 - scale (config.yScale c) (DataPoint.value di))%num)) 0
  >>= each_attr (sel_class "data") "height"
    (at_index (config.data c) (fun di =>
       num_attr (scale (config.yScale c) (DataPoint.value di) - config.marginTop c)%num)) 0.

Definition renderErrorBars (svg : drawing) (c : config.t) : drawing :=
  let svg :=
    enter_append (sel_tag_class "rect" "error") (config.data c) "line"
      [ attr "class" (fun d i => str_attr ("error-center col-" ++ string_of_nat i));
        attr "x1" (fun d i => opt_num_attr (errorbar.xCenter (errorBars d i c)));
        attr "x2" (fun d i => opt_num_attr (errorbar.xCenter (errorBars d i c)));
        attr "y1" (fun d i => num_attr (errorbar.y1 (errorBars d i c)));
        attr "y2" (fun d i => num_attr (errorbar.y2 (errorBars d i c)));
        attr "stroke-width" (fun d i => num_attr (errorbar.stroke (errorBars d i c)));
        attr "stroke" (fun _ _ => str_attr defaults.colors.reference);
        attr "shape-rendering" (fun _ _ => str_attr "crispEdges") ]
      svg in
  let svg :=
    enter_append (sel_tag_class "rect" "error") (config.data c) "line"
      [ attr "class" (fun _ _ => str_attr "error-high");
        attr "x1" (fun d i => num_attr (errorbar.x1 (errorBars d i c)));
        attr "x2" (fun d i => num_attr (errorbar.x2 (errorBars d i c)));
        attr "y1" (fun d i => num_attr (errorbar.y1 (errorBars d i c)));
        attr "y2" (fun d i => num_attr (errorbar.y1 (errorBars d i c)));
        attr "stroke-width" (fun d i => num_attr (errorbar.stroke (errorBars d i c)));
        attr "stroke" (fun _ _ => str_attr defaults.colors.reference);
        attr "shape-rendering" (fun _ _ => str_attr "crispEdges") ]
      svg in
  enter_append (sel_tag_class "rect" "error") (config.data c) "line"
    [ attr "class" (fun _ _ => str_attr "error-low");
      attr "x1" (fun d i => num_attr (errorbar.x1 (errorBars d i c)));
      attr "x2" (fun d i => num_attr (errorbar.x2 (errorBars d i c)));
      attr "y1" (fun d i => num_attr (errorbar.y2 (errorBars d i c)));
      attr "y2" (fun d i => num_attr (errorbar.y2 (errorBars d i c)));
      attr "stroke-width" (fun d i => num_attr (errorbar.stroke (errorBars d i c)));
      attr "stroke" (fun _ _ => str_attr defaults.colors.reference);
      attr "shape-rendering" (fun _ _ => str_attr "crispEdges") ]
    svg.

(** Two selections and nothing done with them. *)
Definition updateErrorBars (svg : drawing) (c : config.t) : drawing :=
  let _ := selectAll (sel_class "error-center") svg in
  svg.

Definition renderBorders (svg : drawing) (c : config.t) : drawing :=
  let svg :=
    append "line"
      [ ("x1", num_attr (config.marginLeft c));
        ("x2", num_attr (config.width c - config.marginRight c)%num);
        ("y1", num_attr (config.marginTop c));
        ("y2", num_attr (config.marginTop c));
        ("stroke-width", num_attr (Num 1));
        ("stroke", str_attr defaults.colors.borders);
        ("shape-rendering", str_attr "crispEdges") ]
      Empty svg in
  append "line"
    [ ("x1", num_attr (config.marginLeft c));
      ("x2", num_attr (config.width c - config.marginRight c)%num);
      ("y1", num_attr (config.height c - config.marginBottom c)%num);
      ("y2", num_attr (config.height c - config.marginBottom c)%num);
      ("stroke-width", num_attr (Num 1));
      ("stroke", str_attr defaults.colors.borders);
      ("shape-rendering", str_attr "crispEdges") ]
    Empty svg.

Definition renderReference (svg : drawing) (c : config.t) : drawing :=
  enter_append (sel_tag_class "line" "data") (config.data c) "line"
    [ attr "class" (fun _ _ => str_attr "reference");
      attr "x1" (fun d i => num_attr (scale (config.xScale c) (of_nat i) - Num 1)%num);
      attr "x2" (fun d i =>
        num_attr (scale (config.xScale c) (of_nat i) + config.colWidth c + Num 1)%num);
      attr "y1" (fun d _ =>
        num_attr (config.height c - config.marginBottom c + config.marginTop c
                  - scale (config.yScale c) (reference_or_0 (DataPoint.reference d)))%num);
      attr "y2" (fun d _ =>
        num_attr (config.height c - config.marginBottom c + config.marginTop c
                  - scale (config.yScale c) (reference_or_0 (DataPoint.reference d)))%num);
      attr "stroke-width" (fun d _ =>
        if reference_truthy (DataPoint.reference d)
        then num_attr (config.stroke c) else num_attr (Num 0));
      attr "stroke" (fun _ _ => str_attr defaults.colors.reference);
      attr "shape-rendering" (fun _ _ => str_attr "crispEdges") ]
    svg.

Definition updateReference (svg : drawing) (c : config.t) : drawing * completion :=
  (* .transition().duration(config.defaults.duration) *)
  each_attr (sel_class "reference") "y1"
    (at_index (config.data c) (fun di =>
       num_attr (config.height c - config.marginBottom c + config.marginTop c
                 - scale (config.yScale c) (reference_or_0 (DataPoint.reference di)))%num)) 0 svg
  >>= each_attr (sel_class "reference") "y2"
    (at_index (config.data c) (fun di =>
       num_attr (config.height c - config.marginBottom c + config.marginTop c
                 - scale (config.yScale c) (reference_or_0 (DataPoint.reference di)))%num)) 0.

(* ================================================================= *)
(** ** LINKING FUNCTION *)

(** The attributes of the directive, each a string or [undefined]. *)
Module params.
Record t : Type := mk {
  data : option string;
  baseline : option string;
  thresholds : option string;
  showColoredThresholds : option string;
  showXAxis : option string;
  showYAxis : option string;
  showTooltip : option string;
  max : option string;
  min : option string;
  width : option string;
  height : option string
}.
End params.

(** [a === 'true'] *)
Definition is_true (a : option string) : bool :=
  match a with
  | Some s => String.eqb s "true"
  | None => false
  end.

(** [a ? f(a) : dflt] *)
Definition if_given {A : Type} (a : option string) (f : string -> A) (dflt : A) : A :=
  match a with
  | Some s => if str_truthy s then f s else dflt
  | None => dflt
  end.

Definition modelled {A : Type} (o : option A) : outcome A :=
  match o with
  | Some a => Returns a
  | None => Unmodelled
  end.

(** Two calls of [JSON.parse], one after the other.  A call returns or
    throws a [SyntaxError], nothing else; so when the second throws the
    sequence throws, also when the value of the first is not modelled. *)
Definition parse_both (a b : outcome json) : outcome (json * json) :=
  match a, b with
  | Throws e, _ => Throws e
  | _, Throws e => Throws e
  | Returns x, Returns y => Returns (x, y)
  | _, _ => Unmodelled
  end.

(** [x || null] *)
Definition or_null (x : num) : option num :=
  if num_truthy x then Some x else None.

(** An array is an object, and every object is truthy.  [config.data] is an
    array here: [as_data] reads arrays only.  A payload that parses to a
    falsy value ([0], [false], the empty string), for which the source takes
    the other branch of [if(config.data)], is not an array. *)
Definition array_truthy {A : Type} (a : list A) : bool := true.

(** [config.showYAxis]: [link] never assigns this property, so the read gives
    [undefined]. *)
Definition config_showYAxis : bool := attr_truthy None.

(** What [link] leaves behind: the closure of [render] and [update] (the
    three flags, [params], [config]) and the nodes it put in the container. *)
Module state.
Record t : Type := mk {
  params : params.t;
  showBaseline : bool;
  showXAxis : bool;
  showYAxis : bool;
  cfg : config.t;
  tooltip : list (string * string);
  svg_attrs : list (string * attrval);
  svg : drawing;
  console : list string
}.

Definition set_svg (st : t) (svg' : drawing) : t :=
  mk (params st) (showBaseline st) (showXAxis st) (showYAxis st) (cfg st)
     (tooltip st) (svg_attrs st) svg' (console st).

Definition set_cfg (st : t) (c : config.t) : t :=
  mk (params st) (showBaseline st) (showXAxis st) (showYAxis st) c
     (tooltip st) (svg_attrs st) (svg st) (console st).

Definition log (st : t) (msg : string) : t :=
  mk (params st) (showBaseline st) (showXAxis st) (showYAxis st) (cfg st)
     (tooltip st) (svg_attrs st) (svg st) (console st ++ [msg]).
End state.

(** [params.render] *)
Definition render (st : state.t) : state.t :=
  let config := state.cfg st in
  let svg := state.svg st in
  let svg := renderBackgrounds svg config in
  let svg := if attr_truthy (params.thresholds (state.params st))
             then renderThresholdMarkers svg config else svg in
  let svg := if state.showXAxis st then renderXAxis svg config else svg in
  let svg := if state.showYAxis st then renderYAxis svg config else svg in
  let svg := if state.showBaseline st
             then renderDataFromBaseline svg config
             else renderDataFromAxis svg config in
  let svg := renderErrorBars svg config in
  let svg := renderBorders svg config in
  let svg := renderReference svg config in
  state.set_svg st svg.

(** [params.update] *)
Definition update (st : state.t) (newData : list DataPoint.t) : state.t * completion :=
  let config := config.set_data (state.cfg st) newData in
  let st := state.set_cfg st config in
  let '(svg, c) :=
    (if state.showBaseline st
     then updateDataFromBaseline (state.svg st) config
     else updateDataFromAxis (state.svg st) config)
    >>= (fun svg => (updateErrorBars svg config, Normal))
    >>= (fun svg => updateReference svg config) in
  (state.set_svg st svg, c).

(** The body of [link] down to the creation of the [svg] node: the flags,
    the configuration, the tooltip and an empty drawing. *)
Definition link_setup (p : params.t) : outcome state.t :=
  let showBaseline := attr_truthy (params.baseline p) in
  let showXAxis := is_true (params.showXAxis p) in
  let showYAxis := is_true (params.showYAxis p) in
  (* The two calls of JSON.parse, the only steps that can throw, in the
     order of the source; the conversions between them are pure. *)
  parsed <- parse_both (if_given (params.thresholds p) JSON_parse (Returns JNull))
                       (if_given (params.data p) JSON_parse (Returns (JArray []))) ;;
  let thresholds_json := fst parsed in
  let data_json := snd parsed in
  (* USER-PROVIDED VALUES *)
  let width := if_given (params.width p) parseInt (Num 150) in
  let height := if_given (params.height p) parseInt (Num 75) in
  max <- modelled (if_given (params.max p) parseFloat (Some (Num 100))) ;;
  min <- modelled (if_given (params.min p) parseFloat (Some (Num 0))) ;;
  baseline_num <- modelled (parseFloat_attr (params.baseline p)) ;;
  let baseline := or_null baseline_num in
  thresholds <- as_thresholds thresholds_json ;;
  (* CALCULATED VALUES *)
  data <- as_data data_json ;;
  let colWidth := getColWidth width (List.length data) max min config_showYAxis in
  let stroke := if (height >=? Num 150)%num then Num 2 else Num 1 in
  let margins := getMargins colWidth max min showXAxis showYAxis in
  let marginTop := margins.top margins in
  let marginBottom := margins.bottom margins in
  let marginLeft := margins.left margins in
  let marginRight := margins.right margins in
  let showColoredThresholds := is_true (params.showColoredThresholds p) in
  let showTooltip := is_true (params.showTooltip p) in
  let tooltip := [("position", "absolute"); ("z-index", "10"); ("visibility", "hidden")] in
  let yScale := linear.mk min max marginTop (height - marginBottom)%num in
  let xScale := linear.mk (Num 0) (of_nat (List.length data) - Num 1)%num
                          marginLeft (width - colWidth - marginRight)%num in
  let yAxisLabelScale := linear.mk min max (height - marginBottom)%num marginTop in
  let config :=
    config.mk width height max min baseline thresholds data colWidth stroke
              marginTop marginBottom marginLeft marginRight
              showColoredThresholds showTooltip yScale xScale yAxisLabelScale in
  Returns (state.mk p showBaseline showXAxis showYAxis config tooltip
                    [("width", ANum width); ("height", ANum height)] [] []).

Definition link (p : params.t) : outcome state.t :=
  st <- link_setup p ;;
  (* INITIALIZE *)
  if array_truthy (config.data (state.cfg st))
  then Returns (render st)
  else Returns (state.log st "chart-column at [element] has no data.").

(** A string between double quotes, for writing JSON payloads. *)
Definition quoted (s : string) : string :=
  String dquote (s ++ String dquote EmptyString).

(* ================================================================= *)
(** ** The directive *)

(** The attributes are bound with ['@']: each one is a string, or
    [undefined] when it is left out.  [newVal !== oldVal] on such values. *)
Definition same_value (a b : option string) : bool :=
  match a, b with
  | Some x, Some y => String.eqb x y
  | None, None => true
  | _, _ => false
  end.

(** [JSON.parse] converts its argument to a string first. *)
Definition ToString_attr (a : option string) : string :=
  match a with
  | Some s => s
  | None => "undefined"
  end.

(** The listener the controller registers with [$scope.$watch('data', ..)],
    on the scope [link] has put [update] on.  [JSON.parse] may throw, before
    anything is changed; [update] ends as it does. *)
Definition watch_data (st : state.t) (newVal oldVal : option string)
    : outcome (state.t * completion) :=
  if negb (same_value newVal oldVal) then
    j <- JSON_parse (ToString_attr newVal) ;;
    newData <- as_data j ;;
    Returns (update st newData)
  else Returns (st, Normal).

(* ================================================================= *)
(** ** The tooltip *)

(** The property [tooltip] of a point: a title and rows of a name and a
    value, each as the text it is concatenated as. *)
Module tip.
Record t : Type := mk { title : string; data : list (string * string) }.
End tip.

(** The [div] of the tooltip: its inline styles and its content. *)
Module tooltip.
Record t : Type := mk { styles : list (string * string); html : string }.

Definition style (name value : string) (tt : t) : t :=
  mk (assign name value (styles tt)) (html tt).

Definition set_html (s : string) (tt : t) : t := mk (styles tt) s.
End tooltip.

(** The global [event] the handlers read. *)
Module pointer.
Record t : Type := mk { layerX : num; layerY : num }.
End pointer.

(** What the mouse does over a background or a bar whose point has the
    given property [tooltip] ([None] when the point has none). *)
Inductive mouse : Type :=
  | mouseover (item : option tip.t) (event : pointer.t)
  | mousemove (event : pointer.t)
  | mouseout.

Section Tooltip.

(** [clientWidth] and [clientHeight] of the tooltip, as the browser lays
    it out. *)
Variable client : tooltip.t -> num * num.

Definition moveTooltip (tt : tooltip.t) (event : pointer.t) : tooltip.t :=
  let width := fst (client tt) in
  let height := snd (client tt) in
  tooltip.style "left"
    (Number_toString (pointer.layerX event - width / Num 2) ++ "px")%string
    (tooltip.style "top"
       (Number_toString (pointer.layerY event - height - Num 10) ++ "px")%string tt).

Definition hideTooltip (tt : tooltip.t) : tooltip.t :=
  tooltip.set_html EmptyString (tooltip.style "visibility" "visible" tt).

(** Reading [item.tooltip.title] of a point without the property is a
    TypeError, thrown before the tooltip is touched. *)
Definition renderTooltip (tt : tooltip.t) (item : option tip.t) (event : pointer.t)
    : outcome tooltip.t :=
  match item with
  | None => Throws TypeError
  | Some t =>
      let html :=
        ("<div class=" ++ quoted "tooltip-holder" ++ "><div class=" ++ quoted "tooltip"
         ++ "><div class=" ++ quoted "title" ++ ">" ++ tip.title t
         ++ "</div><table class=" ++ quoted "data style-scope" ++ ">")%string in
      let html :=
        fold_left (fun html row =>
                     (html ++ "<tr><td class=" ++ quoted "name" ++ ">" ++ fst row
                      ++ "</td><td>" ++ snd row ++ "</td></tr>")%string)
                  (tip.data t) html in
      let html := (html ++ "</table></div><div class=" ++ quoted "arrow-down"
                   ++ "></div></div>")%string in
      let tt := tooltip.style "visibility" "visible" (tooltip.set_html html tt) in
      Returns (moveTooltip tt event)
  end.

(** The three listeners [renderBackgrounds], [renderDataFromBaseline] and
    [renderDataFromAxis] put on every element they append. *)
Definition on_mouse (c : config.t) (tt : tooltip.t) (m : mouse) : outcome tooltip.t :=
  if config.showTooltip c then
    match m with
    | mouseover item event => renderTooltip tt item event
    | mousemove event => Returns (moveTooltip tt event)
    | mouseout => Returns (hideTooltip tt)
    end
  else Returns tt.

(** The tooltip after an event: a listener that throws has not touched
    it. *)
Definition after_mouse (c : config.t) (tt : tooltip.t) (m : mouse) : tooltip.t :=
  match on_mouse c tt m with
  | Returns tt' => tt'
  | _ => tt
  end.

End Tooltip.

(** The tooltip as [link] leaves it. *)
Definition tooltip_of (st : state.t) : tooltip.t :=
  tooltip.mk (state.tooltip st) EmptyString.

(* ================================================================= *)
(** ** Vocabulary of the statements *)

(** [2 * numCols - 1] as a rational. *)
Definition slots (n : nat) : Q := (2 * inject_Z (Z.of_nat n) - 1)%Q.

(** [x < 20 ? x : 20] *)
Definition cap20 (x : num) : num := if (x <? Num 20)%num then x else Num 20.

(** The width the columns share: the chart width, less the estimated width
    of the labels when the y-axis is shown. *)
Definition available (width max min : num) (showYAxis : bool) : num :=
  if showYAxis then (width - Num 10 * of_nat (numChars max min))%num else width.

(** An element with the given tag and class words. *)
Definition kind (t : string) (cls : list string) (e : element.t) : Prop :=
  element.tag e = t /\ classes e = cls.

(** A line that carries neither the class [data] nor the class [reference]. *)
Definition other_line (e : element.t) : Prop :=
  element.tag e = "line" /\ has_class "data" e = false /\ has_class "reference" e = false.

(** What a selector makes of an element of a known kind. *)
Definition matches_kind (s : selector.t) (t : string) (cls : list string) : bool :=
  match selector.tag s with
  | Some t' => String.eqb t' t
  | None => true
  end
  &&
  match selector.cls s with
  | Some c => existsb (String.eqb c) cls
  | None => true
  end.

(** The bars and the reference markers as the renderers draw them on an
    empty drawing. *)
Definition drawn_bars (showBaseline : bool) (c : config.t) : drawing :=
  selectAll (sel_class "data")
    (if showBaseline then renderDataFromBaseline [] c else renderDataFromAxis [] c).

Definition drawn_references (c : config.t) : drawing :=
  selectAll (sel_class "reference") (renderReference [] c).

(** The eight layers of [render], in the order of the calls. *)
Definition layers (st : state.t) : drawing :=
  let c := state.cfg st in
  renderBackgrounds [] c
  ++ (if attr_truthy (params.thresholds (state.params st))
      then renderThresholdMarkers [] c else [])
  ++ (if state.showXAxis st then renderXAxis [] c else [])
  ++ (if state.showYAxis st then renderYAxis [] c else [])
  ++ (if state.showBaseline st then renderDataFromBaseline [] c else renderDataFromAxis [] c)
  ++ renderErrorBars [] c
  ++ renderBorders [] c
  ++ renderReference [] c.

(** [e'] comes from [e] by calls of [.attr] on the given keys. *)
Inductive modified (keys : list string) : element.t -> element.t -> Prop :=
  | modified_none (e : element.t) : modified keys e e
  | modified_attr (e e' : element.t) (k : string) (v : option attrval) :
      modified keys e e' -> In k keys -> modified keys e (element.attr k v e').

(** What calls of [.attr] on the selection [s] do to an element: nothing to
    one that is not selected. *)
Definition selected_modified (s : selector.t) (keys : list string)
    (e e' : element.t) : Prop :=
  e' = e \/ (matches s e = true /\ modified keys e e').

(** What [update] may do to an element: nothing if it has neither the class
    [data] nor the class [reference]; otherwise the tag, the datum, the
    content and the class stay, and only [fill], [y] and [height] of a bar,
    [y1] and [y2] of a reference marker may differ. *)
Definition updated (e e' : element.t) : Prop :=
  element.tag e' = element.tag e
  /\ element.datum e' = element.datum e
  /\ element.inner e' = element.inner e
  /\ classes e' = classes e
  /\ (has_class "data" e = false -> has_class "reference" e = false -> e' = e)
  /\ (forall k, element.get k e' <> element.get k e ->
       (has_class "data" e = true /\ In k ["fill"; "y"; "height"])
       \/ (has_class "reference" e = true /\ In k ["y1"; "y2"])).

(** A call of [.attr] on a selection when no callback throws. *)
Fixpoint set_each (s : selector.t) (key : string) (g : nat -> option attrval) (i : nat)
    (svg : drawing) : drawing :=
  match svg with
  | [] => []
  | e :: r =>
      if matches s e
      then element.attr key (g i) e :: set_each s key g (S i) r
      else e :: set_each s key g i r
  end.

(** The value a callback of [update] gets from [config.data[i]]. *)
Definition from_data (data : list DataPoint.t) (f : DataPoint.t -> option attrval)
    (i : nat) : option attrval :=
  match nth_error data i with
  | Some d => f d
  | None => None
  end.

(** The height of a bar in baseline mode as the source computes it for a
    value that is a non-zero number. *)
Definition distance_to_baseline (c : config.t) (v : Q) : num :=
  nabs (scale (config.yScale c) (ToNumber (config.baseline c))
        - scale (config.yScale c) (Num v))%num.

(** The pixel row of a value: rows are counted from the top, so the scaled
    value is taken off [config.height - config.marginBottom + config.marginTop]. *)
Definition row (c : config.t) (v : num) : num :=
  (config.height c - config.marginBottom c + config.marginTop c
   - scale (config.yScale c) v)%num.

(** Numeric order, for statements: both sides are numbers. *)
Definition num_le (a b : num) : Prop :=
  match a, b with
  | Num x, Num y => x <= y
  | _, _ => False
  end.

Definition num_lt (a b : num) : Prop :=
  match a, b with
  | Num x, Num y => x < y
  | _, _ => False
  end.

(** What [render] appends that no data join of [render] selects: lines and
    groups without the class [data]. *)
Definition appended (e : element.t) : Prop :=
  (element.tag e = "line" \/ element.tag e = "g") /\ has_class "data" e = false.

(** A colour written as [#] and six hexadecimal digits, the letters in
    lower case: the form d3 ends a transition of a colour on. *)
Definition hex_digit (ch : ascii) : bool :=
  let n := nat_of_ascii ch in
  ((48 <=? n) && (n <=? 57) || (97 <=? n) && (n <=? 102))%nat.

Definition hex_colour (s : string) : bool :=
  match s with
  | String "#" r => (String.length r =? 6)%nat && forallb hex_digit (list_ascii_of_string r)
  | _ => false
  end.

(* ================================================================= *)
(** ** Sample inputs *)

(** Thresholds in the documented order; with the low threshold below the
    very-low one; with the high threshold above the very-high one; and with
    the two sides overlapping. *)
Definition ordered : Thresholds := [("ll", 1%Q); ("l", 3%Q); ("h", 7%Q); ("hh", 9%Q)].
Definition inverted_low : Thresholds := [("l", 1%Q); ("ll", 5%Q)].
Definition inverted_high : Thresholds := [("h", 10%Q); ("hh", 5%Q)].
Definition overlapping : Thresholds := [("l", 10%Q); ("ll", 0%Q); ("h", 5%Q); ("hh", 6%Q)].

(** The text of a column with a name and a value, and of an array. *)
Definition point_text (name value : string) : string :=
  "{" ++ quoted "name" ++ ":" ++ quoted name ++ "," ++ quoted "value" ++ ":" ++ value ++ "}".

Definition array_text (items : list string) : string :=
  "[" ++ String.concat "," items ++ "]".

(** The two columns of the example in the header of the source. *)
Definition two_columns : string :=
  array_text [point_text "Jan" "7"; point_text "Feb" "7.5"].

Definition five_columns : string :=
  array_text [point_text "Mon" "1"; point_text "Tue" "2"; point_text "Wed" "0";
              point_text "Thu" "4"; point_text "Fri" "5"].

Definition no_params : params.t :=
  params.mk None None None None None None None None None None None.

Definition with_data (text : string) (p : params.t) : params.t :=
  params.mk (Some text) (params.baseline p) (params.thresholds p)
            (params.showColoredThresholds p) (params.showXAxis p) (params.showYAxis p)
            (params.showTooltip p) (params.max p) (params.min p)
            (params.width p) (params.height p).

Definition with_baseline (text : string) (p : params.t) : params.t :=
  params.mk (params.data p) (Some text) (params.thresholds p)
            (params.showColoredThresholds p) (params.showXAxis p) (params.showYAxis p)
            (params.showTooltip p) (params.max p) (params.min p)
            (params.width p) (params.height p).

Definition with_showYAxis (text : string) (p : params.t) : params.t :=
  params.mk (params.data p) (params.baseline p) (params.thresholds p)
            (params.showColoredThresholds p) (params.showXAxis p) (Some text)
            (params.showTooltip p) (params.max p) (params.min p)
            (params.width p) (params.height p).

Definition with_range (lo hi : string) (p : params.t) : params.t :=
  params.mk (params.data p) (params.baseline p) (params.thresholds p)
            (params.showColoredThresholds p) (params.showXAxis p) (params.showYAxis p)
            (params.showTooltip p) (Some hi) (Some lo)
            (params.width p) (params.height p).

(** Five new values for an update, the first of them 0. *)
Definition zero_first : list DataPoint.t :=
  [ DataPoint.mk "Mon" (Num 0) None None None;
    DataPoint.mk "Tue" (Num 2) None None None;
    DataPoint.mk "Wed" (Num 3) None None None;
    DataPoint.mk "Thu" (Num 4) None None None;
    DataPoint.mk "Fri" (Num 5) None None None ].

(** The text of a member and of an object. *)
Definition member_text (key value : string) : string := quoted key ++ ":" ++ value.

Definition object_text (members : list string) : string :=
  "{" ++ String.concat "," members ++ "}".

(** Three columns: one with a colour of its own, one with a reference and an
    error range, one with a negative value. *)
Definition three_columns : string :=
  array_text
    [ object_text [ member_text "name" (quoted "a"); member_text "value" "4";
                    member_text "color" (quoted "#123456") ];
      object_text [ member_text "name" (quoted "b"); member_text "value" "8";
                    member_text "reference" "6";
                    member_text "error"
                      (object_text [member_text "h" "9"; member_text "l" "7"]) ];
      object_text [ member_text "name" (quoted "c"); member_text "value" "-2" ] ].

(** The four thresholds in the documented order. *)
Definition ordered_text : string :=
  object_text [ member_text "ll" "1"; member_text "l" "3";
                member_text "h" "7"; member_text "hh" "9" ].

Definition with_thresholds (text : string) (p : params.t) : params.t :=
  params.mk (params.data p) (params.baseline p) (Some text)
            (params.showColoredThresholds p) (params.showXAxis p) (params.showYAxis p)
            (params.showTooltip p) (params.max p) (params.min p)
            (params.width p) (params.height p).

Definition with_showColoredThresholds (text : string) (p : params.t) : params.t :=
  params.mk (params.data p) (params.baseline p) (params.thresholds p)
            (Some text) (params.showXAxis p) (params.showYAxis p)
            (params.showTooltip p) (params.max p) (params.min p)
            (params.width p) (params.height p).

Definition with_showXAxis (text : string) (p : params.t) : params.t :=
  params.mk (params.data p) (params.baseline p) (params.thresholds p)
            (params.showColoredThresholds p) (Some text) (params.showYAxis p)
            (params.showTooltip p) (params.max p) (params.min p)
            (params.width p) (params.height p).

Definition with_size (width height : string) (p : params.t) : params.t :=
  params.mk (params.data p) (params.baseline p) (params.thresholds p)
            (params.showColoredThresholds p) (params.showXAxis p) (params.showYAxis p)
            (params.showTooltip p) (params.max p) (params.min p)
            (Some width) (Some height).

(** The three columns in a chart from -5 to 10 with a baseline at 5. *)
Definition three_from_baseline : params.t :=
  with_baseline "5" (with_range "-5" "10" (with_data three_columns no_params)).

(** The three columns in a chart from -5 to 10 without a baseline, with both
    axes and the thresholds in their colours. *)
Definition three_from_axis : params.t :=
  with_showColoredThresholds "true"
    (with_thresholds ordered_text
       (with_showXAxis "true"
          (with_showYAxis "true"
             (with_range "-5" "10" (with_data three_columns no_params))))).

(** New values for the three columns, each with a reference. *)
Definition three_referenced : list DataPoint.t :=
  [ DataPoint.mk "a" (Num 4) None (Some 5%Q) None;
    DataPoint.mk "b" (Num 8) None (Some 6%Q) None;
    DataPoint.mk "c" (Num 2) None (Some 1%Q) None ].

(** The two columns of the header with other white space. *)
Definition two_columns_spaced : string :=
  array_text [(" " ++ point_text "Jan" "7")%string; (" " ++ point_text "Feb" "7.5 ")%string].

(** New values for the three columns: a colour in the form d3 writes, no
    colour, and the empty colour. *)
Definition three_recoloured : list DataPoint.t :=
  [ DataPoint.mk "a" (Num 4) (Some "#abcdef") None None;
    DataPoint.mk "b" (Num 8) None None None;
    DataPoint.mk "c" (Num 2) (Some EmptyString) None None ].

(* ================================================================= *)
(** ** The built-in conversions on sample values *)

Example toString_100 : Number_toString (Num 100) = "100".
Proof. reflexivity. Qed.
Example toString_7_5 : Number_toString (Num (15 # 2)) = "7.5".
Proof. reflexivity. Qed.
Example toString_neg : Number_toString (Num (- (1 # 8))) = "-0.125".
Proof. reflexivity. Qed.
Example toString_small : Number_toString (Num (1 # 10000000)) = "1e-7".
Proof. reflexivity. Qed.
Example toString_large : Number_toString (Num (12 * 10 ^ 21)) = "1.2e+22".
Proof. vm_compute. reflexivity. Qed.
Example parseFloat_0 : parseFloat "0" = Some (Num 0).
Proof. reflexivity. Qed.
Example parseFloat_dec : parseFloat " -12.50e1px" = Some (Num (- ((12 + 50 / 100) * (10 / 1)))).
Proof. reflexivity. Qed.
Example parseFloat_undefined : parseFloat_attr None = Some NaN.
Proof. reflexivity. Qed.
Example parseInt_px : parseInt "440px" = Num 440.
Proof. reflexivity. Qed.
Example parseInt_hex : parseInt "0x1F" = Num 31.
Proof. reflexivity. Qed.

(* ================================================================= *)
(** ** The colour of a column *)

Lemma nlt_nle (a b : num) : (a <? b)%num = true -> (b <=? a)%num = false.
Proof.
  destruct a as [|x], b as [|y]; simpl; try discriminate.
  now intros H; apply negb_true_iff in H.
Qed.

Lemma ngt_nle (a b : num) : (a >? b)%num = true -> (a <=? b)%num = false.
Proof. unfold ngt. apply nlt_nle. Qed.

Lemma nlt_nge (a b : num) : (a <? b)%num = true -> (a >=? b)%num = false.
Proof. unfold nge. apply nlt_nle. Qed.

(** Without a match on the high side the colour is the one the low branch
    leaves. *)
Lemma getColor_low_side (v : num) (t : Thresholds) :
  (v >=? prop t "h")%num = false ->
  getColor v (Some t) =
    if (v <=? prop t "l")%num
    then if (v <=? prop t "ll")%num then defaults.colors.ll else defaults.colors.l
    else defaults.colors.default.
Proof.
  intros Hh. unfold getColor, parseFloat_num. rewrite Hh. reflexivity.
Qed.

(** With a match on the high side the colour is the one the high branch
    assigns, whatever the low branch did. *)
Lemma getColor_high_side (v : num) (t : Thresholds) :
  (v >=? prop t "h")%num = true ->
  getColor v (Some t) =
    if (v >=? prop t "hh")%num then defaults.colors.hh else defaults.colors.h.
Proof.
  intros Hh. unfold getColor, parseFloat_num. rewrite Hh. reflexivity.
Qed.

(** C3, as stated, fails.  With [l = 1] and [ll = 5] the value [3] is at most
    the very-low threshold, yet it gets the default colour: the very-low test
    is nested in the low test, which fails.  Likewise with [h = 10] and
    [hh = 5] the value [7] is at least the very-high threshold and gets the
    default colour.  With overlapping thresholds [l = 10], [ll = 0], [h = 5],
    [hh = 6] the value [7] is at most [l] and above [ll], yet it gets the
    very-high colour. *)
Lemma getColor_unordered_thresholds :
  ((Num 3 <=? prop inverted_low "ll")%num = true
   /\ getColor (Num 3) (Some inverted_low) = defaults.colors.default
   /\ defaults.colors.default <> defaults.colors.ll)
  /\
  ((Num 7 >=? prop inverted_high "hh")%num = true
   /\ getColor (Num 7) (Some inverted_high) = defaults.colors.default
   /\ defaults.colors.default <> defaults.colors.hh)
  /\
  ((Num 7 <=? prop overlapping "l")%num = true
   /\ (Num 7 >? prop overlapping "ll")%num = true
   /\ getColor (Num 7) (Some overlapping) = defaults.colors.hh
   /\ defaults.colors.hh <> defaults.colors.l).
Proof.
  repeat split; try reflexivity; discriminate.
Qed.

(** C3, amended: for every value [v] and thresholds object,
    - if [v <= l], [v > ll] and [v >= h] does not hold, the colour is the low
      colour;
    - if [v <= ll], also [v <= l], and [v >= h] does not hold, the colour is
      the very-low colour;
    - if [v >= h] and [v < hh], the colour is the high colour;
    - if [v >= hh] and also [v >= h], the colour is the very-high colour. *)
Theorem getColor_thresholds (v : num) (t : Thresholds) :
  ((v <=? prop t "l")%num = true -> (v >? prop t "ll")%num = true ->
   (v >=? prop t "h")%num = false ->
   getColor v (Some t) = defaults.colors.l)
  /\
  ((v <=? prop t "ll")%num = true -> (v <=? prop t "l")%num = true ->
   (v >=? prop t "h")%num = false ->
   getColor v (Some t) = defaults.colors.ll)
  /\
  ((v >=? prop t "h")%num = true -> (v <? prop t "hh")%num = true ->
   getColor v (Some t) = defaults.colors.h)
  /\
  ((v >=? prop t "hh")%num = true -> (v >=? prop t "h")%num = true ->
   getColor v (Some t) = defaults.colors.hh).
Proof.
  repeat split.
  - intros Hl Hll Hh. rewrite (getColor_low_side _ _ Hh), Hl, (ngt_nle _ _ Hll).
    reflexivity.
  - intros Hll Hl Hh. rewrite (getColor_low_side _ _ Hh), Hl, Hll. reflexivity.
  - intros Hh Hhh. rewrite (getColor_high_side _ _ Hh), (nlt_nge _ _ Hhh).
    reflexivity.
  - intros Hhh Hh. rewrite (getColor_high_side _ _ Hh), Hhh. reflexivity.
Qed.

Lemma getColor_thresholds_witness :
  getColor (Num 2) (Some ordered) = defaults.colors.l
  /\ getColor (Num 1) (Some ordered) = defaults.colors.ll
  /\ getColor (Num 8) (Some ordered) = defaults.colors.h
  /\ getColor (Num 9) (Some ordered) = defaults.colors.hh.
Proof.
  split; [| split; [| split]].
  - apply (proj1 (getColor_thresholds (Num 2) ordered)); reflexivity.
  - apply (proj1 (proj2 (getColor_thresholds (Num 1) ordered))); reflexivity.
  - apply (proj1 (proj2 (proj2 (getColor_thresholds (Num 8) ordered)))); reflexivity.
  - apply (proj2 (proj2 (proj2 (getColor_thresholds (Num 9) ordered)))); reflexivity.
Defined.

(** C4: when both [v <= l] and [v >= h] hold, the colour is the one the high
    branch assigns (the very-high colour if also [v >= hh], the high colour
    otherwise); what the low branch assigned is overwritten. *)
Theorem getColor_high_overwrites_low (v : num) (t : Thresholds) :
  (v <=? prop t "l")%num = true ->
  (v >=? prop t "h")%num = true ->
  getColor v (Some t) =
    if (v >=? prop t "hh")%num then defaults.colors.hh else defaults.colors.h.
Proof.
  intros _ Hh. apply getColor_high_side, Hh.
Qed.

Lemma getColor_high_overwrites_low_witness :
  getColor (Num 7) (Some overlapping) = defaults.colors.hh
  /\ getColor (Num (11 # 2)) (Some overlapping) = defaults.colors.h.
Proof.
  split.
  - apply (getColor_high_overwrites_low (Num 7) overlapping); reflexivity.
  - apply (getColor_high_overwrites_low (Num (11 # 2)) overlapping); reflexivity.
Defined.

(* ================================================================= *)
(** ** The width of a column *)

Lemma slots_eq (n : nat) : slots n == inject_Z (2 * Z.of_nat n - 1).
Proof.
  unfold slots, Z.sub. rewrite inject_Z_plus, inject_Z_mult. reflexivity.
Qed.

Lemma slots_nonzero (n : nat) : Qeq_bool (slots n) 0 = false.
Proof.
  destruct (Qeq_bool (slots n) 0) eqn:E; [| reflexivity].
  apply Qeq_bool_eq in E. rewrite slots_eq in E.
  change 0%Q with (inject_Z 0) in E. apply (proj1 (inject_Z_injective _ _)) in E. lia.
Qed.

Lemma slots_pos (n : nat) : (1 <= n)%nat -> (1 <= slots n)%Q.
Proof.
  intros H. rewrite slots_eq. change 1%Q with (inject_Z 1).
  rewrite <- Zle_Qle. lia.
Qed.

Lemma slots_mono (n m : nat) : (n <= m)%nat -> (slots n <= slots m)%Q.
Proof.
  intros H. rewrite !slots_eq, <- Zle_Qle. lia.
Qed.

Lemma cap20_le (x : num) : (cap20 x <=? Num 20)%num = true.
Proof.
  unfold cap20. destruct x as [|q]; simpl; [reflexivity |].
  destruct (Qle_bool 20 q) eqn:E; simpl.
  - reflexivity.
  - apply Qle_bool_iff. apply Qlt_le_weak, Qnot_le_lt.
    intros H. apply Qle_bool_iff in H. congruence.
Qed.

Lemma cap20_mono (x y : Q) : (x <= y)%Q -> (cap20 (Num x) <=? cap20 (Num y))%num = true.
Proof.
  intros H. unfold cap20. simpl.
  destruct (Qle_bool 20 x) eqn:Ex, (Qle_bool 20 y) eqn:Ey; simpl;
    apply Qle_bool_iff.
  - apply Qle_refl.
  - apply Qle_bool_iff in Ex.
    assert (Hy : (20 <= y)%Q) by (eapply Qle_trans; eassumption).
    apply Qle_bool_iff in Hy. congruence.
  - apply Qlt_le_weak, Qnot_le_lt. intros C. apply Qle_bool_iff in C. congruence.
  - exact H.
Qed.

Lemma getColWidth_cap (width : num) (numCols : nat) (max min : num) (showYAxis : bool) :
  getColWidth width numCols max min showYAxis =
  cap20 (available width max min showYAxis / Num (slots numCols))%num.
Proof.
  unfold getColWidth, available, cap20, slots, of_nat, of_Z.
  destruct showYAxis; reflexivity.
Qed.

(** A non-negative width divided among more columns gives each no more. *)
Lemma share_antitone (w : Q) (n m : nat) :
  (0 <= w)%Q -> (1 <= n)%nat -> (n <= m)%nat ->
  (w / slots m <= w / slots n)%Q.
Proof.
  intros Hw Hn Hnm.
  pose proof (slots_pos n Hn) as Pn.
  pose proof (slots_mono n m Hnm) as Pnm.
  assert (Pm : (0 < slots m)%Q) by lra.
  assert (Pn' : (0 < slots n)%Q) by lra.
  apply Qle_shift_div_l; [exact Pn' |].
  unfold Qdiv. rewrite <- Qmult_assoc, (Qmult_comm (/ slots m)), Qmult_assoc.
  apply Qle_shift_div_r; [exact Pm |].
  rewrite !(Qmult_comm w). apply Qmult_le_compat_r; assumption.
Qed.

(** C7, as stated, fails: a chart of width 150 gives an empty data sequence
    the column width -150 and a single column the width 20.  And with the
    y-axis shown, a chart of width 20 whose labels have three characters
    gives one column the width -10 and two columns the width -10/3. *)
Lemma getColWidth_grows_from_no_column :
  (getColWidth (Num 150) 0 (Num 100) (Num 0) false =n= Num (- 150)
   /\ getColWidth (Num 150) 1 (Num 100) (Num 0) false =n= Num 20
   /\ (getColWidth (Num 150) 0 (Num 100) (Num 0) false
       <? getColWidth (Num 150) 1 (Num 100) (Num 0) false)%num = true)
  /\
  (getColWidth (Num 20) 1 (Num 100) (Num 0) true =n= Num (- 10)
   /\ getColWidth (Num 20) 2 (Num 100) (Num 0) true =n= Num (- 10 / 3)
   /\ (getColWidth (Num 20) 1 (Num 100) (Num 0) true
       <? getColWidth (Num 20) 2 (Num 100) (Num 0) true)%num = true).
Proof.
  split; (split; [| split]); vm_compute; reflexivity.
Qed.

(** C7, amended: the column width is at most 20 for all arguments; it does
    not increase with the number of columns as long as there is at least one
    column and the width the columns share (the chart width, less ten pixels
    per label character when the y-axis is shown) is not negative. *)
Theorem getColWidth_bounded_antitone :
  (forall width numCols max min showYAxis,
     (getColWidth width numCols max min showYAxis <=? Num 20)%num = true)
  /\
  (forall width max min showYAxis n m,
     (1 <= n)%nat -> (n <= m)%nat ->
     (available width max min showYAxis <? Num 0)%num = false ->
     (getColWidth width m max min showYAxis
      <=? getColWidth width n max min showYAxis)%num = true).
Proof.
  split.
  - intros. rewrite getColWidth_cap. apply cap20_le.
  - intros width max min showYAxis n m Hn Hnm Hav.
    rewrite !getColWidth_cap.
    destruct (available width max min showYAxis) as [|w]; simpl.
    + reflexivity.
    + rewrite !slots_nonzero. apply cap20_mono, share_antitone; try assumption.
      simpl in Hav. apply negb_false_iff, Qle_bool_iff in Hav. exact Hav.
Qed.

Lemma getColWidth_bounded_antitone_witness :
  (getColWidth (Num 150) 7 (Num 100) (Num 0) true
   <=? getColWidth (Num 150) 5 (Num 100) (Num 0) true)%num = true.
Proof.
  apply (proj2 getColWidth_bounded_antitone (Num 150) (Num 100) (Num 0) true 5%nat 7%nat).
  - lia.
  - lia.
  - reflexivity.
Defined.

(* ================================================================= *)
(** ** Attributes and selections *)

Lemma lookup_assign_same {A : Type} (k : string) (v : A) (l : list (string * A)) :
  lookup k (assign k v l) = Some v.
Proof.
  induction l as [| [k' w] r IH]; simpl.
  - now rewrite String.eqb_refl.
  - destruct (String.eqb k' k) eqn:E; simpl; rewrite E; [reflexivity | exact IH].
Qed.

Lemma lookup_assign_other {A : Type} (k k' : string) (v : A) (l : list (string * A)) :
  k <> k' -> lookup k' (assign k v l) = lookup k' l.
Proof.
  intros Hk. induction l as [| [k0 w] r IH]; simpl.
  - destruct (String.eqb k k') eqn:E; [apply String.eqb_eq in E; contradiction | reflexivity].
  - destruct (String.eqb k0 k) eqn:E; simpl.
    + apply String.eqb_eq in E. subst k0.
      destruct (String.eqb k k') eqn:E'; [apply String.eqb_eq in E'; contradiction | reflexivity].
    + now rewrite IH.
Qed.

Lemma lookup_remove_other (k k' : string) (l : list (string * attrval)) :
  k <> k' -> lookup k' (element.remove k l) = lookup k' l.
Proof.
  intros Hk. induction l as [| [k0 w] r IH]; simpl; [reflexivity |].
  destruct (String.eqb k0 k) eqn:E; simpl.
  - apply String.eqb_eq in E. subst k0.
    destruct (String.eqb k k') eqn:E'; [apply String.eqb_eq in E'; contradiction | reflexivity].
  - now rewrite IH.
Qed.

(** Assigning the value a key already has changes nothing. *)
Lemma assign_same_value {A : Type} (k : string) (v : A) (l : list (string * A)) :
  lookup k l = Some v -> assign k v l = l.
Proof.
  induction l as [| [k' w] r IH]; simpl; [discriminate |].
  destruct (String.eqb k' k) eqn:E.
  - intros [= ->]. apply String.eqb_eq in E. now subst.
  - intros H. now rewrite IH.
Qed.

Lemma get_attr_same (k : string) (a : attrval) (e : element.t) :
  element.get k (element.attr k (Some a) e) = Some a.
Proof. apply lookup_assign_same. Qed.

Lemma get_attr_other (k k' : string) (v : option attrval) (e : element.t) :
  k <> k' -> element.get k' (element.attr k v e) = element.get k' e.
Proof.
  intros Hk. destruct v; [apply lookup_assign_other | apply lookup_remove_other]; exact Hk.
Qed.

Lemma attr_same_value (k : string) (a : attrval) (e : element.t) :
  element.get k e = Some a -> element.attr k (Some a) e = e.
Proof.
  intros H. destruct e as [t d l c]. unfold element.get in H. simpl in H.
  unfold element.attr; simpl. now rewrite (assign_same_value _ _ _ H).
Qed.

Lemma tag_attr (k : string) (v : option attrval) (e : element.t) :
  element.tag (element.attr k v e) = element.tag e.
Proof. now destruct v. Qed.

Lemma datum_attr (k : string) (v : option attrval) (e : element.t) :
  element.datum (element.attr k v e) = element.datum e.
Proof. now destruct v. Qed.

Lemma inner_attr (k : string) (v : option attrval) (e : element.t) :
  element.inner (element.attr k v e) = element.inner e.
Proof. now destruct v. Qed.

(** A selector sees the tag and the class of an element, nothing else. *)
Lemma matches_ext (s : selector.t) (e e' : element.t) :
  element.tag e' = element.tag e ->
  element.get "class" e' = element.get "class" e ->
  matches s e' = matches s e.
Proof.
  intros Ht Hc. unfold matches, has_class, classes. now rewrite Ht, Hc.
Qed.

Lemma matches_attr (s : selector.t) (k : string) (v : option attrval) (e : element.t) :
  k <> "class" -> matches s (element.attr k v e) = matches s e.
Proof.
  intros Hk. apply matches_ext; [apply tag_attr | now apply get_attr_other].
Qed.

Lemma has_class_attr (c k : string) (v : option attrval) (e : element.t) :
  k <> "class" -> has_class c (element.attr k v e) = has_class c e.
Proof.
  intros Hk. unfold has_class, classes. now rewrite get_attr_other.
Qed.

Lemma selectAll_app (s : selector.t) (a b : drawing) :
  selectAll s (a ++ b) = selectAll s a ++ selectAll s b.
Proof. apply filter_app. Qed.

Lemma selectAll_none (s : selector.t) (l : drawing) :
  Forall (fun e => matches s e = false) l -> selectAll s l = [].
Proof.
  induction 1 as [| e r He _ IH]; simpl; [reflexivity |]. now rewrite He.
Qed.

Lemma selectAll_all (s : selector.t) (l : drawing) :
  Forall (fun e => matches s e = true) l -> selectAll s l = l.
Proof.
  induction 1 as [| e r He _ IH]; simpl; [reflexivity |]. now rewrite He, IH.
Qed.

Lemma rebind_none (s : selector.t) (values : list DataPoint.t) (svg : drawing) :
  selectAll s svg = [] -> rebind s values svg = svg.
Proof.
  induction svg as [| e r IH]; simpl; [reflexivity |].
  destruct (matches s e); [discriminate |]. intros H. now rewrite IH.
Qed.

(** On a drawing with nothing to select, every value enters. *)
Lemma enter_append_fresh (s : selector.t) (values : list DataPoint.t) (tag : string)
    (chain : list step) (svg : drawing) :
  selectAll s svg = [] ->
  enter_append s values tag chain svg = svg ++ enter_from 0 values tag chain.
Proof.
  intros H. unfold enter_append. now rewrite H, rebind_none.
Qed.

Lemma enter_from_Forall (P : element.t -> Prop) (tag : string) (chain : list step)
    (values : list DataPoint.t) :
  (forall d i, P (fold_left (run_step d i) chain (element.mk tag (Some d) [] Empty))) ->
  forall i, Forall P (enter_from i values tag chain).
Proof.
  intros H. induction values as [| d r IH]; intros i; simpl; constructor; auto.
Qed.

Lemma enter_from_length (tag : string) (chain : list step) (values : list DataPoint.t) (i : nat) :
  List.length (enter_from i values tag chain) = List.length values.
Proof.
  revert i. induction values as [| d r IH]; intros i; simpl; [reflexivity |].
  now rewrite IH.
Qed.

Lemma enter_from_nth (tag : string) (chain : list step) (values : list DataPoint.t)
    (i j : nat) :
  nth_error (enter_from i values tag chain) j =
  match nth_error values j with
  | Some d => Some (fold_left (run_step d (i + j)) chain (element.mk tag (Some d) [] Empty))
  | None => None
  end.
Proof.
  revert i j. induction values as [| d r IH]; intros i j.
  - now destruct j.
  - destruct j as [| j]; simpl.
    + now rewrite Nat.add_0_r.
    + rewrite IH. now rewrite Nat.add_succ_comm.
Qed.

Lemma append_spec (tag : string) (chain : list (string * option attrval)) (inner : content)
    (svg : drawing) :
  append tag chain inner svg = svg ++ append tag chain inner [].
Proof. reflexivity. Qed.

Lemma fold_thresholdMarker (c : config.t) (t : Thresholds) (svg : drawing) :
  fold_left (thresholdMarker c) t svg = svg ++ fold_left (thresholdMarker c) t [].
Proof.
  revert svg. induction t as [| kv r IH]; intros svg; simpl.
  - now rewrite app_nil_r.
  - rewrite IH. rewrite (IH (thresholdMarker c [] kv)).
    unfold thresholdMarker at 1 3. rewrite append_spec. now rewrite app_assoc.
Qed.

(* ================================================================= *)
(** ** The layers of the drawing *)

Lemma matches_of_kind (s : selector.t) (t : string) (cls : list string) (e : element.t) :
  kind t cls e -> matches s e = matches_kind s t cls.
Proof.
  intros [Ht Hc]. unfold matches, matches_kind, has_class. now rewrite Ht, Hc.
Qed.

Lemma selectAll_kind (s : selector.t) (t : string) (cls : list string) (l : drawing) :
  Forall (kind t cls) l ->
  selectAll s l = if matches_kind s t cls then l else [].
Proof.
  intros H. destruct (matches_kind s t cls) eqn:E.
  - apply selectAll_all. eapply Forall_impl; [| exact H].
    intros e K. now rewrite (matches_of_kind _ _ _ _ K).
  - apply selectAll_none. eapply Forall_impl; [| exact H].
    intros e K. now rewrite (matches_of_kind _ _ _ _ K).
Qed.

Lemma get_set_text (k s : string) (e : element.t) :
  element.get k (element.set_text s e) = element.get k e.
Proof. reflexivity. Qed.

Lemma get_set_inner (k : string) (c : content) (e : element.t) :
  element.get k (element.set_inner c e) = element.get k e.
Proof. reflexivity. Qed.

(** Reading an attribute through a chain of calls. *)
Ltac read_attr :=
  cbn [fold_left run_step fst snd]; unfold num_attr, str_attr;
  repeat first
    [ rewrite get_set_inner
    | rewrite get_set_text
    | rewrite get_attr_other by discriminate
    | rewrite get_attr_same ].

Ltac read_tag :=
  cbn [fold_left run_step fst snd element.set_inner element.set_text element.tag];
  rewrite ?tag_attr.

(** An element built by a chain that sets the class once, to a constant. *)
Ltac built_kind :=
  split; [read_tag; reflexivity | unfold classes; read_attr; reflexivity].

Lemma renderBackgrounds_kind (c : config.t) :
  Forall (kind "rect" ["bg"]) (renderBackgrounds [] c).
Proof.
  apply enter_from_Forall. intros d i. built_kind.
Qed.

Lemma thresholdMarker_kind (c : config.t) (kv : string * Q) :
  Forall (kind "line" []) (thresholdMarker c [] kv).
Proof.
  constructor; [| constructor]. built_kind.
Qed.

Lemma renderThresholdMarkers_kind (c : config.t) :
  Forall (kind "line" []) (renderThresholdMarkers [] c).
Proof.
  unfold renderThresholdMarkers. destruct (config.thresholds c) as [t |]; [| constructor].
  induction t as [| kv r IH]; simpl; [constructor |].
  rewrite fold_thresholdMarker. apply Forall_app. split; [apply thresholdMarker_kind | exact IH].
Qed.

Lemma renderXAxis_kind (c : config.t) :
  Forall (kind "text" []) (renderXAxis [] c).
Proof.
  apply enter_from_Forall. intros d i. built_kind.
Qed.

Lemma renderYAxis_kind (c : config.t) :
  Forall (kind "g" []) (renderYAxis [] c).
Proof.
  constructor; [| constructor]. built_kind.
Qed.

Lemma renderDataFromAxis_kind (c : config.t) :
  Forall (kind "rect" ["data"]) (renderDataFromAxis [] c).
Proof.
  apply enter_from_Forall. intros d i. built_kind.
Qed.

Lemma renderBorders_kind (c : config.t) :
  Forall (kind "line" []) (renderBorders [] c).
Proof.
  constructor; [| constructor; [| constructor]]; built_kind.
Qed.

Lemma renderReference_kind (c : config.t) :
  Forall (kind "line" ["reference"]) (renderReference [] c).
Proof.
  apply enter_from_Forall. intros d i. built_kind.
Qed.

(** The digits of a numeral hold no white space, so they stay in one word. *)
Lemma uint_no_space (u : Decimal.uint) :
  Forall (fun ch => is_ws ch = false) (list_ascii_of_string (NilEmpty.string_of_uint u)).
Proof.
  induction u; simpl; constructor; auto.
Qed.

Lemma string_of_nat_no_space (i : nat) :
  Forall (fun ch => is_ws ch = false) (list_ascii_of_string (string_of_nat i)).
Proof.
  unfold string_of_nat, string_of_Z, NilZero.string_of_uint.
  destruct (N.to_uint (Z.to_N (Z.of_nat i))) eqn:E;
    try (rewrite <- E; apply uint_no_space).
  simpl. constructor; [reflexivity | constructor].
Qed.

Lemma words_aux_one (l : list ascii) (c0 : ascii) (cur : list ascii) :
  Forall (fun ch => is_ws ch = false) l ->
  words_aux l (c0 :: cur) = [string_of_list_ascii (rev (c0 :: cur) ++ l)].
Proof.
  intros H. revert c0 cur. induction H as [| ch r Hch _ IH]; intros c0 cur.
  - cbn [words_aux]. now rewrite app_nil_r.
  - cbn [words_aux]. rewrite Hch, IH. cbn [rev]. now rewrite <- !app_assoc.
Qed.

Lemma list_ascii_app (a b : string) :
  list_ascii_of_string (a ++ b) = list_ascii_of_string a ++ list_ascii_of_string b.
Proof.
  induction a as [| ch a IH]; simpl; [reflexivity | now rewrite IH].
Qed.

Lemma words_error_center (i : nat) :
  exists w, words ("error-center col-" ++ string_of_nat i) = ["error-center"; String "c" w].
Proof.
  unfold words. rewrite list_ascii_app.
  pose proof (string_of_nat_no_space i) as H.
  generalize dependent (list_ascii_of_string (string_of_nat i)). intros l H.
  simpl. rewrite (words_aux_one _ _ _ H). simpl. eexists. reflexivity.
Qed.

Lemma kind_other_line (cls : list string) (e : element.t) :
  kind "line" cls e ->
  existsb (String.eqb "data") cls = false ->
  existsb (String.eqb "reference") cls = false ->
  other_line e.
Proof.
  intros [Ht Hc] Hd Hr. unfold other_line, has_class. now rewrite Ht, Hc.
Qed.

Lemma selectAll_rect_lines (c : string) (l : drawing) :
  Forall (fun e => element.tag e = "line") l ->
  selectAll (sel_tag_class "rect" c) l = [].
Proof.
  intros H. apply selectAll_none. eapply Forall_impl; [| exact H].
  intros e Ht. unfold matches. simpl. now rewrite Ht.
Qed.

Lemma tag_chain (d : DataPoint.t) (i : nat) (chain : list step) (e : element.t) :
  element.tag (fold_left (run_step d i) chain e) = element.tag e.
Proof.
  revert e. induction chain as [| s r IH]; intros e; simpl; [reflexivity |].
  rewrite IH. destruct s; simpl; [apply tag_attr | reflexivity].
Qed.

(** Lines entering under a [rect] selector, onto a drawing of lines. *)
Lemma enter_append_lines (cls : string) (values : list DataPoint.t) (chain : list step)
    (svg : drawing) :
  Forall other_line svg ->
  (forall d i, other_line (fold_left (run_step d i) chain (element.mk "line" (Some d) [] Empty))) ->
  Forall other_line (enter_append (sel_tag_class "rect" cls) values "line" chain svg).
Proof.
  intros Hsvg Hnew. rewrite enter_append_fresh.
  - apply Forall_app. split; [exact Hsvg | now apply enter_from_Forall].
  - apply selectAll_rect_lines. eapply Forall_impl; [| exact Hsvg]. now intros e [Ht _].
Qed.

(** The three groups of lines [renderErrorBars] draws. *)
Lemma renderErrorBars_lines (c : config.t) :
  Forall other_line (renderErrorBars [] c).
Proof.
  unfold renderErrorBars.
  apply enter_append_lines;
    [apply enter_append_lines; [apply enter_append_lines; [apply Forall_nil |] |] |];
    intros d i.
  - destruct (words_error_center i) as [w Hw].
    apply (kind_other_line ["error-center"; String "c" w]); [| reflexivity | reflexivity].
    split; [read_tag; reflexivity |].
    unfold classes. read_attr. exact Hw.
  - apply (kind_other_line ["error-high"]); [| reflexivity | reflexivity]. built_kind.
  - apply (kind_other_line ["error-low"]); [| reflexivity | reflexivity]. built_kind.
Qed.

(** *** Each renderer adds its elements at the end of the drawing *)

Lemma renderBackgrounds_adds (svg : drawing) (c : config.t) :
  selectAll (sel_tag_class "rect" "bg") svg = [] ->
  renderBackgrounds svg c = svg ++ renderBackgrounds [] c.
Proof. intros H. unfold renderBackgrounds. now rewrite enter_append_fresh. Qed.

Lemma renderThresholdMarkers_adds (svg : drawing) (c : config.t) :
  renderThresholdMarkers svg c = svg ++ renderThresholdMarkers [] c.
Proof.
  unfold renderThresholdMarkers. destruct (config.thresholds c).
  - apply fold_thresholdMarker.
  - now rewrite app_nil_r.
Qed.

Lemma renderXAxis_adds (svg : drawing) (c : config.t) :
  selectAll (sel_tag "text") svg = [] ->
  renderXAxis svg c = svg ++ renderXAxis [] c.
Proof. intros H. unfold renderXAxis. now rewrite enter_append_fresh. Qed.

Lemma renderYAxis_adds (svg : drawing) (c : config.t) :
  renderYAxis svg c = svg ++ renderYAxis [] c.
Proof. reflexivity. Qed.

Lemma renderDataFromBaseline_adds (svg : drawing) (c : config.t) :
  selectAll (sel_tag_class "rect" "data") svg = [] ->
  renderDataFromBaseline svg c = svg ++ renderDataFromBaseline [] c.
Proof.
  intros H. unfold renderDataFromBaseline. rewrite enter_append_fresh by exact H.
  rewrite append_spec. symmetry. rewrite append_spec. now rewrite app_assoc.
Qed.

Lemma renderDataFromAxis_adds (svg : drawing) (c : config.t) :
  selectAll (sel_tag_class "rect" "data") svg = [] ->
  renderDataFromAxis svg c = svg ++ renderDataFromAxis [] c.
Proof. intros H. unfold renderDataFromAxis. now rewrite enter_append_fresh. Qed.

Lemma renderErrorBars_adds (svg : drawing) (c : config.t) :
  selectAll (sel_tag_class "rect" "error") svg = [] ->
  renderErrorBars svg c = svg ++ renderErrorBars [] c.
Proof.
  intros H. unfold renderErrorBars.
  assert (L : forall values chain i,
             selectAll (sel_tag_class "rect" "error") (enter_from i values "line" chain) = []).
  { intros. apply selectAll_rect_lines, enter_from_Forall. intros. apply tag_chain. }
  change (enter_append ?s ?v ?t ?ch []) with (enter_from 0 v t ch).
  rewrite (enter_append_fresh _ _ _ _ svg) by exact H.
  rewrite (enter_append_fresh _ _ _ _ (svg ++ _))
    by (rewrite ?selectAll_app, ?H, ?L; reflexivity).
  rewrite (enter_append_fresh _ _ _ _ ((svg ++ _) ++ _))
    by (rewrite ?selectAll_app, ?H, ?L; reflexivity).
  rewrite (enter_append_fresh _ _ _ _ (enter_from _ _ _ _)) by apply L.
  rewrite (enter_append_fresh _ _ _ _ (enter_from _ _ _ _ ++ _))
    by (rewrite ?selectAll_app, ?L; reflexivity).
  now rewrite <- !app_assoc.
Qed.

Lemma renderBorders_adds (svg : drawing) (c : config.t) :
  renderBorders svg c = svg ++ renderBorders [] c.
Proof.
  unfold renderBorders. rewrite append_spec. symmetry. rewrite append_spec.
  rewrite (append_spec _ _ _ svg). now rewrite app_assoc.
Qed.

Lemma renderReference_adds (svg : drawing) (c : config.t) :
  selectAll (sel_tag_class "line" "data") svg = [] ->
  renderReference svg c = svg ++ renderReference [] c.
Proof. intros H. unfold renderReference. now rewrite enter_append_fresh. Qed.

(** *** What the selectors of the source find in each layer *)

Lemma sel_none_kind (s : selector.t) (t : string) (cls : list string) (l : drawing) :
  Forall (kind t cls) l -> matches_kind s t cls = false -> selectAll s l = [].
Proof. intros H E. now rewrite (selectAll_kind _ _ _ _ H), E. Qed.

Lemma sel_all_kind (s : selector.t) (t : string) (cls : list string) (l : drawing) :
  Forall (kind t cls) l -> matches_kind s t cls = true -> selectAll s l = l.
Proof. intros H E. now rewrite (selectAll_kind _ _ _ _ H), E. Qed.

Lemma sel_none_other_lines (s : selector.t) (l : drawing) :
  Forall other_line l ->
  selector.tag s = Some "rect" \/ selector.tag s = Some "text"
  \/ selector.cls s = Some "data" \/ selector.cls s = Some "reference" ->
  selectAll s l = [].
Proof.
  intros H Hs. apply selectAll_none. eapply Forall_impl; [| exact H].
  intros e (Ht & Hd & Hr). unfold matches.
  destruct Hs as [E | [E | [E | E]]]; rewrite E, ?Ht, ?Hd, ?Hr;
    try reflexivity; apply andb_false_r.
Qed.

Lemma renderDataFromBaseline_parts (c : config.t) :
  exists bars marker,
    renderDataFromBaseline [] c = bars ++ marker
    /\ Forall (kind "rect" ["data"]) bars
    /\ Forall (kind "line" []) marker.
Proof.
  unfold renderDataFromBaseline. rewrite append_spec.
  eexists. eexists. split; [reflexivity |]. split.
  - apply enter_from_Forall. intros d i. built_kind.
  - constructor; [| constructor]. built_kind.
Qed.

Lemma sel_none_baseline (s : selector.t) (c : config.t) :
  matches_kind s "rect" ["data"] = false ->
  matches_kind s "line" [] = false ->
  selectAll s (renderDataFromBaseline [] c) = [].
Proof.
  intros E1 E2. destruct (renderDataFromBaseline_parts c) as (bars & marker & -> & Hb & Hm).
  rewrite selectAll_app.
  now rewrite (sel_none_kind _ _ _ _ Hb E1), (sel_none_kind _ _ _ _ Hm E2).
Qed.

(** Selecting in the layers of a first [render]. *)
Ltac select_layers :=
  rewrite ?selectAll_app;
  repeat first
    [ match goal with
      | H : selectAll ?s ?pre = [] |- context [selectAll ?s ?pre] => rewrite H
      end
    | rewrite (sel_none_kind _ _ _ _ (renderBackgrounds_kind _)) by reflexivity
    | rewrite (sel_none_kind _ _ _ _ (renderThresholdMarkers_kind _)) by reflexivity
    | rewrite (sel_none_kind _ _ _ _ (renderXAxis_kind _)) by reflexivity
    | rewrite (sel_none_kind _ _ _ _ (renderYAxis_kind _)) by reflexivity
    | rewrite (sel_none_kind _ _ _ _ (renderDataFromAxis_kind _)) by reflexivity
    | rewrite sel_none_baseline by reflexivity
    | rewrite (sel_none_other_lines _ _ (renderErrorBars_lines _)) by (cbn; tauto)
    | rewrite (sel_none_kind _ _ _ _ (renderBorders_kind _)) by reflexivity
    | rewrite (sel_none_kind _ _ _ _ (renderReference_kind _)) by reflexivity ];
  rewrite ?app_nil_r; try reflexivity.

(** On a drawing in which the selectors of the renderers find nothing,
    [render] adds its eight layers, one after the other. *)
Lemma render_adds (st : state.t) :
  selectAll (sel_tag_class "rect" "bg") (state.svg st) = [] ->
  selectAll (sel_tag "text") (state.svg st) = [] ->
  selectAll (sel_tag_class "rect" "data") (state.svg st) = [] ->
  selectAll (sel_tag_class "rect" "error") (state.svg st) = [] ->
  selectAll (sel_tag_class "line" "data") (state.svg st) = [] ->
  state.svg (render st) = state.svg st ++ layers st.
Proof.
  intros Hbg Htext Hdata Herror Href. unfold render, layers.
  cbn [state.svg state.set_svg].
  set (c := state.cfg st). set (pre := state.svg st) in *.
  rewrite (renderBackgrounds_adds pre) by exact Hbg.
  destruct (attr_truthy (params.thresholds (state.params st))),
           (state.showXAxis st), (state.showYAxis st), (state.showBaseline st);
    repeat first
      [ rewrite (renderThresholdMarkers_adds (_ ++ _))
      | rewrite (renderXAxis_adds (_ ++ _)) by select_layers
      | rewrite (renderYAxis_adds (_ ++ _))
      | rewrite (renderDataFromBaseline_adds (_ ++ _)) by select_layers
      | rewrite (renderDataFromAxis_adds (_ ++ _)) by select_layers
      | rewrite (renderErrorBars_adds (_ ++ _)) by select_layers
      | rewrite (renderBorders_adds (_ ++ _))
      | rewrite (renderReference_adds (_ ++ _)) by select_layers ];
    rewrite <- ?app_assoc; reflexivity.
Qed.

Lemma render_fresh (st : state.t) :
  state.svg st = [] -> state.svg (render st) = layers st.
Proof.
  intros H. rewrite render_adds; rewrite H; reflexivity.
Qed.

Lemma layers_bars (st : state.t) :
  selectAll (sel_class "data") (layers st) = drawn_bars (state.showBaseline st) (state.cfg st).
Proof.
  unfold layers, drawn_bars.
  destruct (attr_truthy (params.thresholds (state.params st))),
           (state.showXAxis st), (state.showYAxis st), (state.showBaseline st);
    select_layers.
Qed.

Lemma layers_references (st : state.t) :
  selectAll (sel_class "reference") (layers st) = drawn_references (state.cfg st).
Proof.
  unfold layers, drawn_references.
  destruct (attr_truthy (params.thresholds (state.params st))),
           (state.showXAxis st), (state.showYAxis st), (state.showBaseline st);
    select_layers.
Qed.

(** *** The bars and the markers, one by one *)

Lemma drawn_bars_axis (c : config.t) :
  drawn_bars false c = renderDataFromAxis [] c.
Proof.
  unfold drawn_bars. apply (sel_all_kind _ _ _ _ (renderDataFromAxis_kind c)). reflexivity.
Qed.

Lemma drawn_references_all (c : config.t) :
  drawn_references c = renderReference [] c.
Proof.
  unfold drawn_references. apply (sel_all_kind _ _ _ _ (renderReference_kind c)). reflexivity.
Qed.

Lemma drawn_bars_length (b : bool) (c : config.t) :
  List.length (drawn_bars b c) = List.length (config.data c).
Proof.
  destruct b.
  - unfold drawn_bars, renderDataFromBaseline. rewrite append_spec, selectAll_app.
    rewrite sel_all_kind with (t := "rect") (cls := ["data"]);
      [| apply enter_from_Forall; intros d i; built_kind | reflexivity].
    rewrite sel_none_kind with (t := "line") (cls := []);
      [| constructor; [built_kind | constructor] | reflexivity].
    rewrite app_nil_r. apply enter_from_length.
  - rewrite drawn_bars_axis. apply enter_from_length.
Qed.

Lemma drawn_references_length (c : config.t) :
  List.length (drawn_references c) = List.length (config.data c).
Proof.
  rewrite drawn_references_all. apply enter_from_length.
Qed.

(** The value [fill] is given: the colour of the point if it has one, the
    colour of its value otherwise. *)
Lemma fill_value (c : config.t) (d : DataPoint.t) :
  exists s,
    (if color_truthy (DataPoint.color d) then opt_str_attr (DataPoint.color d)
     else str_attr (getColor (DataPoint.value d) (config.thresholds c)))
    = Some (AStr s).
Proof.
  destruct (DataPoint.color d) as [s |]; simpl.
  - destruct (str_truthy s); eexists; reflexivity.
  - eexists; reflexivity.
Qed.

Lemma get_attr_set (k : string) (v : option attrval) (a : attrval) (e : element.t) :
  v = Some a -> element.get k (element.attr k v e) = v.
Proof. intros ->. apply get_attr_same. Qed.

(** The bar of a point after the first [render], without a baseline. *)
Lemma axis_bar (c : config.t) (i : nat) (d : DataPoint.t) :
  nth_error (config.data c) i = Some d ->
  exists bar,
    nth_error (drawn_bars false c) i = Some bar
    /\ element.get "x" bar = Some (ANum (scale (config.xScale c) (of_nat i)))
    /\ element.get "width" bar = Some (ANum (config.colWidth c))
    /\ element.get "fill" bar =
         (if color_truthy (DataPoint.color d) then opt_str_attr (DataPoint.color d)
          else str_attr (getColor (DataPoint.value d) (config.thresholds c)))
    /\ element.get "y" bar =
         Some (ANum (config.height c - config.marginBottom c + config.marginTop c
                     - scale (config.yScale c) (DataPoint.value d))%num)
    /\ element.get "height" bar =
         Some (ANum (scale (config.yScale c) (DataPoint.value d) - config.marginTop c)%num).
Proof.
  intros Hd. rewrite drawn_bars_axis. unfold renderDataFromAxis.
  change (enter_append ?s ?v ?t ?ch []) with (enter_from 0 v t ch).
  rewrite enter_from_nth, Hd. eexists. split; [reflexivity |].
  destruct (fill_value c d) as [s Hs].
  repeat split; read_attr; try reflexivity.
  now rewrite (get_attr_set _ _ _ _ Hs).
Qed.

(** The bar of a point after the first [render], with a baseline. *)
Lemma baseline_bar (c : config.t) (i : nat) (d : DataPoint.t) :
  nth_error (config.data c) i = Some d ->
  exists bar,
    nth_error (drawn_bars true c) i = Some bar
    /\ element.get "x" bar = Some (ANum (scale (config.xScale c) (of_nat i)))
    /\ element.get "width" bar = Some (ANum (config.colWidth c))
    /\ element.get "fill" bar =
         (if color_truthy (DataPoint.color d) then opt_str_attr (DataPoint.color d)
          else str_attr (getColor (DataPoint.value d) (config.thresholds c)))
    /\ element.get "y" bar =
         (if (DataPoint.value d >=? ToNumber (config.baseline c))%num then
            num_attr (config.height c - config.marginBottom c + config.marginTop c
                      - scale (config.yScale c) (ToNumber (config.baseline c))
                      - nabs (scale (config.yScale c) (ToNumber (config.baseline c))
                              - scale (config.yScale c) (DataPoint.value d)))%num
          else
            num_attr (config.height c - config.marginBottom c + config.marginTop c
                      - scale (config.yScale c) (ToNumber (config.baseline c)))%num)
    /\ element.get "height" bar =
         Some (ANum (if num_truthy (DataPoint.value d)
                     then nabs (scale (config.yScale c) (ToNumber (config.baseline c))
                                - scale (config.yScale c) (DataPoint.value d))%num
                     else Num 0)).
Proof.
  intros Hd. unfold drawn_bars, renderDataFromBaseline.
  rewrite append_spec, selectAll_app.
  rewrite sel_all_kind with (t := "rect") (cls := ["data"]);
    [| apply enter_from_Forall; intros d' i'; built_kind | reflexivity].
  rewrite sel_none_kind with (t := "line") (cls := []);
    [| constructor; [built_kind | constructor] | reflexivity].
  rewrite app_nil_r.
  change (enter_append ?s ?v ?t ?ch []) with (enter_from 0 v t ch).
  rewrite enter_from_nth, Hd. eexists. split; [reflexivity |].
  destruct (fill_value c d) as [s Hs].
  repeat split; read_attr; try reflexivity.
  - now rewrite (get_attr_set _ _ _ _ Hs).
  - destruct (DataPoint.value d >=? ToNumber (config.baseline c))%num;
      now rewrite get_attr_same.
Qed.

(** The reference marker of a point after the first [render]. *)
Lemma reference_marker (c : config.t) (i : nat) (d : DataPoint.t) :
  nth_error (config.data c) i = Some d ->
  exists marker,
    nth_error (drawn_references c) i = Some marker
    /\ element.get "y1" marker =
         Some (ANum (config.height c - config.marginBottom c + config.marginTop c
                     - scale (config.yScale c) (reference_or_0 (DataPoint.reference d)))%num)
    /\ element.get "y2" marker =
         Some (ANum (config.height c - config.marginBottom c + config.marginTop c
                     - scale (config.yScale c) (reference_or_0 (DataPoint.reference d)))%num).
Proof.
  intros Hd. rewrite drawn_references_all. unfold renderReference.
  change (enter_append ?s ?v ?t ?ch []) with (enter_from 0 v t ch).
  rewrite enter_from_nth, Hd. eexists. split; [reflexivity |].
  repeat split; read_attr; reflexivity.
Qed.

(* ================================================================= *)
(** ** Calls on a selection *)

Lemma each_attr_modified (s : selector.t) (key : string) (f : nat -> evaluated)
    (svg : drawing) (i : nat) :
  Forall2 (selected_modified s [key]) svg (fst (each_attr s key f i svg)).
Proof.
  revert i. induction svg as [| e r IH]; intros i; simpl; [constructor |].
  destruct (matches s e) eqn:E.
  - destruct (f i) as [v | ex]; simpl.
    + specialize (IH (S i)). destruct (each_attr s key f (S i) r) as [r' c']. simpl in *.
      constructor; [| exact IH]. right. split; [exact E |].
      apply modified_attr; [constructor | now left].
    + constructor; [now left |]. clear. induction r; constructor; [now left | assumption].
  - specialize (IH i). destruct (each_attr s key f i r) as [r' c']. simpl in *.
    constructor; [now left | exact IH].
Qed.

(** A selection whose elements already have the value they are given is left
    as it is. *)
Lemma each_attr_same (s : selector.t) (key : string) (f : nat -> evaluated)
    (svg : drawing) (i : nat) :
  (forall j e, nth_error (selectAll s svg) j = Some e ->
     exists a, f (i + j)%nat = Value (Some a) /\ element.get key e = Some a) ->
  each_attr s key f i svg = (svg, Normal).
Proof.
  revert i. induction svg as [| e r IH]; intros i H; simpl; [reflexivity |].
  simpl in H. destruct (matches s e) eqn:E.
  - destruct (H 0%nat e eq_refl) as (a & Hf & Hg). rewrite Nat.add_0_r in Hf.
    rewrite Hf, IH.
    + now rewrite (attr_same_value _ _ _ Hg).
    + intros j e' Hj. specialize (H (S j) e' Hj).
      now rewrite Nat.add_succ_r in H.
  - now rewrite IH.
Qed.

(** When the data reach as far as the selection, no callback throws. *)
Lemma each_attr_ok (s : selector.t) (key : string) (data : list DataPoint.t)
    (f : DataPoint.t -> option attrval) (svg : drawing) (i : nat) :
  (i + List.length (selectAll s svg) <= List.length data)%nat ->
  each_attr s key (at_index data f) i svg = (set_each s key (from_data data f) i svg, Normal).
Proof.
  revert i. induction svg as [| e r IH]; intros i H; simpl; [reflexivity |].
  simpl in H. destruct (matches s e) eqn:E.
  - simpl in H. unfold at_index at 1, from_data at 1.
    destruct (nth_error data i) as [d |] eqn:Hd.
    + rewrite IH by lia. reflexivity.
    + apply nth_error_None in Hd. lia.
  - now rewrite IH.
Qed.

(** The selection after the call: the same elements, each with its value. *)
Lemma set_each_selected (s : selector.t) (key : string) (g : nat -> option attrval)
    (svg : drawing) (i j : nat) :
  key <> "class" ->
  nth_error (selectAll s (set_each s key g i svg)) j =
  match nth_error (selectAll s svg) j with
  | Some e => Some (element.attr key (g (i + j)%nat) e)
  | None => None
  end.
Proof.
  intros Hk. revert i j. induction svg as [| e r IH]; intros i j; simpl.
  - now destruct j.
  - destruct (matches s e) eqn:E; simpl.
    + rewrite (matches_attr _ _ _ _ Hk), E. destruct j as [| j]; simpl.
      * now rewrite Nat.add_0_r.
      * rewrite IH. now rewrite Nat.add_succ_comm.
    + rewrite E. apply IH.
Qed.

Lemma modified_same (keys : list string) (e e' : element.t) :
  modified keys e e' ->
  element.tag e' = element.tag e
  /\ element.datum e' = element.datum e
  /\ element.inner e' = element.inner e
  /\ (forall k, ~ In k keys -> element.get k e' = element.get k e).
Proof.
  induction 1 as [e | e e' k v _ (Ht & Hd & Hi & Hg) Hk].
  - now repeat split.
  - rewrite tag_attr, datum_attr, inner_attr. repeat split; try assumption.
    intros k' Hk'. rewrite get_attr_other; [now apply Hg |].
    intros ->. contradiction.
Qed.

Lemma modified_trans (keys : list string) (e e1 e2 : element.t) :
  modified keys e e1 -> modified keys e1 e2 -> modified keys e e2.
Proof.
  intros H1 H2. induction H2; [exact H1 |]. apply modified_attr; auto.
Qed.

Lemma modified_incl (keys keys' : list string) (e e' : element.t) :
  incl keys keys' -> modified keys e e' -> modified keys' e e'.
Proof.
  intros Hi H. induction H; [constructor |]. apply modified_attr; auto.
Qed.

Lemma selected_modified_same (s : selector.t) (keys : list string) (e e' : element.t) :
  selected_modified s keys e e' ->
  element.tag e' = element.tag e
  /\ element.datum e' = element.datum e
  /\ element.inner e' = element.inner e
  /\ (forall k, ~ In k keys -> element.get k e' = element.get k e).
Proof.
  intros [-> | [_ H]]; [now repeat split | now apply modified_same].
Qed.

Lemma selected_modified_matches (s q : selector.t) (keys : list string) (e e' : element.t) :
  ~ In "class" keys -> selected_modified s keys e e' -> matches q e' = matches q e.
Proof.
  intros Hk H. destruct (selected_modified_same _ _ _ _ H) as (Ht & _ & _ & Hg).
  apply matches_ext; [exact Ht | now apply Hg].
Qed.

Lemma selected_modified_trans (s : selector.t) (keys : list string) (e e1 e2 : element.t) :
  selected_modified s keys e e1 -> selected_modified s keys e1 e2 ->
  selected_modified s keys e e2.
Proof.
  intros [-> | [Hm H1]] H2; [exact H2 |].
  destruct H2 as [-> | [_ H2]]; right; split; try assumption.
  eapply modified_trans; eassumption.
Qed.

Lemma selected_modified_incl (s : selector.t) (keys keys' : list string) (e e' : element.t) :
  incl keys keys' -> selected_modified s keys e e' -> selected_modified s keys' e e'.
Proof.
  intros Hi [-> | [Hm H]]; [now left | right]. split; [exact Hm |].
  eapply modified_incl; eassumption.
Qed.

(** Elements that correspond one to one and are selected alike give
    selections that correspond one to one. *)
Lemma Forall2_selectAll (R : element.t -> element.t -> Prop) (q : selector.t)
    (l l' : drawing) :
  Forall2 R l l' ->
  (forall e e', R e e' -> matches q e' = matches q e) ->
  Forall2 R (selectAll q l) (selectAll q l').
Proof.
  intros H Hm. induction H as [| e e' r r' He _ IH]; simpl; [constructor |].
  rewrite (Hm _ _ He). destruct (matches q e); [constructor |]; assumption.
Qed.

Lemma Forall2_nth {A B : Type} (R : A -> B -> Prop) (l : list A) (l' : list B)
    (j : nat) (a : A) :
  Forall2 R l l' -> nth_error l j = Some a ->
  exists b, nth_error l' j = Some b /\ R a b.
Proof.
  intros H. revert j. induction H as [| x y r r' Hxy _ IH]; intros j Hj.
  - now destruct j.
  - destruct j as [| j]; simpl in *.
    + injection Hj as ->. now exists y.
    + now apply IH.
Qed.

(* ================================================================= *)
(** ** What [link] resolves *)

Lemma link_returns (p : params.t) (st : state.t) :
  link p = Returns st ->
  exists st0, link_setup p = Returns st0 /\ st = render st0.
Proof.
  unfold link. destruct (link_setup p) as [st0 | e |]; simpl; try discriminate.
  intros [= <-]. now exists st0.
Qed.

Lemma link_of_setup (p : params.t) (st0 : state.t) :
  link_setup p = Returns st0 -> link p = Returns (render st0).
Proof. intros H. unfold link. now rewrite H. Qed.

Lemma parse_both_returns (a b : outcome json) (r : json * json) :
  parse_both a b = Returns r -> a = Returns (fst r) /\ b = Returns (snd r).
Proof.
  destruct a, b; simpl; try discriminate. now intros [= <-].
Qed.

(** The state [link] hands to [render]. *)
Lemma link_setup_returns (p : params.t) (st0 : state.t) :
  link_setup p = Returns st0 ->
  let c := state.cfg st0 in
  state.svg st0 = []
  /\ state.console st0 = []
  /\ state.params st0 = p
  /\ state.showBaseline st0 = attr_truthy (params.baseline p)
  /\ state.showXAxis st0 = is_true (params.showXAxis p)
  /\ state.showYAxis st0 = is_true (params.showYAxis p)
  /\ config.width c = if_given (params.width p) parseInt (Num 150)
  /\ config.height c = if_given (params.height p) parseInt (Num 75)
  /\ if_given (params.max p) parseFloat (Some (Num 100)) = Some (config.max c)
  /\ if_given (params.min p) parseFloat (Some (Num 0)) = Some (config.min c)
  /\ (exists b, parseFloat_attr (params.baseline p) = Some b
                /\ config.baseline c = or_null b)
  /\ (exists j, if_given (params.data p) JSON_parse (Returns (JArray [])) = Returns j
                /\ as_data j = Returns (config.data c))
  /\ config.colWidth c =
       getColWidth (config.width c) (List.length (config.data c)) (config.max c)
                   (config.min c) false
  /\ config.marginTop c =
       margins.top (getMargins (config.colWidth c) (config.max c) (config.min c)
                               (state.showXAxis st0) (state.showYAxis st0))
  /\ config.marginBottom c =
       margins.bottom (getMargins (config.colWidth c) (config.max c) (config.min c)
                                  (state.showXAxis st0) (state.showYAxis st0))
  /\ config.yScale c =
       linear.mk (config.min c) (config.max c) (config.marginTop c)
                 (config.height c - config.marginBottom c)%num.
Proof.
  unfold link_setup.
  destruct (parse_both _ _) as [[tj dj] | e |] eqn:Ep; cbn [bind]; try discriminate.
  destruct (if_given (params.max p) parseFloat (Some (Num 100))) as [mx |] eqn:Emax;
    cbn [bind modelled]; try discriminate.
  destruct (if_given (params.min p) parseFloat (Some (Num 0))) as [mn |] eqn:Emin;
    cbn [bind modelled]; try discriminate.
  destruct (parseFloat_attr (params.baseline p)) as [b |] eqn:Eb;
    cbn [bind modelled]; try discriminate.
  destruct (as_thresholds _) as [t | e |] eqn:Et; cbn [bind]; try discriminate.
  destruct (as_data _) as [ds | e |] eqn:Ed; cbn [bind]; try discriminate.
  intros [= <-]. cbn.
  apply parse_both_returns in Ep. destruct Ep as [_ Ep]. cbn in Ep, Ed.
  repeat split; try reflexivity.
  - now exists b.
  - now exists dj.
Qed.

Lemma render_cfg (st : state.t) : state.cfg (render st) = state.cfg st.
Proof. reflexivity. Qed.

Lemma render_showBaseline (st : state.t) :
  state.showBaseline (render st) = state.showBaseline st.
Proof. reflexivity. Qed.

(** The drawing after [link]. *)
Lemma link_drawing (p : params.t) (st : state.t) :
  link p = Returns st ->
  state.svg st = layers st
  /\ selectAll (sel_class "data") (state.svg st)
     = drawn_bars (state.showBaseline st) (state.cfg st)
  /\ selectAll (sel_class "reference") (state.svg st) = drawn_references (state.cfg st).
Proof.
  intros H. destruct (link_returns _ _ H) as (st0 & H0 & ->).
  destruct (link_setup_returns _ _ H0) as (Hsvg & _).
  assert (E : state.svg (render st0) = layers (render st0)).
  { now rewrite (render_fresh _ Hsvg). }
  rewrite E. split; [reflexivity |]. split.
  - apply layers_bars.
  - apply layers_references.
Qed.

(** [JSON.parse] throws nothing but a [SyntaxError]. *)
Lemma JSON_parse_throws (text : string) (e : exn) :
  JSON_parse text = Throws e -> e = SyntaxError.
Proof.
  unfold JSON_parse. destruct (parse_value _ _) as [v r | |]; try discriminate.
  - destruct (skip_jws r); [discriminate | now intros [= <-]].
  - now intros [= <-].
Qed.

Example two_columns_parse :
  bind (JSON_parse two_columns) as_data =
  Returns [DataPoint.mk "Jan" (Num 7) None None None;
           DataPoint.mk "Feb" (Num ((7 + 5 / 10) * 1)) None None None].
Proof. vm_compute. reflexivity. Qed.

(** C10: when the attribute [baseline] is the string ['0'], [link] selects
    the baseline mode ([showBaseline] is true and the bars are those of
    [renderDataFromBaseline]) while [config.baseline] is [null]. *)
Theorem link_baseline_zero (p : params.t) (st : state.t) :
  params.baseline p = Some "0" ->
  link p = Returns st ->
  state.showBaseline st = true
  /\ config.baseline (state.cfg st) = None
  /\ (exists before after,
        state.svg st = before ++ renderDataFromBaseline [] (state.cfg st) ++ after).
Proof.
  intros Hb H. destruct (link_drawing _ _ H) as (Hsvg & _).
  destruct (link_returns _ _ H) as (st0 & H0 & ->).
  destruct (link_setup_returns _ _ H0)
    as (_ & _ & _ & Hshow & _ & _ & _ & _ & _ & _ & (b & Hpf & Hbase) & _).
  rewrite Hb in Hshow, Hpf. injection Hpf as <-. cbn in Hshow.
  rewrite render_showBaseline, render_cfg. repeat split.
  - exact Hshow.
  - exact Hbase.
  - rewrite Hsvg. unfold layers. rewrite render_showBaseline, Hshow, render_cfg.
    match goal with
    | |- context [?a ++ ?b ++ ?c ++ ?d ++ renderDataFromBaseline [] ?cc ++ ?e] =>
        exists (a ++ b ++ c ++ d); exists e
    end.
    now rewrite <- !app_assoc.
Qed.

Lemma link_baseline_zero_witness :
  exists st,
    link (with_baseline "0" (with_data two_columns no_params)) = Returns st
    /\ state.showBaseline st = true
    /\ config.baseline (state.cfg st) = None.
Proof.
  destruct (link (with_baseline "0" (with_data two_columns no_params))) as [st | e |] eqn:E.
  - exists st. split; [reflexivity |].
    destruct (link_baseline_zero
                (with_baseline "0" (with_data two_columns no_params)) st eq_refl E)
      as (H1 & H2 & _).
    now split.
  - exfalso. vm_compute in E. discriminate E.
  - exfalso. vm_compute in E. discriminate E.
Defined.

(** The column width [link] computes never has the label width taken off:
    the flag it passes on is [config.showYAxis], which it does not set. *)
Lemma link_colWidth (p : params.t) (st : state.t) :
  link p = Returns st ->
  let c := state.cfg st in
  config.colWidth c =
  getColWidth (config.width c) (List.length (config.data c)) (config.max c) (config.min c) false.
Proof.
  intros H. destruct (link_returns _ _ H) as (st0 & H0 & ->).
  now destruct (link_setup_returns _ _ H0)
    as (_ & _ & _ & _ & _ & _ & _ & _ & _ & _ & _ & _ & Hw & _).
Qed.

(** C8 does not hold of [link]: five columns in the default chart of width
    150 with [showYAxis] set to ['true'].  The y-axis is shown, but the
    column width is [150 / 9]; with the width of the three label characters
    taken off, as [getColWidth] does when it is given the flag, it would be
    [(150 - 30) / 9]. *)
Theorem link_colWidth_keeps_label_width :
  exists st,
    link (with_showYAxis "true" (with_data five_columns no_params)) = Returns st
    /\ state.showYAxis st = true
    /\ numChars (config.max (state.cfg st)) (config.min (state.cfg st)) = 3%nat
    /\ config.colWidth (state.cfg st) =n= Num (150 / 9)
    /\ getColWidth (config.width (state.cfg st)) (List.length (config.data (state.cfg st)))
                   (config.max (state.cfg st)) (config.min (state.cfg st)) true
       =n= Num ((150 - 30) / 9)
    /\ ~ config.colWidth (state.cfg st) =n= Num ((150 - 30) / 9).
Proof.
  eexists. split; [vm_compute; reflexivity |].
  split; [| split; [| split; [| split]]]; try (vm_compute; reflexivity).
  intros H. vm_compute in H. discriminate H.
Qed.

(* ================================================================= *)
(** ** A data payload that does not parse *)

Lemma datum_fold (chain : list (string * option attrval)) (e : element.t) :
  element.datum (fold_left (fun e kv => element.attr (fst kv) (snd kv) e) chain e)
  = element.datum e.
Proof.
  revert e. induction chain as [| kv r IH]; intros e; simpl; [reflexivity |].
  rewrite IH. apply datum_attr.
Qed.

Lemma append_unbound (tag : string) (chain : list (string * option attrval))
    (inner : content) (svg : drawing) :
  Forall (fun e => element.datum e = None) svg ->
  Forall (fun e => element.datum e = None) (append tag chain inner svg).
Proof.
  intros H. unfold append. apply Forall_app. split; [exact H |].
  constructor; [| constructor]. unfold element.set_inner. cbn [element.datum].
  now rewrite datum_fold.
Qed.

Lemma renderThresholdMarkers_unbound (c : config.t) (svg : drawing) :
  Forall (fun e => element.datum e = None) svg ->
  Forall (fun e => element.datum e = None) (renderThresholdMarkers svg c).
Proof.
  unfold renderThresholdMarkers. destruct (config.thresholds c) as [t |]; [| trivial].
  revert svg. induction t as [| kv r IH]; intros svg H; simpl; [exact H |].
  apply IH. unfold thresholdMarker. now apply append_unbound.
Qed.

(** Without data no layer holds an element bound to a point. *)
Lemma layers_unbound (st : state.t) :
  config.data (state.cfg st) = [] ->
  Forall (fun e => element.datum e = None) (layers st).
Proof.
  intros H. unfold layers.
  unfold renderBackgrounds, renderXAxis, renderDataFromBaseline, renderDataFromAxis,
    renderErrorBars, renderReference, renderBorders, renderYAxis.
  rewrite H. cbn [enter_append selectAll filter List.length skipn rebind enter_from app].
  repeat (apply Forall_app; split);
    repeat match goal with
           | |- Forall _ (if ?b then _ else _) => destruct b
           | |- Forall _ [] => constructor
           | |- Forall _ (renderThresholdMarkers _ _) => apply renderThresholdMarkers_unbound
           | |- Forall _ (append _ _ _ _) => apply append_unbound
           | |- Forall _ [element.set_inner _ _] =>
               constructor;
               [unfold element.set_inner; cbn [element.datum]; now rewrite datum_fold |]
           end.
Qed.

(** C1, as stated, fails: the payload of a single opening brace does not
    parse, and [link] throws. *)
Lemma link_throws_on_open_brace :
  malformed "{"
  /\ link (with_data "{" no_params) = Throws SyntaxError.
Proof.
  split; reflexivity.
Qed.

(** C1, amended: a malformed data payload that is not empty makes [link]
    throw the [SyntaxError] of [JSON.parse]; nothing is resolved, drawn or
    logged.  The empty payload (like a missing one) is not parsed: the data
    sequence is empty, no element of the drawing is bound to a point, and
    [link] throws only if the thresholds payload is malformed. *)
Theorem link_malformed_data (p : params.t) :
  (forall s, params.data p = Some s -> s <> EmptyString -> malformed s ->
     link p = Throws SyntaxError)
  /\
  (attr_truthy (params.data p) = false ->
   (forall st, link p = Returns st ->
      config.data (state.cfg st) = []
      /\ Forall (fun e => element.datum e = None) (state.svg st))
   /\ (forall e, link p = Throws e ->
         exists t, params.thresholds p = Some t /\ malformed t)).
Proof.
  split.
  - intros s Hs Hne Hm. unfold link, link_setup. rewrite Hs.
    assert (Hg : if_given (Some s) JSON_parse (Returns (JArray [])) = Throws SyntaxError).
    { destruct s; [contradiction | exact Hm]. }
    rewrite Hg.
    destruct (if_given (params.thresholds p) JSON_parse (Returns JNull)) as [j | e |] eqn:Et;
      try reflexivity.
    assert (e = SyntaxError) as ->; [| reflexivity].
    unfold if_given in Et. destruct (params.thresholds p) as [t |]; [| discriminate].
    destruct (str_truthy t); [| discriminate]. exact (JSON_parse_throws _ _ Et).
  - intros Hd. split.
    + intros st H. destruct (link_drawing _ _ H) as (Hsvg & _).
      destruct (link_returns _ _ H) as (st0 & H0 & ->).
      destruct (link_setup_returns _ _ H0)
        as (_ & _ & _ & _ & _ & _ & _ & _ & _ & _ & _ & (j & Hj & Hdata) & _).
      assert (Hempty : config.data (state.cfg st0) = []).
      { unfold if_given in Hj. unfold attr_truthy in Hd.
        destruct (params.data p) as [s |].
        - rewrite Hd in Hj. injection Hj as <-. simpl in Hdata. now injection Hdata.
        - injection Hj as <-. simpl in Hdata. now injection Hdata. }
      split; [exact Hempty |].
      rewrite Hsvg. now apply layers_unbound.
    + intros e H. unfold link, link_setup in H.
      assert (Hg : if_given (params.data p) JSON_parse (Returns (JArray [])) = Returns (JArray [])).
      { unfold if_given. unfold attr_truthy in Hd. destruct (params.data p); now rewrite ?Hd. }
      rewrite Hg in H.
      destruct (if_given (params.thresholds p) JSON_parse (Returns JNull)) as [j | e' |] eqn:Et.
      * exfalso. cbn [parse_both bind fst snd] in H.
        destruct (if_given (params.max p) parseFloat (Some (Num 100)));
          cbn [bind modelled] in H; try discriminate.
        destruct (if_given (params.min p) parseFloat (Some (Num 0)));
          cbn [bind modelled] in H; try discriminate.
        destruct (parseFloat_attr (params.baseline p));
          cbn [bind modelled] in H; try discriminate.
        destruct j;
          cbn [as_thresholds bind as_data as_points fst snd array_truthy] in H;
          try discriminate.
        destruct (as_threshold_members members);
          cbn [bind as_data as_points fst snd array_truthy] in H; discriminate.
      * unfold if_given in Et. destruct (params.thresholds p) as [t |]; [| discriminate].
        destruct (str_truthy t); [| discriminate].
        exists t. split; [reflexivity |]. unfold malformed.
        now rewrite Et, (JSON_parse_throws _ _ Et).
      * discriminate.
Qed.

Lemma link_malformed_data_witness :
  link (with_data "{" no_params) = Throws SyntaxError
  /\ (forall st, link (with_data EmptyString no_params) = Returns st ->
        config.data (state.cfg st) = []
        /\ Forall (fun e => element.datum e = None) (state.svg st)).
Proof.
  split.
  - apply (proj1 (link_malformed_data (with_data "{" no_params)) "{").
    + reflexivity.
    + discriminate.
    + reflexivity.
  - apply (proj2 (link_malformed_data (with_data EmptyString no_params))). reflexivity.
Defined.

(* ================================================================= *)
(** ** Bars from the axis *)

Lemma getColWidth_num (width : num) (numCols : nat) (max min : num) (showYAxis : bool) :
  exists q, getColWidth width numCols max min showYAxis = Num q.
Proof.
  rewrite getColWidth_cap. unfold cap20.
  destruct (available width max min showYAxis / Num (slots numCols))%num as [| q];
    simpl; [now eexists |].
  destruct (Qle_bool 20 q); simpl; now eexists.
Qed.

Lemma getFontSize_num (q : Q) : exists s, getFontSize (Num q) = Num s.
Proof.
  unfold getFontSize. simpl. destruct (Qle_bool 9 (q * 0.6)); simpl; now eexists.
Qed.

Lemma getMargins_num (q : Q) (max min : num) (showXAxis showYAxis : bool) :
  exists l b t,
    getMargins (Num q) max min showXAxis showYAxis = margins.mk (Num l) (Num 5) (Num b) (Num t).
Proof.
  unfold getMargins. destruct (getFontSize_num q) as [s ->].
  destruct showXAxis, showYAxis; simpl; now do 3 eexists.
Qed.

(** The margins [link] computes are numbers. *)
Lemma link_margins_num (p : params.t) (st : state.t) :
  link p = Returns st ->
  exists mt mb,
    config.marginTop (state.cfg st) = Num mt /\ config.marginBottom (state.cfg st) = Num mb.
Proof.
  intros H. destruct (link_returns _ _ H) as (st0 & H0 & ->).
  destruct (link_setup_returns _ _ H0)
    as (_ & _ & _ & _ & _ & _ & _ & _ & _ & _ & _ & _ & Hw & Ht & Hb & _).
  rewrite render_cfg, Ht, Hb, Hw.
  destruct (getColWidth_num (config.width (state.cfg st0))
              (List.length (config.data (state.cfg st0)))
              (config.max (state.cfg st0)) (config.min (state.cfg st0)) false) as [q ->].
  destruct (getMargins_num q (config.max (state.cfg st0)) (config.min (state.cfg st0))
              (state.showXAxis st0) (state.showYAxis st0)) as (l & b & t & ->).
  now exists t, b.
Qed.

(** A linear scale sends the start of its domain to the start of its
    range. *)
Lemma scale_at_start (d0 d1 r0 r1 x : Q) :
  x == d0 -> scale (linear.mk (Num d0) (Num d1) (Num r0) (Num r1)) (Num x) =n= Num r0.
Proof.
  intros Hx. unfold scale. simpl.
  destruct (Qeq_bool (d1 - d0) 0) eqn:E; simpl.
  - rewrite Hx. ring.
  - rewrite Hx. apply Qeq_bool_neq in E. field. exact E.
Qed.

(** Above the start of its range, a linear scale gives the share
    [(x - d0) / (d1 - d0)] of the extent of the range. *)
Lemma scale_share (d0 d1 r0 r1 : Q) (x : num) :
  ~ d1 == d0 ->
  (scale (linear.mk (Num d0) (Num d1) (Num r0) (Num r1)) x - Num r0)%num
  =n= ((x - Num d0) / (Num d1 - Num d0) * (Num r1 - Num r0))%num.
Proof.
  intros Hd. unfold scale. simpl.
  assert (E : Qeq_bool (d1 - d0) 0 = false).
  { destruct (Qeq_bool (d1 - d0) 0) eqn:E; [| reflexivity].
    apply Qeq_bool_eq in E. exfalso. apply Hd. lra. }
  rewrite E. simpl. destruct x as [| v]; simpl; [exact I |].
  rewrite E. simpl. field. intros C. apply Hd. lra.
Qed.

Lemma link_yScale (p : params.t) (st : state.t) :
  link p = Returns st ->
  let c := state.cfg st in
  config.yScale c =
  linear.mk (config.min c) (config.max c) (config.marginTop c)
            (config.height c - config.marginBottom c)%num.
Proof.
  intros H. destruct (link_returns _ _ H) as (st0 & H0 & ->).
  now destruct (link_setup_returns _ _ H0)
    as (_ & _ & _ & _ & _ & _ & _ & _ & _ & _ & _ & _ & _ & _ & _ & Hy).
Qed.

(** C6: without a baseline, the bar of every point ends, after the first
    render, with [y] at the pixel row of its value and with the height
    [yScale(value) - marginTop]; its lower edge [y + height] is the bottom
    margin row [height - marginBottom]; when [max] differs from [min] the
    height is the share [(value - min) / (max - min)] of the plot height
    [height - marginTop - marginBottom]; and a point whose value is [min]
    has height 0.  The configuration and the value are numbers. *)
Theorem axis_bar_extent (p : params.t) (st : state.t) (i : nat) (d : DataPoint.t)
    (h mn mx v : Q) :
  link p = Returns st ->
  state.showBaseline st = false ->
  nth_error (config.data (state.cfg st)) i = Some d ->
  config.height (state.cfg st) = Num h ->
  config.min (state.cfg st) = Num mn ->
  config.max (state.cfg st) = Num mx ->
  DataPoint.value d = Num v ->
  let c := state.cfg st in
  exists bar y height,
    nth_error (selectAll (sel_class "data") (state.svg st)) i = Some bar
    /\ element.get "y" bar = Some (ANum y)
    /\ element.get "height" bar = Some (ANum height)
    /\ y = (config.height c - config.marginBottom c + config.marginTop c
            - scale (config.yScale c) (Num v))%num
    /\ height = (scale (config.yScale c) (Num v) - config.marginTop c)%num
    /\ (y + height)%num =n= (config.height c - config.marginBottom c)%num
    /\ (~ mx == mn ->
        height =n= (Num ((v - mn) / (mx - mn))
                    * (config.height c - config.marginTop c - config.marginBottom c))%num)
    /\ (v == mn -> height =n= Num 0).
Proof.
  intros H Hmode Hd Hh Hmn Hmx Hv c.
  destruct (link_drawing _ _ H) as (_ & Hbars & _).
  destruct (link_margins_num _ _ H) as (mt & mb & Hmt & Hmb).
  pose proof (link_yScale _ _ H) as Hy. cbv zeta in Hy. fold c in Hy, Hmt, Hmb, Hh, Hmn, Hmx.
  destruct (axis_bar c i d Hd) as (bar & Hbar & _ & _ & _ & Hy1 & Hh1).
  rewrite Hbars, Hmode. rewrite Hv in Hy1, Hh1.
  exists bar. do 2 eexists.
  split; [exact Hbar |]. split; [exact Hy1 |]. split; [exact Hh1 |].
  split; [reflexivity |]. split; [reflexivity |].
  clear Hy1 Hh1 Hbar Hbars. rewrite Hy, Hh, Hmn, Hmx, Hmt, Hmb.
  assert (Hs : exists ys, scale (linear.mk (Num mn) (Num mx) (Num mt) (Num h - Num mb)) (Num v)
                          = Num ys).
  { unfold scale. simpl. destruct (Qeq_bool (mx - mn) 0) eqn:E; simpl; now eexists. }
  destruct Hs as [ys Hs].
  split; [| split].
  - rewrite Hs. simpl. ring.
  - intros Hne. pose proof (scale_share mn mx mt (h - mb) (Num v) Hne) as S.
    assert (E : Qeq_bool (mx - mn) 0 = false).
    { destruct (Qeq_bool (mx - mn) 0) eqn:E; [| reflexivity].
      apply Qeq_bool_eq in E. exfalso. apply Hne. lra. }
    change (Num (h - mb)) with (Num h - Num mb)%num in S. rewrite Hs in S |- *.
    simpl in S |- *. rewrite E in S. simpl in S. rewrite S. ring.
  - intros Hz. pose proof (scale_at_start mn mx mt (h - mb) v Hz) as S.
    change (Num (h - mb)) with (Num h - Num mb)%num in S. rewrite Hs in S |- *.
    simpl in S |- *. rewrite S. ring.
Qed.

Lemma axis_bar_extent_witness :
  exists st bar height,
    link (with_range "0" "10" (with_data two_columns no_params)) = Returns st
    /\ nth_error (selectAll (sel_class "data") (state.svg st)) 0 = Some bar
    /\ element.get "height" bar = Some (ANum height)
    /\ height =n= (Num ((7 - 0) / (10 - 0))
                   * (config.height (state.cfg st) - config.marginTop (state.cfg st)
                      - config.marginBottom (state.cfg st)))%num.
Proof.
  eassert (E : link (with_range "0" "10" (with_data two_columns no_params)) = Returns _)
    by (vm_compute; reflexivity).
  destruct (axis_bar_extent
              (with_range "0" "10" (with_data two_columns no_params)) _ 0
              (DataPoint.mk "Jan" (Num 7) None None None) 75 0 10 7 E)
    as (bar & y & height & Hbar & _ & Hheight & _ & _ & _ & Hshare & _);
    try reflexivity.
  eexists. exists bar, height. split; [exact E |]. split; [exact Hbar |].
  split; [exact Hheight |]. apply Hshare. discriminate.
Defined.

(* ================================================================= *)
(** ** What [update] leaves alone *)

Lemma Forall2_same {A : Type} (R : A -> A -> Prop) (l : list A) :
  (forall a, R a a) -> Forall2 R l l.
Proof. intros H. induction l; constructor; auto. Qed.

Lemma Forall2_chain {A : Type} (R1 R2 R : A -> A -> Prop) (l l1 l2 : list A) :
  (forall a b c, R1 a b -> R2 b c -> R a c) ->
  Forall2 R1 l l1 -> Forall2 R2 l1 l2 -> Forall2 R l l2.
Proof.
  intros H H1. revert l2. induction H1 as [| a b r r1 Hab _ IH]; intros l2 H2.
  - inversion H2. constructor.
  - inversion H2 as [| b' c r1' r2 Hbc Hr]; subst. constructor; eauto.
Qed.

(** A chain of calls on one selection, cut short or not by an exception. *)
Lemma and_then_modified (s : selector.t) (keys : list string) (svg : drawing)
    (m : drawing * completion) (k : drawing -> drawing * completion) :
  Forall2 (selected_modified s keys) svg (fst m) ->
  (forall svg1, Forall2 (selected_modified s keys) svg1 (fst (k svg1))) ->
  Forall2 (selected_modified s keys) svg (fst (m >>= k)).
Proof.
  intros Hm Hk. destruct m as [svg1 [| ex]]; simpl in *; [| exact Hm].
  eapply Forall2_chain; [| exact Hm | apply Hk].
  intros a b c. apply selected_modified_trans.
Qed.

Lemma each_attr_modified_in (s : selector.t) (keys : list string) (key : string)
    (f : nat -> evaluated) (svg : drawing) (i : nat) :
  In key keys ->
  Forall2 (selected_modified s keys) svg (fst (each_attr s key f i svg)).
Proof.
  intros Hk. eapply Forall2_impl; [| apply each_attr_modified].
  intros e e'. apply selected_modified_incl. intros k [<- | []]. exact Hk.
Qed.

Lemma updateDataFromBaseline_modified (svg : drawing) (c : config.t) :
  Forall2 (selected_modified (sel_class "data") ["fill"; "y"; "height"])
          svg (fst (updateDataFromBaseline svg c)).
Proof.
  unfold updateDataFromBaseline.
  repeat apply and_then_modified; intros; apply each_attr_modified_in; simpl; tauto.
Qed.

Lemma updateDataFromAxis_modified (svg : drawing) (c : config.t) :
  Forall2 (selected_modified (sel_class "data") ["fill"; "y"; "height"])
          svg (fst (updateDataFromAxis svg c)).
Proof.
  unfold updateDataFromAxis.
  repeat apply and_then_modified; intros; apply each_attr_modified_in; simpl; tauto.
Qed.

Lemma updateReference_modified (svg : drawing) (c : config.t) :
  Forall2 (selected_modified (sel_class "reference") ["y1"; "y2"])
          svg (fst (updateReference svg c)).
Proof.
  unfold updateReference.
  repeat apply and_then_modified; intros; apply each_attr_modified_in; simpl; tauto.
Qed.

(** The error-bar update does nothing. *)
Lemma updateErrorBars_noop (svg : drawing) (c : config.t) : updateErrorBars svg c = svg.
Proof. reflexivity. Qed.

Lemma matches_class (cls : string) (e : element.t) :
  matches (sel_class cls) e = has_class cls e.
Proof. reflexivity. Qed.

Lemma classes_same (e e' : element.t) :
  element.get "class" e' = element.get "class" e -> classes e' = classes e.
Proof. intros H. unfold classes. now rewrite H. Qed.

(** A pass over the bars followed by a pass over the reference markers. *)
Lemma two_passes_updated (e e1 e' : element.t) :
  selected_modified (sel_class "data") ["fill"; "y"; "height"] e e1 ->
  selected_modified (sel_class "reference") ["y1"; "y2"] e1 e' ->
  updated e e'.
Proof.
  intros H1 H2.
  destruct (selected_modified_same _ _ _ _ H1) as (Ht1 & Hd1 & Hi1 & Hg1).
  destruct (selected_modified_same _ _ _ _ H2) as (Ht2 & Hd2 & Hi2 & Hg2).
  assert (Hc1 : classes e1 = classes e).
  { apply classes_same, Hg1. simpl. intuition discriminate. }
  assert (Hc2 : classes e' = classes e1).
  { apply classes_same, Hg2. simpl. intuition discriminate. }
  unfold updated. repeat split; try congruence.
  - intros Hnd Hnr.
    assert (E1 : e1 = e).
    { destruct H1 as [-> | [Hm _]]; [reflexivity |]. rewrite matches_class in Hm. congruence. }
    subst e1. destruct H2 as [-> | [Hm _]]; [reflexivity |].
    rewrite matches_class in Hm. congruence.
  - intros k Hk.
    destruct (in_dec string_dec k ["fill"; "y"; "height"]) as [Kd | Kd];
      destruct (in_dec string_dec k ["y1"; "y2"]) as [Kr | Kr].
    + exfalso. simpl in Kd, Kr. intuition (subst; discriminate).
    + left. split; [| exact Kd]. destruct H1 as [-> | [Hm _]]; [| exact Hm].
      exfalso. apply Hk. now apply Hg2.
    + right. split; [| exact Kr]. destruct H2 as [-> | [Hm _]].
      * exfalso. apply Hk. now apply Hg1.
      * rewrite matches_class in Hm. unfold has_class in *. now rewrite <- Hc1.
    + exfalso. apply Hk. rewrite (Hg2 k Kr). now apply Hg1.
Qed.

Lemma update_drawing (st : state.t) (newData : list DataPoint.t) :
  Forall2 updated (state.svg st) (state.svg (fst (update st newData))).
Proof.
  unfold update.
  set (c := config.set_data (state.cfg st) newData).
  cbn [state.showBaseline state.set_cfg state.svg].
  set (m := if state.showBaseline st
            then updateDataFromBaseline (state.svg st) c
            else updateDataFromAxis (state.svg st) c).
  assert (Hm : Forall2 (selected_modified (sel_class "data") ["fill"; "y"; "height"])
                       (state.svg st) (fst m)).
  { subst m. destruct (state.showBaseline st);
      [apply updateDataFromBaseline_modified | apply updateDataFromAxis_modified]. }
  destruct m as [svg1 [| ex]]; cbn [and_then fst] in *.
  - pose proof (updateReference_modified svg1 c) as Hr.
    rewrite updateErrorBars_noop.
    destruct (updateReference svg1 c) as [svg2 r]. cbn [fst state.svg state.set_svg] in *.
    eapply Forall2_chain; [| exact Hm | exact Hr]. intros a b d. apply two_passes_updated.
  - cbn [fst state.svg state.set_svg].
    eapply Forall2_impl; [| exact Hm]. intros a b H.
    eapply two_passes_updated; [exact H | now left].
Qed.

Lemma kind_unselected (t : string) (cls : list string) (e : element.t) :
  kind t cls e ->
  existsb (String.eqb "data") cls = false ->
  existsb (String.eqb "reference") cls = false ->
  has_class "data" e = false /\ has_class "reference" e = false.
Proof.
  intros [_ Hc] Hd Hr. unfold has_class. now rewrite Hc.
Qed.

(* ================================================================= *)
(** ** An update with the data already drawn *)

Lemma set_data_same (c : config.t) : config.set_data c (config.data c) = c.
Proof. now destruct c. Qed.

Lemma set_cfg_same (st : state.t) : state.set_cfg st (state.cfg st) = st.
Proof. now destruct st. Qed.

Lemma set_svg_same (st : state.t) : state.set_svg st (state.svg st) = st.
Proof. now destruct st. Qed.

(** Every drawn bar is the bar of a point. *)
Lemma drawn_bar_point (b : bool) (c : config.t) (j : nat) (e : element.t) :
  nth_error (drawn_bars b c) j = Some e ->
  exists d, nth_error (config.data c) j = Some d.
Proof.
  intros H. assert (L : (j < List.length (drawn_bars b c))%nat).
  { apply nth_error_Some. congruence. }
  rewrite drawn_bars_length in L. apply nth_error_Some in L.
  destruct (nth_error (config.data c) j) as [d |]; [now exists d | contradiction].
Qed.

Lemma drawn_reference_point (c : config.t) (j : nat) (e : element.t) :
  nth_error (drawn_references c) j = Some e ->
  exists d, nth_error (config.data c) j = Some d.
Proof.
  intros H. assert (L : (j < List.length (drawn_references c))%nat).
  { apply nth_error_Some. congruence. }
  rewrite drawn_references_length in L. apply nth_error_Some in L.
  destruct (nth_error (config.data c) j) as [d |]; [now exists d | contradiction].
Qed.

Lemma at_index_found (data : list DataPoint.t) (f : DataPoint.t -> option attrval)
    (j : nat) (d : DataPoint.t) :
  nth_error data j = Some d -> at_index data f (0 + j) = Value (f d).
Proof. intros H. unfold at_index. simpl. now rewrite H. Qed.

(** A chain of calls each of which finds its value in place. *)
Ltac same_chain :=
  repeat (rewrite each_attr_same; [cbn [and_then] |]); [reflexivity | ..].

Lemma updateDataFromAxis_same (svg : drawing) (c : config.t) :
  selectAll (sel_class "data") svg = drawn_bars false c ->
  updateDataFromAxis svg c = (svg, Normal).
Proof.
  intros Hsel. unfold updateDataFromAxis. same_chain;
    intros j e Hj; rewrite Hsel in Hj;
    destruct (drawn_bar_point _ _ _ _ Hj) as [d Hd];
    destruct (axis_bar c j d Hd) as (bar & Hbar & _ & _ & Hfill & Hy & Hh);
    assert (bar = e) as -> by congruence;
    rewrite (at_index_found _ _ _ _ Hd);
    first [ eexists; split; [reflexivity | assumption]
          | destruct (fill_value c d) as [s Hs]; exists (AStr s); rewrite Hfill;
            split; [f_equal |]; exact Hs ].
Qed.

Lemma updateDataFromBaseline_same (svg : drawing) (c : config.t) :
  selectAll (sel_class "data") svg = drawn_bars true c ->
  updateDataFromBaseline svg c = (svg, Normal).
Proof.
  intros Hsel. unfold updateDataFromBaseline. same_chain;
    intros j e Hj; rewrite Hsel in Hj;
    destruct (drawn_bar_point _ _ _ _ Hj) as [d Hd];
    destruct (baseline_bar c j d Hd) as (bar & Hbar & _ & _ & Hfill & Hy & Hh);
    assert (bar = e) as -> by congruence;
    rewrite (at_index_found _ _ _ _ Hd);
    first [ eexists; split; [reflexivity | assumption]
          | destruct (fill_value c d) as [s Hs]; exists (AStr s); rewrite Hfill;
            split; [f_equal |]; exact Hs
          | rewrite Hy; destruct (DataPoint.value d >=? ToNumber (config.baseline c))%num;
            eexists; split; reflexivity ].
Qed.

Lemma updateReference_same (svg : drawing) (c : config.t) :
  selectAll (sel_class "reference") svg = drawn_references c ->
  updateReference svg c = (svg, Normal).
Proof.
  intros Hsel. unfold updateReference. same_chain;
    intros j e Hj; rewrite Hsel in Hj;
    destruct (drawn_reference_point _ _ _ Hj) as [d Hd];
    destruct (reference_marker c j d Hd) as (m & Hm & Hy1 & Hy2);
    assert (m = e) as -> by congruence;
    rewrite (at_index_found _ _ _ _ Hd);
    eexists; (split; [reflexivity | assumption]).
Qed.

(** After [link], an update with the data of the configuration leaves the
    whole state as it is. *)
Lemma update_same_data (p : params.t) (st : state.t) :
  link p = Returns st ->
  update st (config.data (state.cfg st)) = (st, Normal).
Proof.
  intros H. destruct (link_drawing _ _ H) as (_ & Hbars & Hrefs).
  unfold update. rewrite set_data_same, set_cfg_same.
  assert (E : (if state.showBaseline st
               then updateDataFromBaseline (state.svg st) (state.cfg st)
               else updateDataFromAxis (state.svg st) (state.cfg st))
              = (state.svg st, Normal)).
  { destruct (state.showBaseline st);
      [now apply updateDataFromBaseline_same | now apply updateDataFromAxis_same]. }
  rewrite E. cbn [and_then]. rewrite updateErrorBars_noop.
  rewrite (updateReference_same _ _ Hrefs). now rewrite set_svg_same.
Qed.

(** C2: after the first render, an update with the unchanged data sequence
    completes and leaves the bars (class [data]: [x], [y], [width],
    [height], [fill]) and the reference markers (class [reference]) exactly
    as the render drew them, in either mode; so does it the rest of the
    drawing. *)
Theorem update_with_same_data (p : params.t) (st : state.t) :
  link p = Returns st ->
  let st' := fst (update st (config.data (state.cfg st))) in
  snd (update st (config.data (state.cfg st))) = Normal
  /\ selectAll (sel_class "data") (state.svg st') = selectAll (sel_class "data") (state.svg st)
  /\ selectAll (sel_class "reference") (state.svg st')
     = selectAll (sel_class "reference") (state.svg st)
  /\ state.svg st' = state.svg st.
Proof.
  intros H. cbv zeta. rewrite (update_same_data _ _ H). now repeat split.
Qed.

Lemma update_with_same_data_witness :
  exists st,
    link (with_baseline "7.2" (with_data two_columns no_params)) = Returns st
    /\ snd (update st (config.data (state.cfg st))) = Normal
    /\ List.length (selectAll (sel_class "data") (state.svg st)) = 2%nat
    /\ selectAll (sel_class "data") (state.svg (fst (update st (config.data (state.cfg st)))))
       = selectAll (sel_class "data") (state.svg st).
Proof.
  eassert (E : link (with_baseline "7.2" (with_data two_columns no_params)) = Returns _)
    by (vm_compute; reflexivity).
  destruct (update_with_same_data _ _ E) as (Hn & Hb & _).
  eexists. split; [exact E |]. split; [exact Hn |]. split; [reflexivity | exact Hb].
Defined.

(* ================================================================= *)
(** ** Bars from a baseline *)

Lemma set_each_count (s : selector.t) (key : string) (g : nat -> option attrval)
    (svg : drawing) (i : nat) :
  key <> "class" ->
  List.length (selectAll s (set_each s key g i svg)) = List.length (selectAll s svg).
Proof.
  intros Hk. revert i. induction svg as [| e r IH]; intros i; simpl; [reflexivity |].
  destruct (matches s e) eqn:E; simpl.
  - rewrite (matches_attr _ _ _ _ Hk), E. simpl. now rewrite IH.
  - rewrite E. apply IH.
Qed.

(** The height [renderDataFromBaseline] and [updateDataFromBaseline] give to
    a point whose value is a number: 0 for the value 0, the distance to the
    baseline otherwise. *)
Lemma baseline_height_cases (c : config.t) (v : Q) :
  (v == 0 ->
   (if num_truthy (Num v)
    then nabs (scale (config.yScale c) (ToNumber (config.baseline c))
               - scale (config.yScale c) (Num v))%num
    else Num 0) = Num 0)
  /\
  (~ v == 0 ->
   (if num_truthy (Num v)
    then nabs (scale (config.yScale c) (ToNumber (config.baseline c))
               - scale (config.yScale c) (Num v))%num
    else Num 0) = distance_to_baseline c v).
Proof.
  simpl. split; intros Hv.
  - apply Qeq_eq_bool in Hv. now rewrite Hv.
  - destruct (Qeq_bool v 0) eqn:E; [| reflexivity].
    apply Qeq_bool_eq in E. contradiction.
Qed.

(** The bars after the three calls of [updateDataFromBaseline], when the new
    data reach as far as the bars. *)
Lemma updateDataFromBaseline_bars (svg : drawing) (c : config.t) (i : nat)
    (bar : element.t) (d : DataPoint.t) :
  (List.length (selectAll (sel_class "data") svg) <= List.length (config.data c))%nat ->
  nth_error (selectAll (sel_class "data") svg) i = Some bar ->
  nth_error (config.data c) i = Some d ->
  exists svg' bar',
    updateDataFromBaseline svg c = (svg', Normal)
    /\ nth_error (selectAll (sel_class "data") svg') i = Some bar'
    /\ element.get "height" bar' =
         Some (ANum (if num_truthy (DataPoint.value d)
                     then nabs (scale (config.yScale c) (ToNumber (config.baseline c))
                                - scale (config.yScale c) (DataPoint.value d))%num
                     else Num 0)).
Proof.
  intros Hlen Hbar Hd. unfold updateDataFromBaseline.
  rewrite each_attr_ok by (simpl; exact Hlen). cbn [and_then].
  rewrite each_attr_ok by (rewrite set_each_count by discriminate; exact Hlen).
  cbn [and_then].
  rewrite each_attr_ok by (rewrite !set_each_count by discriminate; exact Hlen).
  eexists. eexists. split; [reflexivity |].
  rewrite !set_each_selected by discriminate. rewrite Hbar. split; [reflexivity |].
  unfold from_data at 1. simpl. rewrite Hd. apply get_attr_same.
Qed.

(** C9: in baseline mode a point whose value is exactly 0 has, after the
    first render, a bar of height 0, whatever the baseline, and a point
    whose value is a non-zero number a bar of height
    [|yScale(baseline) - yScale(value)|]; the same heights are set by an
    update, whose new data must reach as far as the bars for its callbacks
    not to throw. *)
Theorem baseline_bar_height :
  (forall p st i d,
     link p = Returns st ->
     state.showBaseline st = true ->
     nth_error (config.data (state.cfg st)) i = Some d ->
     exists bar,
       nth_error (selectAll (sel_class "data") (state.svg st)) i = Some bar
       /\ (forall v, DataPoint.value d = Num v -> v == 0 ->
             element.get "height" bar = Some (ANum (Num 0)))
       /\ (forall v, DataPoint.value d = Num v -> ~ v == 0 ->
             element.get "height" bar
             = Some (ANum (distance_to_baseline (state.cfg st) v))))
  /\
  (forall st newData i bar d,
     state.showBaseline st = true ->
     (List.length (selectAll (sel_class "data") (state.svg st)) <= List.length newData)%nat ->
     nth_error (selectAll (sel_class "data") (state.svg st)) i = Some bar ->
     nth_error newData i = Some d ->
     exists bar',
       nth_error (selectAll (sel_class "data") (state.svg (fst (update st newData)))) i
       = Some bar'
       /\ (forall v, DataPoint.value d = Num v -> v == 0 ->
             element.get "height" bar' = Some (ANum (Num 0)))
       /\ (forall v, DataPoint.value d = Num v -> ~ v == 0 ->
             element.get "height" bar'
             = Some (ANum (distance_to_baseline (state.cfg st) v)))).
Proof.
  split.
  - intros p st i d H Hmode Hd.
    destruct (link_drawing _ _ H) as (_ & Hbars & _).
    destruct (baseline_bar (state.cfg st) i d Hd) as (bar & Hbar & _ & _ & _ & _ & Hh).
    exists bar. rewrite Hbars, Hmode. split; [exact Hbar |].
    split; intros v Hv Hz; rewrite Hh, Hv; do 2 f_equal;
      now apply (baseline_height_cases (state.cfg st) v).
  - intros st newData i bar d Hmode Hlen Hbar Hd.
    set (c := config.set_data (state.cfg st) newData).
    destruct (updateDataFromBaseline_bars (state.svg st) c i bar d Hlen Hbar Hd)
      as (svg1 & bar1 & Hup & Hbar1 & Hh1).
    unfold update. fold c. cbn [state.showBaseline state.set_cfg state.svg].
    rewrite Hmode, Hup. cbn [and_then]. rewrite updateErrorBars_noop.
    pose proof (updateReference_modified svg1 c) as Hr.
    destruct (updateReference svg1 c) as [svg2 r]. cbn [fst state.svg state.set_svg] in *.
    assert (Hsel : Forall2 (selected_modified (sel_class "reference") ["y1"; "y2"])
                     (selectAll (sel_class "data") svg1) (selectAll (sel_class "data") svg2)).
    { apply Forall2_selectAll; [exact Hr |]. intros e e'.
      apply selected_modified_matches. simpl. intuition discriminate. }
    destruct (Forall2_nth _ _ _ _ _ Hsel Hbar1) as (bar2 & Hbar2 & Hm).
    exists bar2. split; [exact Hbar2 |].
    destruct (selected_modified_same _ _ _ _ Hm) as (_ & _ & _ & Hg).
    assert (Hh2 : element.get "height" bar2 = element.get "height" bar1).
    { apply Hg. simpl. intuition discriminate. }
    rewrite Hh2, Hh1.
    split; intros v Hv Hz; rewrite Hv; do 2 f_equal;
      now apply (baseline_height_cases c v).
Qed.

Lemma baseline_bar_height_witness :
  exists st bar bar',
    link (with_baseline "3" (with_data five_columns no_params)) = Returns st
    /\ nth_error (selectAll (sel_class "data") (state.svg st)) 2 = Some bar
    /\ element.get "height" bar = Some (ANum (Num 0))
    /\ nth_error (selectAll (sel_class "data") (state.svg (fst (update st zero_first)))) 0
       = Some bar'
    /\ element.get "height" bar' = Some (ANum (Num 0)).
Proof.
  eassert (E : link (with_baseline "3" (with_data five_columns no_params)) = Returns _)
    by (vm_compute; reflexivity).
  match type of E with _ = Returns ?s => set (st := s) in E end.
  destruct (proj1 baseline_bar_height _ st 2%nat (DataPoint.mk "Wed" (Num 0) None None None)
              E eq_refl eq_refl)
    as (bar & Hbar & Hzero & _).
  eassert (B : nth_error (selectAll (sel_class "data") (state.svg st)) 0 = Some _)
    by (vm_compute; reflexivity).
  assert (L : (List.length (selectAll (sel_class "data") (state.svg st))
               <= List.length zero_first)%nat)
    by (vm_compute; lia).
  destruct (proj2 baseline_bar_height st zero_first 0%nat _
              (DataPoint.mk "Mon" (Num 0) None None None) eq_refl L B eq_refl)
    as (bar' & Hbar' & Hzero' & _).
  exists st, bar, bar'. split; [exact E |]. split; [exact Hbar |].
  split; [apply (Hzero 0); reflexivity |]. split; [exact Hbar' |].
  apply (Hzero' 0); reflexivity.
Defined.

(* ================================================================= *)
(** ** Further properties of the utility methods *)

(** X1: [getColor] returns the default colour exactly when neither the low
    nor the high threshold matches; so it does for thresholds that are
    [null], for an object without [l] and [h], and for a value that is not a
    number, whatever the thresholds. *)
Theorem getColor_default (v : num) (t : Thresholds) :
  (getColor v (Some t) = defaults.colors.default
   <-> (v <=? prop t "l")%num = false /\ (v >=? prop t "h")%num = false)
  /\ getColor v None = defaults.colors.default
  /\ (lookup "l" t = None -> lookup "h" t = None ->
      getColor v (Some t) = defaults.colors.default)
  /\ getColor NaN (Some t) = defaults.colors.default.
Proof.
  assert (E : getColor v (Some t) = defaults.colors.default
              <-> (v <=? prop t "l")%num = false /\ (v >=? prop t "h")%num = false).
  { unfold getColor, parseFloat_num.
    destruct (v <=? prop t "l")%num, (v >=? prop t "h")%num,
             (v <=? prop t "ll")%num, (v >=? prop t "hh")%num;
      split; intros H; try discriminate H; try (destruct H; discriminate); auto. }
  split; [exact E |]. split; [reflexivity |]. split.
  - intros Hl Hh. apply E. unfold prop. rewrite Hl, Hh.
    destruct v; split; reflexivity.
  - unfold getColor, parseFloat_num, nge.
    destruct (prop t "h"), (prop t "l"); reflexivity.
Qed.

(** X2: the caps of an error bar are centred on the column, [x1 + x2] being
    twice [xCenter]; they are half as wide as the column when it is wider
    than 10, and as wide as the column otherwise.  The stroke is 1.  A point
    without an error range gets the stroke 0, all coordinates 0 and no
    [xCenter]. *)
Theorem errorBars_caps (d : DataPoint.t) (i : nat) (c : config.t) :
  match DataPoint.error d with
  | Some _ =>
      errorbar.stroke (errorBars d i c) = Num 1
      /\ exists xc,
           errorbar.xCenter (errorBars d i c) = Some xc
           /\ (errorbar.x1 (errorBars d i c) + errorbar.x2 (errorBars d i c))%num
              =n= (Num 2 * xc)%num
           /\ (errorbar.x1 (errorBars d i c)
               + (if (config.colWidth c >? Num 10)%num
                  then config.colWidth c * Num 0.5 else config.colWidth c))%num
              =n= errorbar.x2 (errorBars d i c)
  | None =>
      errorBars d i c = errorbar.mk (Num 0) (Num 0) (Num 0) (Num 0) (Num 0) None
  end.
Proof.
  unfold errorBars. destruct (DataPoint.error d) as [e |]; [| reflexivity].
  set (xi := scale (config.xScale c) (of_nat i)).
  destruct (opt_truthy (config.baseline c)); cbn [errorbar.stroke errorbar.xCenter
    errorbar.x1 errorbar.x2]; (split; [reflexivity |]);
    eexists; (split; [reflexivity |]);
    destruct xi as [| x], (config.colWidth c) as [| w]; simpl; try tauto;
    destruct (Qle_bool w 10); simpl; try tauto; split; ring.
Qed.

(** A linear scale with its range reversed mirrors the scale. *)
Lemma scale_mirror (d0 d1 r0 r1 x : num) :
  scale (linear.mk d0 d1 r1 r0) x =n= (r1 + r0 - scale (linear.mk d0 d1 r0 r1) x)%num.
Proof.
  unfold scale. cbn [linear.d0 linear.d1 linear.r0 linear.r1].
  destruct d0 as [| a], d1 as [| b], r0 as [| p], r1 as [| q], x as [| y]; simpl; try exact I;
    destruct (Qeq_bool (b - a) 0); simpl; try exact I; ring.
Qed.

(* ================================================================= *)
(** ** How an update ends *)

(** A callback that reads [config.data[i]] throws at the first selected
    element the data do not reach. *)
Lemma each_attr_completion (s : selector.t) (key : string) (data : list DataPoint.t)
    (f : DataPoint.t -> option attrval) (svg : drawing) (i : nat) :
  snd (each_attr s key (at_index data f) i svg) =
  if ((i + List.length (selectAll s svg) <=? List.length data)%nat
      || (List.length (selectAll s svg) =? 0)%nat)
  then Normal else Abrupt TypeError.
Proof.
  revert i. induction svg as [| e r IH]; intros i; simpl.
  - now rewrite orb_true_r.
  - destruct (matches s e) eqn:E; simpl.
    + unfold at_index at 1. destruct (nth_error data i) as [d |] eqn:Hd.
      * specialize (IH (S i)).
        destruct (each_attr s key (at_index data f) (S i) r) as [r' c']. simpl in *.
        rewrite IH. rewrite orb_false_r.
        assert (Hi : (i < List.length data)%nat) by (apply nth_error_Some; congruence).
        destruct (List.length (selectAll s r)) as [| n]; simpl.
        -- rewrite orb_true_r. destruct (Nat.leb_spec (i + 1) (List.length data)); [reflexivity | lia].
        -- rewrite orb_false_r. replace (i + S (S n))%nat with (S (i + S n)) by lia.
           reflexivity.
      * simpl. apply nth_error_None in Hd. rewrite orb_false_r.
        destruct (Nat.leb_spec (i + S (List.length (selectAll s r))) (List.length data));
          [lia | reflexivity].
    + specialize (IH i). destruct (each_attr s key (at_index data f) i r) as [r' c'].
      exact IH.
Qed.

Lemma each_attr_short (s : selector.t) (key : string) (data : list DataPoint.t)
    (f : DataPoint.t -> option attrval) (svg : drawing) :
  (List.length data < List.length (selectAll s svg))%nat ->
  snd (each_attr s key (at_index data f) 0 svg) = Abrupt TypeError.
Proof.
  intros H. rewrite each_attr_completion. simpl.
  destruct (Nat.leb_spec (List.length (selectAll s svg)) (List.length data)); [lia |].
  destruct (List.length (selectAll s svg)); [lia | reflexivity].
Qed.

Lemma and_then_abrupt (m : drawing * completion) (k : drawing -> drawing * completion)
    (ex : exn) :
  snd m = Abrupt ex -> m >>= k = m.
Proof. destruct m as [svg [| e]]; simpl; [discriminate | reflexivity]. Qed.

(** A call of [.attr] with another key than [class] leaves every selection
    as long as it was. *)
Lemma set_each_select_count (s q : selector.t) (key : string) (g : nat -> option attrval)
    (svg : drawing) (i : nat) :
  key <> "class" ->
  List.length (selectAll q (set_each s key g i svg)) = List.length (selectAll q svg).
Proof.
  intros Hk. revert i. induction svg as [| e r IH]; intros i; simpl; [reflexivity |].
  destruct (matches s e); simpl.
  - rewrite (matches_attr _ _ _ _ Hk). destruct (matches q e); simpl; now rewrite IH.
  - destruct (matches q e); simpl; now rewrite IH.
Qed.

Lemma updateData_completion (b : bool) (svg : drawing) (c : config.t) :
  let m := if b then updateDataFromBaseline svg c else updateDataFromAxis svg c in
  ((List.length (selectAll (sel_class "data") svg) <= List.length (config.data c))%nat ->
   snd m = Normal
   /\ List.length (selectAll (sel_class "reference") (fst m))
      = List.length (selectAll (sel_class "reference") svg))
  /\ ((List.length (config.data c) < List.length (selectAll (sel_class "data") svg))%nat ->
      snd m = Abrupt TypeError
      /\ Forall2 (selected_modified (sel_class "data") ["fill"]) svg (fst m)).
Proof.
  split; intros Hlen.
  - destruct b; [unfold updateDataFromBaseline | unfold updateDataFromAxis];
      rewrite each_attr_ok by (simpl; exact Hlen); cbn [and_then];
      rewrite each_attr_ok by (rewrite set_each_count by discriminate; exact Hlen);
      cbn [and_then];
      rewrite each_attr_ok by (rewrite !set_each_count by discriminate; exact Hlen);
      (split; [reflexivity |]); cbn [fst];
      now rewrite !set_each_select_count by discriminate.
  - destruct b; [unfold updateDataFromBaseline | unfold updateDataFromAxis];
      match goal with
      | |- context [each_attr ?s "fill" (at_index ?d ?f) 0 svg] =>
          pose proof (each_attr_short s "fill" d f svg Hlen) as Hs;
          pose proof (each_attr_modified s "fill" (at_index d f) svg 0) as Hm;
          rewrite !(and_then_abrupt _ _ _ Hs)
      end; (split; [exact Hs | exact Hm]).
Qed.

Lemma updateReference_completion (svg : drawing) (c : config.t) :
  snd (updateReference svg c) =
  if (List.length (selectAll (sel_class "reference") svg) <=? List.length (config.data c))%nat
  then Normal else Abrupt TypeError.
Proof.
  unfold updateReference.
  destruct (Nat.leb_spec (List.length (selectAll (sel_class "reference") svg))
                         (List.length (config.data c))) as [Hlen | Hlen].
  - rewrite each_attr_ok by (simpl; exact Hlen). cbn [and_then].
    rewrite each_attr_ok by (rewrite set_each_count by discriminate; exact Hlen).
    reflexivity.
  - match goal with
    | |- context [each_attr ?s "y1" (at_index ?d ?f) 0 svg] =>
        pose proof (each_attr_short s "y1" d f svg Hlen) as Hs;
        rewrite (and_then_abrupt _ _ _ Hs)
    end. exact Hs.
Qed.



(* ================================================================= *)
(** ** The layout [link] computes *)

(** The rest of the configuration [link] hands to [render]. *)
Lemma link_layout (p : params.t) (st : state.t) :
  link p = Returns st ->
  let c := state.cfg st in
  config.marginLeft c =
    margins.left (getMargins (config.colWidth c) (config.max c) (config.min c)
                             (state.showXAxis st) (state.showYAxis st))
  /\ config.marginRight c = Num 5
  /\ config.stroke c = (if (config.height c >=? Num 150)%num then Num 2 else Num 1)
  /\ config.xScale c =
       linear.mk (Num 0) (of_nat (List.length (config.data c)) - Num 1)%num
                 (config.marginLeft c)
                 (config.width c - config.colWidth c - config.marginRight c)%num
  /\ config.yAxisLabelScale c =
       linear.mk (config.min c) (config.max c)
                 (config.height c - config.marginBottom c)%num (config.marginTop c)
  /\ (exists j, if_given (params.thresholds p) JSON_parse (Returns JNull) = Returns j
                /\ as_thresholds j = Returns (config.thresholds c))
  /\ config.showColoredThresholds c = is_true (params.showColoredThresholds p).
Proof.
  intros H. destruct (link_returns _ _ H) as (st0 & H0 & ->).
  rewrite render_cfg. change (state.showXAxis (render st0)) with (state.showXAxis st0).
  change (state.showYAxis (render st0)) with (state.showYAxis st0).
  clear H. revert H0. unfold link_setup.
  destruct (parse_both _ _) as [[tj dj] | e |] eqn:Ep; cbn [bind]; try discriminate.
  destruct (if_given (params.max p) parseFloat (Some (Num 100))) as [mx |] eqn:Emax;
    cbn [bind modelled]; try discriminate.
  destruct (if_given (params.min p) parseFloat (Some (Num 0))) as [mn |] eqn:Emin;
    cbn [bind modelled]; try discriminate.
  destruct (parseFloat_attr (params.baseline p)) as [b |] eqn:Eb;
    cbn [bind modelled]; try discriminate.
  destruct (as_thresholds _) as [t | e |] eqn:Et; cbn [bind]; try discriminate.
  destruct (as_data _) as [ds | e |] eqn:Ed; cbn [bind]; try discriminate.
  intros [= <-]. cbn.
  apply parse_both_returns in Ep. destruct Ep as [Ep _]. cbn in Ep, Et.
  repeat split; try reflexivity.
  now exists tj.
Qed.

Lemma getFontSize_range (w : Q) :
  w <= 20 -> exists f, getFontSize (Num w) = Num f /\ 9 <= f /\ f <= 12.
Proof.
  intros Hw. unfold getFontSize. simpl.
  destruct (Qle_bool 9 (w * 0.6)) eqn:E; simpl.
  - apply Qle_bool_iff in E. exists (w * 0.6). split; [reflexivity |]. split; lra.
  - exists 9. split; [reflexivity |]. split; lra.
Qed.

(** X4: whatever the attributes, the column width [link] computes is a
    number of at most 20, so the font size is between 9 and 12; the top
    margin is half the font size, the bottom margin 1.3 times the font size
    with the x-axis and 1 without it, the right margin 5, and the left margin
    the font size times the longer of the texts of [max] and [min] with the
    y-axis and 0 without it. *)
Theorem link_margins_bounds (p : params.t) (st : state.t) :
  link p = Returns st ->
  let c := state.cfg st in
  exists w f,
    config.colWidth c = Num w /\ w <= 20
    /\ getFontSize (config.colWidth c) = Num f /\ 9 <= f /\ f <= 12
    /\ config.marginTop c = Num (0.5 * f)
    /\ config.marginBottom c = (if state.showXAxis st then Num (1.3 * f) else Num 1)
    /\ config.marginRight c = Num 5
    /\ config.marginLeft c =
         (if state.showYAxis st
          then Num (f * inject_Z (Z.of_nat (numChars (config.max c) (config.min c))))
          else Num 0).
Proof.
  intros H c.
  destruct (link_layout _ _ H) as (Hl & Hr & _).
  pose proof (link_colWidth _ _ H) as Hw.
  destruct (link_returns _ _ H) as (st0 & H0 & E).
  destruct (link_setup_returns _ _ H0)
    as (_ & _ & _ & _ & _ & _ & _ & _ & _ & _ & _ & _ & _ & Ht & Hb & _).
  subst st. rewrite render_cfg in *.
  change (state.showXAxis (render st0)) with (state.showXAxis st0) in *.
  change (state.showYAxis (render st0)) with (state.showYAxis st0) in *.
  subst c. rewrite render_cfg. cbv zeta in Hw.
  set (c := state.cfg st0) in *.
  destruct (getColWidth_num (config.width c) (List.length (config.data c))
              (config.max c) (config.min c) false) as [w Ew].
  assert (Hcap : w <= 20).
  { pose proof (cap20_le (available (config.width c) (config.max c) (config.min c) false
                          / Num (slots (List.length (config.data c))))%num) as Hc.
    rewrite <- getColWidth_cap, Ew in Hc. simpl in Hc. now apply Qle_bool_iff. }
  rewrite <- Hw in Ew.
  destruct (getFontSize_range w Hcap) as (f & Ef & Hf1 & Hf2).
  exists w, f. rewrite Ht, Hb, Hl, Hr. unfold getMargins. rewrite Ew, Ef.
  cbn [margins.top margins.bottom margins.left].
  repeat split; try assumption; try reflexivity.
Qed.

Lemma link_margins_bounds_witness :
  exists st f,
    link (with_showYAxis "true" (with_data five_columns no_params)) = Returns st
    /\ getFontSize (config.colWidth (state.cfg st)) = Num f
    /\ 9 <= f /\ f <= 12
    /\ config.marginTop (state.cfg st) = Num (0.5 * f)
    /\ config.marginBottom (state.cfg st) = Num 1
    /\ config.marginLeft (state.cfg st) = Num (f * inject_Z (Z.of_nat 3)).
Proof.
  eassert (E : link (with_showYAxis "true" (with_data five_columns no_params)) = Returns _)
    by (vm_compute; reflexivity).
  match type of E with _ = Returns ?s => set (st := s) in E end.
  destruct (link_margins_bounds _ st E) as (w & f & _ & _ & Hf & H9 & H12 & Ht & Hb & _ & Hl).
  exists st, f. repeat split; try assumption.
Defined.

(* ================================================================= *)
(** ** Rows of the values *)

(** A linear scale on numbers, over a domain that is not a single point. *)
Lemma scale_value (d0 d1 r0 r1 x : Q) :
  d0 < d1 ->
  scale (linear.mk (Num d0) (Num d1) (Num r0) (Num r1)) (Num x)
  = Num (r0 * (1 - (x - d0) / (d1 - d0)) + r1 * ((x - d0) / (d1 - d0))).
Proof.
  intros Hd. unfold scale. simpl.
  assert (E : Qeq_bool (d1 - d0) 0 = false).
  { destruct (Qeq_bool (d1 - d0) 0) eqn:E; [| reflexivity].
    apply Qeq_bool_eq in E. lra. }
  now rewrite E.
Qed.

Lemma share_monotone (d0 d1 x x' : Q) :
  d0 < d1 -> x <= x' -> (x - d0) / (d1 - d0) <= (x' - d0) / (d1 - d0).
Proof.
  intros Hd Hx. unfold Qdiv. apply Qmult_le_compat_r; [lra |].
  apply Qlt_le_weak, Qinv_lt_0_compat. lra.
Qed.

(** With an increasing range, a larger value is scaled to a larger number. *)
Lemma scale_monotone (d0 d1 r0 r1 x x' : Q) :
  d0 < d1 -> r0 <= r1 -> x <= x' ->
  exists y y',
    scale (linear.mk (Num d0) (Num d1) (Num r0) (Num r1)) (Num x) = Num y
    /\ scale (linear.mk (Num d0) (Num d1) (Num r0) (Num r1)) (Num x') = Num y'
    /\ y <= y'.
Proof.
  intros Hd Hr Hx. rewrite !scale_value by exact Hd.
  do 2 eexists. split; [reflexivity |]. split; [reflexivity |].
  pose proof (share_monotone d0 d1 x x' Hd Hx) as Ht.
  set (t := (x - d0) / (d1 - d0)) in *. set (t' := (x' - d0) / (d1 - d0)) in *.
  assert (H : 0 <= (r1 - r0) * (t' - t)) by (apply Qmult_le_0_compat; lra).
  lra.
Qed.

(** The ends of the domain are scaled to the ends of the range. *)
Lemma scale_ends (d0 d1 r0 r1 : Q) :
  d0 < d1 ->
  scale (linear.mk (Num d0) (Num d1) (Num r0) (Num r1)) (Num d0) =n= Num r0
  /\ scale (linear.mk (Num d0) (Num d1) (Num r0) (Num r1)) (Num d1) =n= Num r1.
Proof.
  intros Hd. rewrite !scale_value by exact Hd. simpl. split; field; lra.
Qed.

(** The distance between the scaled baseline and a scaled value, taken off
    the row of the baseline or added to it as the source does, gives the row
    of the value. *)
Lemma row_from_baseline (c : config.t) (mn mx r0 r1 b v : Q) :
  config.yScale c = linear.mk (Num mn) (Num mx) (Num r0) (Num r1) ->
  mn < mx -> r0 <= r1 ->
  let d := nabs (scale (config.yScale c) (Num b) - scale (config.yScale c) (Num v))%num in
  (if (Num v >=? Num b)%num then row c (Num b) - d else row c (Num b) + d)%num
  =n= row c (Num v)
  /\ (d =n= (if (Num v >=? Num b)%num
             then row c (Num b) - row c (Num v)
             else row c (Num v) - row c (Num b))%num
      \/ row c (Num v) = NaN).
Proof.
  intros Hy Hd Hr. unfold row. rewrite Hy. simpl nge. unfold nge, nle.
  destruct (Qle_bool b v) eqn:E.
  - apply Qle_bool_iff in E.
    destruct (scale_monotone mn mx r0 r1 b v Hd Hr E) as (yb & yv & -> & -> & Hle).
    destruct (config.height c - config.marginBottom c + config.marginTop c)%num as [| fl];
      simpl; [split; [exact I | now right] |].
    rewrite (Qabs_neg (yb - yv)) by lra. split; [ring | left; ring].
  - assert (Hvb : v <= b).
    { destruct (Qlt_le_dec v b) as [H | H]; [lra |]. apply Qle_bool_iff in H. congruence. }
    destruct (scale_monotone mn mx r0 r1 v b Hd Hr Hvb) as (yv & yb & -> & -> & Hle).
    destruct (config.height c - config.marginBottom c + config.marginTop c)%num as [| fl];
      simpl; [split; [exact I | now right] |].
    rewrite (Qabs_pos (yb - yv)) by lra. split; [ring | left; ring].
Qed.

(** X5: over a [yScale] that grows with the value, the ends of an error bar
    are at the rows of the high and of the low end of the range, with a
    baseline as without one: the distances to the baseline that [errorBars]
    computes in the first case cancel out. *)
Theorem errorBars_rows (d : DataPoint.t) (i : nat) (c : config.t) (e : ErrorRange.t)
    (mn mx r0 r1 h l : Q) :
  DataPoint.error d = Some e ->
  config.yScale c = linear.mk (Num mn) (Num mx) (Num r0) (Num r1) ->
  mn < mx -> r0 <= r1 ->
  ErrorRange.h e = Num h -> ErrorRange.l e = Num l ->
  (forall n, config.baseline c = Some n -> exists q, n = Num q) ->
  errorbar.y1 (errorBars d i c) =n= row c (Num h)
  /\ errorbar.y2 (errorBars d i c) =n= row c (Num l).
Proof.
  intros He Hy Hd Hr Hh Hl Hb. unfold errorBars. rewrite He, Hh, Hl.
  destruct (opt_truthy (config.baseline c)) eqn:Eb; cbn [errorbar.y1 errorbar.y2].
  - destruct (config.baseline c) as [n |] eqn:En; [| discriminate Eb].
    destruct (Hb n eq_refl) as [q ->]. cbn [ToNumber].
    split.
    + exact (proj1 (row_from_baseline c mn mx r0 r1 q h Hy Hd Hr)).
    + exact (proj1 (row_from_baseline c mn mx r0 r1 q l Hy Hd Hr)).
  - unfold row.
    destruct (config.height c - config.marginBottom c + config.marginTop c
              - scale (config.yScale c) (Num h))%num,
             (config.height c - config.marginBottom c + config.marginTop c
              - scale (config.yScale c) (Num l))%num; simpl; split; try exact I; reflexivity.
Qed.

Lemma errorBars_rows_witness :
  exists st d,
    link three_from_baseline = Returns st
    /\ nth_error (config.data (state.cfg st)) 1 = Some d
    /\ errorbar.y1 (errorBars d 1 (state.cfg st)) =n= row (state.cfg st) (Num 9)
    /\ errorbar.y2 (errorBars d 1 (state.cfg st)) =n= row (state.cfg st) (Num 7).
Proof.
  eassert (E : link three_from_baseline = Returns _) by (vm_compute; reflexivity).
  match type of E with _ = Returns ?s => set (st := s) in E end.
  eassert (D : nth_error (config.data (state.cfg st)) 1 = Some _) by reflexivity.
  match type of D with _ = Some ?x => set (d := x) in D end.
  eassert (Y : config.yScale (state.cfg st) = linear.mk (Num _) (Num _) (Num _) (Num _))
    by reflexivity.
  exists st, d. split; [exact E |]. split; [exact D |].
  apply (errorBars_rows d 1 (state.cfg st) (ErrorRange.mk (Num 9) (Num 7)) _ _ _ _ 9 7
           eq_refl Y).
  - reflexivity.
  - unfold Qle. simpl. lia.
  - reflexivity.
  - reflexivity.
  - intros n [= <-]. now eexists.
Defined.

(** The row of a value in the chart [link] lays out, when the height and
    the ends of the range are numbers. *)
Lemma link_row (p : params.t) (st : state.t) (h mn mx : Q) :
  link p = Returns st ->
  config.height (state.cfg st) = Num h ->
  config.min (state.cfg st) = Num mn ->
  config.max (state.cfg st) = Num mx ->
  exists mt mb,
    config.marginTop (state.cfg st) = Num mt
    /\ config.marginBottom (state.cfg st) = Num mb
    /\ config.yScale (state.cfg st) = linear.mk (Num mn) (Num mx) (Num mt) (Num (h - mb))
    /\ forall v, row (state.cfg st) v
                 = (Num (h - mb + mt) - scale (config.yScale (state.cfg st)) v)%num.
Proof.
  intros H Hh Hmn Hmx.
  destruct (link_margins_num _ _ H) as (mt & mb & Hmt & Hmb).
  pose proof (link_yScale _ _ H) as Hy. cbv zeta in Hy.
  exists mt, mb. split; [exact Hmt |]. split; [exact Hmb |]. split.
  - rewrite Hy, Hmn, Hmx, Hmt, Hh, Hmb. reflexivity.
  - intros v. unfold row. rewrite Hh, Hmb, Hmt. reflexivity.
Qed.

Lemma link_baseline_num (p : params.t) (st : state.t) :
  link p = Returns st ->
  exists b, ToNumber (config.baseline (state.cfg st)) = Num b
            /\ (config.baseline (state.cfg st) = None /\ b = 0
                \/ config.baseline (state.cfg st) = Some (Num b) /\ ~ b == 0).
Proof.
  intros H. destruct (link_returns _ _ H) as (st0 & H0 & ->).
  destruct (link_setup_returns _ _ H0)
    as (_ & _ & _ & _ & _ & _ & _ & _ & _ & _ & (n & _ & Hb) & _).
  rewrite render_cfg, Hb. unfold or_null.
  destruct n as [| q]; simpl.
  - exists 0. split; [reflexivity | now left].
  - destruct (Qeq_bool q 0) eqn:E; simpl.
    + exists 0. split; [reflexivity | now left].
    + exists q. split; [reflexivity |]. right. split; [reflexivity |].
      now apply Qeq_bool_neq.
Qed.

(** X6: in baseline mode the bar of a value that is a number other than 0
    spans the rows between the baseline and the value: at or above the
    baseline its top [y] is the row of the value and its lower edge
    [y + height] the row of the baseline, below the baseline its top is the
    row of the baseline and its lower edge the row of the value.  The range
    is not empty and the plot area not negative. *)
Theorem baseline_bar_span (p : params.t) (st : state.t) (i : nat) (d : DataPoint.t)
    (h mn mx v : Q) :
  link p = Returns st ->
  state.showBaseline st = true ->
  nth_error (config.data (state.cfg st)) i = Some d ->
  config.height (state.cfg st) = Num h ->
  config.min (state.cfg st) = Num mn ->
  config.max (state.cfg st) = Num mx ->
  mn < mx ->
  num_le (config.marginTop (state.cfg st))
         (config.height (state.cfg st) - config.marginBottom (state.cfg st))%num ->
  DataPoint.value d = Num v ->
  ~ v == 0 ->
  let c := state.cfg st in
  exists b bar y height,
    ToNumber (config.baseline c) = Num b
    /\ nth_error (selectAll (sel_class "data") (state.svg st)) i = Some bar
    /\ element.get "y" bar = Some (ANum y)
    /\ element.get "height" bar = Some (ANum height)
    /\ (b <= v -> y =n= row c (Num v) /\ (y + height)%num =n= row c (Num b))
    /\ (v < b -> y =n= row c (Num b) /\ (y + height)%num =n= row c (Num v)).
Proof.
  intros H Hmode Hd Hh Hmn Hmx Hr Hplot Hv Hnz c.
  destruct (link_drawing _ _ H) as (_ & Hbars & _).
  destruct (link_row _ _ h mn mx H Hh Hmn Hmx) as (mt & mb & Hmt & Hmb & Hy & Hrow).
  destruct (link_baseline_num _ _ H) as (b & Hb & _).
  destruct (baseline_bar (state.cfg st) i d Hd) as (bar & Hbar & _ & _ & _ & Hby & Hbh).
  rewrite Hmt, Hh, Hmb in Hplot. simpl in Hplot.
  rewrite Hv, Hb in Hby, Hbh.
  assert (Ez : num_truthy (Num v) = true).
  { simpl. destruct (Qeq_bool v 0) eqn:E; [| reflexivity].
    apply Qeq_bool_eq in E. contradiction. }
  rewrite Ez in Hbh. subst c.
  exists b, bar. rewrite Hbars, Hmode. 
  destruct (Qlt_le_dec v b) as [Hlt | Hle].
  - assert (Hvb : v <= b) by lra.
    destruct (scale_monotone mn mx mt (h - mb) v b Hr Hplot Hvb) as (yv & yb & Ev & Eb & Hm).
    rewrite <- Hy in Ev, Eb.
    assert (En : (Num v >=? Num b)%num = false).
    { unfold nge, nle. destruct (Qle_bool b v) eqn:E; [| reflexivity].
      apply Qle_bool_iff in E. lra. }
    rewrite En in Hby. rewrite ?Ev, ?Eb, ?Hh, ?Hmb, ?Hmt in Hby. rewrite ?Ev, ?Eb, ?Hh, ?Hmb, ?Hmt in Hbh. cbn [num_attr nadd nsub nabs lift2] in Hby, Hbh.
    do 2 eexists. split; [exact Hb |]. split; [exact Hbar |].
    split; [exact Hby |]. split; [exact Hbh |].
    rewrite !Hrow, Ev, Eb. cbn [num_eq nadd nsub nabs lift2]. split; [intros; lra |]. intros _.
    rewrite (Qabs_pos (yb - yv)) by lra. split; ring.
  - destruct (scale_monotone mn mx mt (h - mb) b v Hr Hplot Hle) as (yb & yv & Eb & Ev & Hm).
    rewrite <- Hy in Ev, Eb.
    assert (En : (Num v >=? Num b)%num = true).
    { unfold nge, nle. now apply Qle_bool_iff. }
    rewrite En in Hby. rewrite ?Ev, ?Eb, ?Hh, ?Hmb, ?Hmt in Hby. rewrite ?Ev, ?Eb, ?Hh, ?Hmb, ?Hmt in Hbh. cbn [num_attr nadd nsub nabs lift2] in Hby, Hbh.
    do 2 eexists. split; [exact Hb |]. split; [exact Hbar |].
    split; [exact Hby |]. split; [exact Hbh |].
    rewrite !Hrow, Ev, Eb. cbn [num_eq nadd nsub nabs lift2]. split; [| intros; lra]. intros _.
    rewrite (Qabs_neg (yb - yv)) by lra. split; ring.
Qed.

Lemma baseline_bar_span_witness :
  exists st bar y height,
    link three_from_baseline = Returns st
    /\ nth_error (selectAll (sel_class "data") (state.svg st)) 0 = Some bar
    /\ element.get "y" bar = Some (ANum y)
    /\ element.get "height" bar = Some (ANum height)
    /\ y =n= row (state.cfg st) (Num 5)
    /\ (y + height)%num =n= row (state.cfg st) (Num 4).
Proof.
  eassert (E : link three_from_baseline = Returns _) by (vm_compute; reflexivity).
  match type of E with _ = Returns ?s => set (st := s) in E end.
  eassert (D : nth_error (config.data (state.cfg st)) 0 = Some _) by reflexivity.
  eassert (Hmn : config.min (state.cfg st) = Num _) by reflexivity.
  eassert (Hmx : config.max (state.cfg st) = Num _) by reflexivity.
  assert (Hr : -5 < 10) by reflexivity.
  assert (Hplot : num_le (config.marginTop (state.cfg st))
                    (config.height (state.cfg st) - config.marginBottom (state.cfg st))%num)
    by (vm_compute; discriminate).
  assert (Hnz : ~ 4 == 0) by (intros C; discriminate C).
  destruct (baseline_bar_span _ st 0%nat _ 75 _ _ 4 E eq_refl D eq_refl Hmn Hmx Hr Hplot
              eq_refl Hnz)
    as (b & bar & y & hgt & Hb & Hbar & Hy & Hh & _ & Hbelow).
  assert (Eb : b = 5) by (vm_compute in Hb; now injection Hb as <-).
  subst b. destruct (Hbelow eq_refl) as [H1 H2].
  exists st, bar, y, hgt. repeat split; assumption.
Defined.

Lemma share_increasing (d0 d1 x x' : Q) :
  d0 < d1 -> x < x' -> (x - d0) / (d1 - d0) < (x' - d0) / (d1 - d0).
Proof.
  intros Hd Hx. unfold Qdiv. apply Qmult_lt_compat_r; [| lra].
  apply Qinv_lt_0_compat. lra.
Qed.

(** With a range that is not a single point, a value that is strictly larger
    is scaled to a number that is strictly larger. *)
Lemma scale_increasing (d0 d1 r0 r1 x x' : Q) :
  d0 < d1 -> r0 < r1 -> x < x' ->
  exists y y',
    scale (linear.mk (Num d0) (Num d1) (Num r0) (Num r1)) (Num x) = Num y
    /\ scale (linear.mk (Num d0) (Num d1) (Num r0) (Num r1)) (Num x') = Num y'
    /\ y < y'.
Proof.
  intros Hd Hr Hx. rewrite !scale_value by exact Hd.
  do 2 eexists. split; [reflexivity |]. split; [reflexivity |].
  pose proof (share_increasing d0 d1 x x' Hd Hx) as Ht.
  set (t := (x - d0) / (d1 - d0)) in *. set (t' := (x' - d0) / (d1 - d0)) in *.
  assert (H : 0 < (r1 - r0) * (t' - t)).
  { setoid_replace 0 with (0 * (t' - t)) by ring. apply Qmult_lt_compat_r; lra. }
  lra.
Qed.

(** X7: without a baseline, the bar of a value between [min] and [max] lies
    within the plot area: its top [y] is between the top margin row and the
    bottom margin row, and its height is between 0 and the height of the plot
    area.  Nothing clamps a value outside the range: above [max] the top of
    the bar is above the plot area, and below [min] its height is negative.
    The range is not empty and the plot area not negative (not empty in the
    last two cases). *)
Theorem axis_bar_inside (p : params.t) (st : state.t) (i : nat) (d : DataPoint.t)
    (h mn mx v : Q) :
  link p = Returns st ->
  state.showBaseline st = false ->
  nth_error (config.data (state.cfg st)) i = Some d ->
  config.height (state.cfg st) = Num h ->
  config.min (state.cfg st) = Num mn ->
  config.max (state.cfg st) = Num mx ->
  mn < mx ->
  num_le (config.marginTop (state.cfg st))
         (config.height (state.cfg st) - config.marginBottom (state.cfg st))%num ->
  DataPoint.value d = Num v ->
  let c := state.cfg st in
  let top := config.marginTop c in
  let bottom := (config.height c - config.marginBottom c)%num in
  exists bar y height,
    nth_error (selectAll (sel_class "data") (state.svg st)) i = Some bar
    /\ element.get "y" bar = Some (ANum y)
    /\ element.get "height" bar = Some (ANum height)
    /\ (mn <= v -> v <= mx ->
        num_le top y /\ num_le y bottom
        /\ num_le (Num 0) height /\ num_le height (bottom - top)%num)
    /\ (num_lt top bottom -> mx < v -> num_lt y top)
    /\ (num_lt top bottom -> v < mn -> num_lt height (Num 0)).
Proof.
  intros H Hmode Hd Hh Hmn Hmx Hr Hplot Hv c top bottom.
  destruct (link_drawing _ _ H) as (_ & Hbars & _).
  destruct (link_row _ _ h mn mx H Hh Hmn Hmx) as (mt & mb & Hmt & Hmb & Hy & _).
  destruct (axis_bar (state.cfg st) i d Hd) as (bar & Hbar & _ & _ & _ & Hby & Hbh).
  subst c top bottom. rewrite Hmt, Hh, Hmb in *. cbn [num_le nsub lift2] in Hplot.
  rewrite Hv, Hy in Hby, Hbh. rewrite scale_value in Hby, Hbh by exact Hr.
  cbn [nadd nsub lift2] in Hby, Hbh.
  exists bar. do 2 eexists. rewrite Hbars, Hmode.
  split; [exact Hbar |]. split; [exact Hby |]. split; [exact Hbh |].
  cbn [num_le num_lt nsub lift2].
  set (yv := mt * (1 - (v - mn) / (mx - mn)) + (h - mb) * ((v - mn) / (mx - mn))).
  split; [| split].
  - intros H1 H2.
    destruct (scale_monotone mn mx mt (h - mb) mn v Hr Hplot H1) as (y0 & y1 & E0 & E1 & L1).
    destruct (scale_monotone mn mx mt (h - mb) v mx Hr Hplot H2) as (y2 & y3 & E2 & E3 & L2).
    destruct (scale_ends mn mx mt (h - mb) Hr) as [S0 S1].
    rewrite E0 in S0. rewrite E3 in S1. simpl in S0, S1.
    rewrite scale_value in E1, E2 by exact Hr. injection E1 as E1. injection E2 as E2.
    fold yv in E1, E2. subst y1 y2. repeat split; lra.
  - intros Hne H1.
    destruct (scale_increasing mn mx mt (h - mb) mx v Hr Hne H1) as (y0 & y1 & E0 & E1 & L1).
    destruct (scale_ends mn mx mt (h - mb) Hr) as [_ S1].
    rewrite E0 in S1. simpl in S1.
    rewrite scale_value in E1 by exact Hr. injection E1 as E1. fold yv in E1. subst y1. lra.
  - intros Hne H1.
    destruct (scale_increasing mn mx mt (h - mb) v mn Hr Hne H1) as (y0 & y1 & E0 & E1 & L1).
    destruct (scale_ends mn mx mt (h - mb) Hr) as [S0 _].
    rewrite E1 in S0. simpl in S0.
    rewrite scale_value in E0 by exact Hr. injection E0 as E0. fold yv in E0. subst y0. lra.
Qed.

Lemma axis_bar_inside_witness :
  exists st bar y height,
    link three_from_axis = Returns st
    /\ nth_error (selectAll (sel_class "data") (state.svg st)) 1 = Some bar
    /\ element.get "y" bar = Some (ANum y)
    /\ element.get "height" bar = Some (ANum height)
    /\ num_le (config.marginTop (state.cfg st)) y
    /\ num_le (Num 0) height.
Proof.
  eassert (E : link three_from_axis = Returns _) by (vm_compute; reflexivity).
  match type of E with _ = Returns ?s => set (st := s) in E end.
  eassert (D : nth_error (config.data (state.cfg st)) 1 = Some _) by reflexivity.
  eassert (Hmn : config.min (state.cfg st) = Num _) by reflexivity.
  eassert (Hmx : config.max (state.cfg st) = Num _) by reflexivity.
  assert (Hr : -5 < 10) by reflexivity.
  assert (Hplot : num_le (config.marginTop (state.cfg st))
                    (config.height (state.cfg st) - config.marginBottom (state.cfg st))%num)
    by (vm_compute; discriminate).
  destruct (axis_bar_inside _ st 1%nat _ 75 _ _ 8 E eq_refl D eq_refl Hmn Hmx Hr Hplot eq_refl)
    as (bar & y & hgt & Hbar & Hy & Hh & Hin & _).
  assert (H1 : -5 <= 8) by (unfold Qle; simpl; lia).
  assert (H2 : 8 <= 10) by (unfold Qle; simpl; lia).
  destruct (Hin H1 H2) as (T1 & _ & T3 & _).
  exists st, bar, y, hgt. repeat split; assumption.
Defined.

(* ================================================================= *)
(** ** The columns across the width *)

Lemma datum_chain (d : DataPoint.t) (i : nat) (chain : list step) (e : element.t) :
  element.datum (fold_left (run_step d i) chain e) = element.datum e.
Proof.
  revert e. induction chain as [| s r IH]; intros e; simpl; [reflexivity |].
  rewrite IH. destruct s; simpl; [apply datum_attr | reflexivity].
Qed.

Lemma selectAll_other_tag (s : selector.t) (t t' : string) (l : drawing) :
  Forall (fun e => element.tag e = t') l ->
  selector.tag s = Some t -> t <> t' ->
  selectAll s l = [].
Proof.
  intros H Hs Ht. apply selectAll_none. eapply Forall_impl; [| exact H].
  intros e He. unfold matches. rewrite Hs, He.
  destruct (String.eqb_spec t t'); [contradiction | reflexivity].
Qed.

Lemma renderErrorBars_tags (c : config.t) :
  Forall (fun e => element.tag e = "line") (renderErrorBars [] c).
Proof.
  eapply Forall_impl; [| apply renderErrorBars_lines]. now intros e [He _].
Qed.

Lemma layers_backgrounds (st : state.t) :
  selectAll (sel_tag_class "rect" "bg") (layers st) = renderBackgrounds [] (state.cfg st).
Proof.
  unfold layers.
  destruct (attr_truthy (params.thresholds (state.params st))),
           (state.showXAxis st), (state.showYAxis st), (state.showBaseline st);
    select_layers;
    apply (sel_all_kind _ _ _ _ (renderBackgrounds_kind _)); reflexivity.
Qed.

Lemma layers_labels (st : state.t) :
  selectAll (sel_tag "text") (layers st)
  = if state.showXAxis st then renderXAxis [] (state.cfg st) else [].
Proof.
  unfold layers.
  destruct (attr_truthy (params.thresholds (state.params st))),
           (state.showXAxis st), (state.showYAxis st), (state.showBaseline st);
    select_layers;
    apply (sel_all_kind _ _ _ _ (renderXAxis_kind _)); reflexivity.
Qed.

(** The background, the label and the ends of the marker of a point. *)
Lemma background_rect (c : config.t) (i : nat) (d : DataPoint.t) :
  nth_error (config.data c) i = Some d ->
  exists bg,
    nth_error (renderBackgrounds [] c) i = Some bg
    /\ element.datum bg = Some d
    /\ element.get "x" bg = Some (ANum (scale (config.xScale c) (of_nat i)))
    /\ element.get "width" bg = Some (ANum (config.colWidth c))
    /\ element.get "y" bg = Some (ANum (config.marginTop c))
    /\ element.get "height" bg =
         Some (ANum (config.height c - config.marginTop c - config.marginBottom c)%num).
Proof.
  intros Hd. unfold renderBackgrounds.
  change (enter_append ?s ?v ?t ?ch []) with (enter_from 0 v t ch).
  rewrite enter_from_nth, Hd. eexists. split; [reflexivity |].
  split; [apply datum_chain |].
  repeat split; read_attr; reflexivity.
Qed.

Lemma axis_label (c : config.t) (i : nat) (d : DataPoint.t) :
  nth_error (config.data c) i = Some d ->
  exists label,
    nth_error (renderXAxis [] c) i = Some label
    /\ element.datum label = Some d
    /\ element.inner label = Text (DataPoint.name d)
    /\ element.get "text-anchor" label = Some (AStr "middle")
    /\ element.get "x" label =
         Some (ANum (scale (config.xScale c) (of_nat i) + config.colWidth c / Num 2)%num).
Proof.
  intros Hd. unfold renderXAxis.
  change (enter_append ?s ?v ?t ?ch []) with (enter_from 0 v t ch).
  rewrite enter_from_nth, Hd. eexists. split; [reflexivity |].
  split; [apply datum_chain |].
  split; [cbn [fold_left run_step]; rewrite !inner_attr; reflexivity |].
  split; read_attr; reflexivity.
Qed.

Lemma marker_ends (c : config.t) (i : nat) (d : DataPoint.t) :
  nth_error (config.data c) i = Some d ->
  exists marker,
    nth_error (drawn_references c) i = Some marker
    /\ element.datum marker = Some d
    /\ element.get "x1" marker =
         Some (ANum (scale (config.xScale c) (of_nat i) - Num 1)%num)
    /\ element.get "x2" marker =
         Some (ANum (scale (config.xScale c) (of_nat i) + config.colWidth c + Num 1)%num)
    /\ element.get "stroke-width" marker =
         Some (ANum (if reference_truthy (DataPoint.reference d)
                     then config.stroke c else Num 0)).
Proof.
  intros Hd. rewrite drawn_references_all. unfold renderReference.
  change (enter_append ?s ?v ?t ?ch []) with (enter_from 0 v t ch).
  rewrite enter_from_nth, Hd. eexists. split; [reflexivity |].
  split; [apply datum_chain |].
  repeat split; read_attr; try reflexivity.
  destruct (reference_truthy (DataPoint.reference d)); now rewrite get_attr_same.
Qed.

Lemma drawn_bar_column (b : bool) (c : config.t) (i : nat) (d : DataPoint.t) :
  nth_error (config.data c) i = Some d ->
  exists bar,
    nth_error (drawn_bars b c) i = Some bar
    /\ element.get "x" bar = Some (ANum (scale (config.xScale c) (of_nat i)))
    /\ element.get "width" bar = Some (ANum (config.colWidth c))
    /\ element.get "fill" bar =
         (if color_truthy (DataPoint.color d) then opt_str_attr (DataPoint.color d)
          else str_attr (getColor (DataPoint.value d) (config.thresholds c))).
Proof.
  intros Hd. destruct b.
  - destruct (baseline_bar c i d Hd) as (bar & H1 & H2 & H3 & H4 & _). now exists bar.
  - destruct (axis_bar c i d Hd) as (bar & H1 & H2 & H3 & H4 & _). now exists bar.
Qed.

(** X8: after [link], the background, the bar and the reference marker of
    the point [i] are the [i]-th of their kind; the background and the bar
    have the same [x] and the column width as their width, the marker runs
    from one pixel left of the column to one pixel right of it, and with the
    x-axis the label of the point, its name, is anchored at the middle of
    the column. *)
Theorem column_alignment (p : params.t) (st : state.t) (i : nat) (d : DataPoint.t) :
  link p = Returns st ->
  nth_error (config.data (state.cfg st)) i = Some d ->
  let c := state.cfg st in
  let x := scale (config.xScale c) (of_nat i) in
  exists bg bar marker,
    nth_error (selectAll (sel_tag_class "rect" "bg") (state.svg st)) i = Some bg
    /\ nth_error (selectAll (sel_class "data") (state.svg st)) i = Some bar
    /\ nth_error (selectAll (sel_class "reference") (state.svg st)) i = Some marker
    /\ element.get "x" bg = Some (ANum x)
    /\ element.get "x" bar = Some (ANum x)
    /\ element.get "width" bg = Some (ANum (config.colWidth c))
    /\ element.get "width" bar = Some (ANum (config.colWidth c))
    /\ element.get "x1" marker = Some (ANum (x - Num 1)%num)
    /\ element.get "x2" marker = Some (ANum (x + config.colWidth c + Num 1)%num)
    /\ (if state.showXAxis st
        then exists label,
               nth_error (selectAll (sel_tag "text") (state.svg st)) i = Some label
               /\ element.inner label = Text (DataPoint.name d)
               /\ element.get "text-anchor" label = Some (AStr "middle")
               /\ element.get "x" label = Some (ANum (x + config.colWidth c / Num 2)%num)
        else selectAll (sel_tag "text") (state.svg st) = []).
Proof.
  intros H Hd c x.
  destruct (link_drawing _ _ H) as (Hsvg & Hbars & Hrefs).
  destruct (background_rect c i d Hd) as (bg & Hbg & _ & Hbx & Hbw & _).
  destruct (drawn_bar_column (state.showBaseline st) c i d Hd) as (bar & Hbar & Hx & Hw & _).
  destruct (marker_ends c i d Hd) as (marker & Hm & _ & Hx1 & Hx2 & _).
  exists bg, bar, marker. rewrite Hbars, Hrefs, Hsvg, layers_backgrounds, layers_labels.
  repeat (split; [assumption |]).
  destruct (state.showXAxis st); [| reflexivity].
  destruct (axis_label c i d Hd) as (label & Hl & _ & Hin & Ha & Hlx).
  now exists label.
Qed.

Lemma column_alignment_witness :
  exists st bg bar x,
    link three_from_axis = Returns st
    /\ nth_error (selectAll (sel_tag_class "rect" "bg") (state.svg st)) 2 = Some bg
    /\ nth_error (selectAll (sel_class "data") (state.svg st)) 2 = Some bar
    /\ element.get "x" bg = Some (ANum x)
    /\ element.get "x" bar = Some (ANum x).
Proof.
  eassert (E : link three_from_axis = Returns _) by (vm_compute; reflexivity).
  match type of E with _ = Returns ?s => set (st := s) in E end.
  eassert (D : nth_error (config.data (state.cfg st)) 2 = Some _) by reflexivity.
  destruct (column_alignment _ st 2%nat _ E D)
    as (bg & bar & marker & H1 & H2 & _ & H4 & H5 & _).
  exists st, bg, bar. eexists. repeat split; eassumption.
Defined.

(** The column width and the margins [link] computes are numbers. *)
Lemma link_numbers (p : params.t) (st : state.t) :
  link p = Returns st ->
  exists cw ml mt mb,
    config.colWidth (state.cfg st) = Num cw
    /\ config.marginLeft (state.cfg st) = Num ml
    /\ config.marginRight (state.cfg st) = Num 5
    /\ config.marginTop (state.cfg st) = Num mt
    /\ config.marginBottom (state.cfg st) = Num mb.
Proof.
  intros H.
  destruct (link_layout _ _ H) as (Hl & Hr & _).
  destruct (link_margins_num _ _ H) as (mt & mb & Hmt & Hmb).
  pose proof (link_colWidth _ _ H) as Hw. cbv zeta in Hw.
  destruct (getColWidth_num (config.width (state.cfg st))
              (List.length (config.data (state.cfg st)))
              (config.max (state.cfg st)) (config.min (state.cfg st)) false) as [cw Ew].
  rewrite <- Hw in Ew. rewrite Ew in Hl.
  destruct (getMargins_num cw (config.max (state.cfg st)) (config.min (state.cfg st))
              (state.showXAxis st) (state.showYAxis st)) as (l & b & t & Em).
  rewrite Em in Hl. simpl in Hl.
  exists cw, l, mt, mb. repeat split; assumption.
Qed.

(** X9: the columns are spread evenly between the margins.  The first
    column starts at the left margin; with more than one column, the last
    one ends at the right margin, [width - marginRight], and the distance
    from a column to the next, times the number of gaps, is what the width
    leaves beside the margins and one column.  The width is a number. *)
Theorem columns_fill_width (p : params.t) (st : state.t) (w : Q) (n : nat) :
  link p = Returns st ->
  config.width (state.cfg st) = Num w ->
  List.length (config.data (state.cfg st)) = S n ->
  let c := state.cfg st in
  let x := fun i => scale (config.xScale c) (of_nat i) in
  exists first last,
    nth_error (selectAll (sel_class "data") (state.svg st)) 0 = Some first
    /\ nth_error (selectAll (sel_class "data") (state.svg st)) n = Some last
    /\ element.get "x" first = Some (ANum (x 0%nat))
    /\ element.get "x" last = Some (ANum (x n))
    /\ x 0%nat =n= config.marginLeft c
    /\ ((1 <= n)%nat ->
        (x n + config.colWidth c)%num =n= (config.width c - config.marginRight c)%num
        /\ forall i,
             ((x (S i) - x i) * of_nat n)%num
             =n= (config.width c - config.colWidth c - config.marginRight c
                  - config.marginLeft c)%num).
Proof.
  intros H Hw Hn c x.
  destruct (link_drawing _ _ H) as (_ & Hbars & _).
  destruct (link_numbers _ _ H) as (cw & ml & mt & mb & Hcw & Hml & Hmr & _).
  destruct (link_layout _ _ H) as (_ & _ & _ & Hxs & _).
  assert (D0 : exists d, nth_error (config.data c) 0 = Some d).
  { subst c. destruct (config.data (state.cfg st)); [discriminate | now eexists]. }
  assert (Dn : exists d, nth_error (config.data c) n = Some d).
  { destruct (nth_error (config.data c) n) eqn:E; [now eexists |].
    apply nth_error_None in E. subst c. lia. }
  destruct D0 as [d0 D0]. destruct Dn as [dn Dn].
  destruct (drawn_bar_column (state.showBaseline st) c 0 d0 D0) as (first & Hf & Hfx & _).
  destruct (drawn_bar_column (state.showBaseline st) c n dn Dn) as (last & Hl & Hlx & _).
  exists first, last. rewrite Hbars.
  repeat (split; [assumption |]).
  subst x c. cbv beta. rewrite Hxs, Hn, Hw, Hcw, Hml, Hmr.
  assert (En : (of_nat (S n) - Num 1)%num = Num (inject_Z (Z.of_nat (S n)) - 1))
    by reflexivity.
  rewrite En. clear En.
  assert (Es : inject_Z (Z.of_nat (S n)) - 1 == inject_Z (Z.of_nat n)).
  { rewrite Nat2Z.inj_succ. unfold Z.succ. rewrite inject_Z_plus. ring. }
  cbn [nsub lift2].
  destruct n as [| m].
  - split; [| intros; lia]. unfold scale. simpl. ring.
  - assert (Hpos : 0 < inject_Z (Z.of_nat (S (S m))) - 1).
    { rewrite Es. change 0 with (inject_Z 0). rewrite <- Zlt_Qlt. lia. }
    split; [| intros _; split; [| intros i]].
    + apply (proj1 (scale_ends 0 _ ml (w - cw - 5) Hpos)).
    + unfold of_nat, of_Z. rewrite scale_value by exact Hpos.
      cbn [nadd lift2 num_eq]. rewrite Es. field.
      rewrite <- Es. lra.
    + unfold of_nat, of_Z. rewrite !scale_value by exact Hpos.
      cbn [nsub nmul lift2 num_eq].
      assert (Ei : inject_Z (Z.of_nat (S i)) == inject_Z (Z.of_nat i) + 1).
      { rewrite Nat2Z.inj_succ. unfold Z.succ. now rewrite inject_Z_plus. }
      rewrite Ei, Es. field. rewrite <- Es. lra.
Qed.

Lemma columns_fill_width_witness :
  exists st last x,
    link three_from_axis = Returns st
    /\ nth_error (selectAll (sel_class "data") (state.svg st)) 2 = Some last
    /\ element.get "x" last = Some (ANum x)
    /\ (x + config.colWidth (state.cfg st))%num
       =n= (config.width (state.cfg st) - config.marginRight (state.cfg st))%num.
Proof.
  eassert (E : link three_from_axis = Returns _) by (vm_compute; reflexivity).
  match type of E with _ = Returns ?s => set (st := s) in E end.
  destruct (columns_fill_width _ st 150 2 E eq_refl eq_refl)
    as (first & last & _ & Hl & _ & Hx & _ & Hn).
  assert (L : (1 <= 2)%nat) by lia.
  exists st, last. eexists. split; [exact E |]. split; [exact Hl |].
  split; [exact Hx |]. exact (proj1 (Hn L)).
Defined.

(* ================================================================= *)
(** ** The y-axis and the threshold markers *)

Lemma layers_axis (st : state.t) :
  selectAll (sel_tag "g") (layers st)
  = if state.showYAxis st then renderYAxis [] (state.cfg st) else [].
Proof.
  unfold layers.
  rewrite !selectAll_app.
  rewrite (sel_none_kind _ _ _ _ (renderBackgrounds_kind _)) by reflexivity.
  rewrite (selectAll_other_tag _ "g" "line" _ (renderErrorBars_tags _)) by
    (reflexivity || discriminate).
  rewrite (sel_none_kind _ _ _ _ (renderBorders_kind _)) by reflexivity.
  rewrite (sel_none_kind _ _ _ _ (renderReference_kind _)) by reflexivity.
  destruct (attr_truthy (params.thresholds (state.params st))),
           (state.showXAxis st), (state.showYAxis st), (state.showBaseline st);
    select_layers;
    apply (sel_all_kind _ _ _ _ (renderYAxis_kind _)); reflexivity.
Qed.

(** X10: the scale [link] gives to the labels of the y-axis puts the label
    of a value in the row of the value, where a bar of that value has its
    top without a baseline.  With [showYAxis] the axis is drawn once, in a
    group shifted right by the left margin, with that scale and one tick for
    every 20 pixels above the bottom margin; without it no group is drawn. *)
Theorem link_axis_labels (p : params.t) (st : state.t) :
  link p = Returns st ->
  let c := state.cfg st in
  (forall v, scale (config.yAxisLabelScale c) v =n= row c v)
  /\ (if state.showYAxis st
      then exists g a,
             selectAll (sel_tag "g") (state.svg st) = [g]
             /\ element.inner g = Axis a
             /\ axis.scale a = config.yAxisLabelScale c
             /\ axis.ticks a = ((config.height c - config.marginBottom c) / Num 20)%num
             /\ axis.orient a = "left"
             /\ element.get "transform" g
                = Some (AFmt "translate(" (config.marginLeft c) ",0)")
      else selectAll (sel_tag "g") (state.svg st) = []).
Proof.
  intros H c.
  destruct (link_drawing _ _ H) as (Hsvg & _).
  destruct (link_layout _ _ H) as (_ & _ & _ & _ & Hls & _).
  pose proof (link_yScale _ _ H) as Hys. cbv zeta in Hys.
  split.
  - intros v. unfold row. subst c. rewrite Hls, Hys.
    apply (scale_mirror (config.min (state.cfg st)) (config.max (state.cfg st))
             (config.marginTop (state.cfg st))
             (config.height (state.cfg st) - config.marginBottom (state.cfg st))%num v).
  - rewrite Hsvg, layers_axis. destruct (state.showYAxis st); [| reflexivity].
    do 2 eexists. split; [reflexivity |]. repeat split.
Qed.

Lemma link_axis_labels_witness :
  exists st g,
    link three_from_axis = Returns st
    /\ selectAll (sel_tag "g") (state.svg st) = [g]
    /\ scale (config.yAxisLabelScale (state.cfg st)) (Num 8) =n= row (state.cfg st) (Num 8).
Proof.
  eassert (E : link three_from_axis = Returns _) by (vm_compute; reflexivity).
  match type of E with _ = Returns ?s => set (st := s) in E end.
  destruct (link_axis_labels _ st E) as (Hrow & g & a & Hg & _).
  exists st, g. split; [exact E |]. split; [exact Hg | apply Hrow].
Defined.

(** The lines [renderThresholdMarkers] draws, one for every key. *)
Lemma thresholdMarkers_each (c : config.t) (t : Thresholds) :
  fold_left (thresholdMarker c) t [] = flat_map (thresholdMarker c []) t.
Proof.
  induction t as [| kv r IH]; simpl; [reflexivity |].
  now rewrite fold_thresholdMarker, IH.
Qed.

Lemma thresholdMarkers_nth (c : config.t) (t : Thresholds) (k : nat) (key : string) (q : Q) :
  nth_error t k = Some (key, q) ->
  exists line,
    nth_error (fold_left (thresholdMarker c) t []) k = Some line
    /\ thresholdMarker c [] (key, q) = [line].
Proof.
  rewrite thresholdMarkers_each. revert k.
  induction t as [| kv r IH]; intros k Hk; [destruct k; discriminate |].
  destruct k as [| k]; simpl in *.
  - injection Hk as ->. eexists. split; reflexivity.
  - apply IH, Hk.
Qed.

Lemma thresholdMarkers_length (c : config.t) (t : Thresholds) :
  List.length (fold_left (thresholdMarker c) t []) = List.length t.
Proof.
  rewrite thresholdMarkers_each. induction t as [| kv r IH]; simpl; [reflexivity |].
  now rewrite IH.
Qed.

(** The keys of the thresholds [link] accepts are among the four. *)
Lemma as_threshold_members_keys (o : list (string * json)) (t : Thresholds) :
  as_threshold_members o = Some t ->
  Forall (fun kv => threshold_key (fst kv) = true) t.
Proof.
  revert t. induction o as [| [k j] r IH]; intros t; simpl.
  - intros [= <-]. constructor.
  - destruct j; try discriminate.
    destruct (threshold_key k) eqn:Ek; [| discriminate].
    destruct (as_threshold_members r) as [t' |]; [| discriminate].
    intros [= <-]. constructor; [exact Ek | now apply IH].
Qed.

Lemma threshold_key_colour (key : string) :
  threshold_key key = true ->
  exists colour, defaults.colors.get key = Some colour
                 /\ (colour = defaults.colors.hh \/ colour = defaults.colors.h).
Proof.
  unfold threshold_key, defaults.colors.get.
  destruct (String.eqb key "hh"); [intros _; eexists; split; [reflexivity | now left] |].
  destruct (String.eqb key "h"); [intros _; eexists; split; [reflexivity | now right] |].
  destruct (String.eqb key "l"); [intros _; eexists; split; [reflexivity | now right] |].
  destruct (String.eqb key "ll"); [intros _; eexists; split; [reflexivity | now left] |].
  discriminate.
Qed.

(** X11: when [link] resolves thresholds, it draws, right after the
    backgrounds, one line for every threshold, in the order of the keys: from
    the left margin to the right margin, in the row of the threshold, of
    stroke width 1, in the colour of its key with [showColoredThresholds] and
    in the neutral colour without. *)
Theorem link_threshold_markers (p : params.t) (st : state.t) (t : Thresholds) :
  link p = Returns st ->
  config.thresholds (state.cfg st) = Some t ->
  let c := state.cfg st in
  exists lines rest,
    state.svg st = renderBackgrounds [] c ++ lines ++ rest
    /\ List.length lines = List.length t
    /\ forall k key q,
         nth_error t k = Some (key, q) ->
         exists line colour,
           nth_error lines k = Some line
           /\ element.tag line = "line"
           /\ element.get "x1" line = Some (ANum (config.marginLeft c))
           /\ element.get "x2" line = Some (ANum (config.width c - config.marginRight c)%num)
           /\ element.get "y1" line = Some (ANum (row c (Num q)))
           /\ element.get "y2" line = Some (ANum (row c (Num q)))
           /\ element.get "stroke-width" line = Some (ANum (Num 1))
           /\ defaults.colors.get key = Some colour
           /\ element.get "stroke" line
              = Some (AStr (if config.showColoredThresholds c
                            then colour else defaults.colors.threshold)).
Proof.
  intros H Ht c.
  destruct (link_drawing _ _ H) as (Hsvg & _).
  destruct (link_layout _ _ H) as (_ & _ & _ & _ & _ & (j & Hj & Hdec) & _).
  assert (Hp : state.params st = p).
  { destruct (link_returns _ _ H) as (st0 & H0 & ->).
    now destruct (link_setup_returns _ _ H0) as (_ & _ & Hp & _). }
  cbv zeta in Hdec. rewrite Ht in Hdec.
  assert (Hattr : attr_truthy (params.thresholds p) = true).
  { unfold if_given in Hj. unfold attr_truthy.
    destruct (params.thresholds p) as [s |].
    - destruct (str_truthy s); [reflexivity |]. injection Hj as <-. discriminate Hdec.
    - injection Hj as <-. discriminate Hdec. }
  assert (Hkeys : Forall (fun kv => threshold_key (fst kv) = true) t).
  { destruct j as [| | | | | o]; try discriminate Hdec. simpl in Hdec.
    destruct (as_threshold_members o) as [t' |] eqn:Eo; [| discriminate].
    injection Hdec as ->. now apply as_threshold_members_keys in Eo. }
  rewrite Hsvg. unfold layers. rewrite Hp, Hattr.
  unfold renderThresholdMarkers. rewrite Ht. fold c.
  eexists. eexists. split; [reflexivity |]. split; [apply thresholdMarkers_length |].
  intros k key q Hk.
  destruct (thresholdMarkers_nth c t k key q Hk) as (line & Hline & Hm).
  assert (Hkey : threshold_key key = true).
  { rewrite Forall_forall in Hkeys. apply (Hkeys (key, q)). eapply nth_error_In, Hk. }
  destruct (threshold_key_colour key Hkey) as (colour & Hcol & _).
  exists line, colour. split; [exact Hline |].
  unfold thresholdMarker in Hm. cbn [fst snd] in Hm. rewrite Hcol in Hm.
  unfold append, opt_str_attr, str_attr, num_attr in Hm. cbn [app] in Hm.
  destruct (config.showColoredThresholds c); injection Hm as <-;
    (split; [read_tag; reflexivity |]);
    repeat split; read_attr; try reflexivity; exact Hcol.
Qed.

Lemma link_threshold_markers_witness :
  exists st line,
    link three_from_axis = Returns st
    /\ nth_error (selectAll (sel_tag "line") (state.svg st)) 2 = Some line
    /\ element.get "y1" line = Some (ANum (row (state.cfg st) (Num 7)))
    /\ element.get "stroke" line = Some (AStr defaults.colors.h).
Proof.
  eassert (E : link three_from_axis = Returns _) by (vm_compute; reflexivity).
  match type of E with _ = Returns ?s => set (st := s) in E end.
  eassert (T : config.thresholds (state.cfg st) = Some _) by reflexivity.
  destruct (link_threshold_markers _ st _ E T) as (lines & rest & Hsvg & Hlen & Hnth).
  destruct (Hnth 2%nat "h" 7 eq_refl)
    as (line & colour & Hl & Htag & _ & _ & Hy & _ & _ & Hcol & Hs).
  exists st, line. split; [exact E |].
  injection Hcol as <-.
  split; [| split; [exact Hy | exact Hs]].
  rewrite Hsvg, selectAll_app.
  rewrite (sel_none_kind _ _ _ _ (renderBackgrounds_kind _)) by reflexivity.
  simpl app. rewrite selectAll_app.
  destruct lines as [| l0 [| l1 [| l2 [| l3 [| l4 r]]]]]; try discriminate Hlen.
  destruct (Hnth 0%nat "ll" 1 eq_refl) as (a0 & ? & Ha0 & Hta0 & _).
  destruct (Hnth 1%nat "l" 3 eq_refl) as (a1 & ? & Ha1 & Hta1 & _).
  simpl in Ha0, Ha1, Hl. injection Ha0 as <-. injection Ha1 as <-. injection Hl as <-.
  unfold selectAll at 1. simpl filter. unfold matches. simpl selector.tag.
  rewrite Hta0, Hta1, Htag. reflexivity.
Defined.

(* ================================================================= *)
(** ** What an update does to a bar and to a marker *)

(** The bars after the three calls of an update of either mode, when the
    new data reach as far as the bars. *)
Lemma updateData_bars (b : bool) (svg : drawing) (c : config.t) (i : nat)
    (bar : element.t) (d : DataPoint.t) :
  (List.length (selectAll (sel_class "data") svg) <= List.length (config.data c))%nat ->
  nth_error (selectAll (sel_class "data") svg) i = Some bar ->
  nth_error (config.data c) i = Some d ->
  exists svg' bar',
    (if b then updateDataFromBaseline svg c else updateDataFromAxis svg c) = (svg', Normal)
    /\ nth_error (selectAll (sel_class "data") svg') i = Some bar'
    /\ element.get "fill" bar' =
         (if color_truthy (DataPoint.color d) then opt_str_attr (DataPoint.color d)
          else str_attr (getColor (DataPoint.value d) (config.thresholds c)))
    /\ (forall k, ~ In k ["fill"; "y"; "height"] -> element.get k bar' = element.get k bar).
Proof.
  intros Hlen Hbar Hd.
  destruct (fill_value c d) as [s Hs].
  destruct b; [unfold updateDataFromBaseline | unfold updateDataFromAxis];
    rewrite each_attr_ok by (simpl; exact Hlen); cbn [and_then];
    rewrite each_attr_ok by (rewrite set_each_count by discriminate; exact Hlen);
    cbn [and_then];
    rewrite each_attr_ok by (rewrite !set_each_count by discriminate; exact Hlen);
    (eexists; eexists; split; [reflexivity |]);
    rewrite !set_each_selected by discriminate; rewrite Hbar;
    (split; [reflexivity |]); split.
  all: try (rewrite !get_attr_other by discriminate;
            unfold from_data; simpl; rewrite Hd; now rewrite (get_attr_set _ _ _ _ Hs)).
  all: intros k Hk; rewrite !get_attr_other; [reflexivity | ..];
    intros E; apply Hk; rewrite <- E; simpl; tauto.
Qed.

(** The calls of [updateReference] leave the bars as they are, and the calls
    on the bars the markers. *)
Lemma other_pass (s q : selector.t) (keys : list string) (svg svg' : drawing)
    (i : nat) (e : element.t) :
  ~ In "class" keys ->
  Forall2 (selected_modified s keys) svg svg' ->
  nth_error (selectAll q svg) i = Some e ->
  exists e',
    nth_error (selectAll q svg') i = Some e'
    /\ forall k, ~ In k keys -> element.get k e' = element.get k e.
Proof.
  intros Hc H He.
  assert (Hsel : Forall2 (selected_modified s keys) (selectAll q svg) (selectAll q svg')).
  { apply Forall2_selectAll; [exact H |]. intros a a'.
    now apply selected_modified_matches. }
  destruct (Forall2_nth _ _ _ _ _ Hsel He) as (e' & He' & Hm).
  exists e'. split; [exact He' |].
  now destruct (selected_modified_same _ _ _ _ Hm) as (_ & _ & _ & Hg).
Qed.

(** The two passes of [update] on the drawing. *)
Lemma update_passes (st : state.t) (newData : list DataPoint.t) :
  let c := config.set_data (state.cfg st) newData in
  let m := if state.showBaseline st
           then updateDataFromBaseline (state.svg st) c
           else updateDataFromAxis (state.svg st) c in
  Forall2 (selected_modified (sel_class "data") ["fill"; "y"; "height"])
          (state.svg st) (fst m)
  /\ Forall2 (selected_modified (sel_class "reference") ["y1"; "y2"])
             (fst m) (state.svg (fst (update st newData)))
  /\ (snd m = Normal -> state.svg (fst (update st newData)) = fst (updateReference (fst m) c)).
Proof.
  intros c m. unfold update. fold c. cbn [state.showBaseline state.set_cfg state.svg]. fold m.
  assert (Hm : Forall2 (selected_modified (sel_class "data") ["fill"; "y"; "height"])
                       (state.svg st) (fst m)).
  { subst m. destruct (state.showBaseline st);
      [apply updateDataFromBaseline_modified | apply updateDataFromAxis_modified]. }
  split; [exact Hm |].
  destruct m as [svg1 [| ex]]; cbn [and_then fst snd].
  - rewrite updateErrorBars_noop.
    pose proof (updateReference_modified svg1 c) as Hr.
    destruct (updateReference svg1 c) as [svg2 r]. cbn [fst state.svg state.set_svg] in *.
    split; [exact Hr | reflexivity].
  - cbn [fst state.svg state.set_svg]. split; [| discriminate].
    apply Forall2_same. intros a. now left.
Qed.

(** Where the three calls of an update put a bar, in either mode, when the
    new data reach as far as the bars. *)
Lemma updateData_geometry (b : bool) (svg : drawing) (c : config.t) (i : nat)
    (bar : element.t) (d : DataPoint.t) :
  (List.length (selectAll (sel_class "data") svg) <= List.length (config.data c))%nat ->
  nth_error (selectAll (sel_class "data") svg) i = Some bar ->
  nth_error (config.data c) i = Some d ->
  exists svg' bar',
    (if b then updateDataFromBaseline svg c else updateDataFromAxis svg c) = (svg', Normal)
    /\ nth_error (selectAll (sel_class "data") svg') i = Some bar'
    /\ element.get "fill" bar' =
         (if color_truthy (DataPoint.color d) then opt_str_attr (DataPoint.color d)
          else str_attr (getColor (DataPoint.value d) (config.thresholds c)))
    /\ element.get "y" bar' =
         (if b then
            if (DataPoint.value d >=? ToNumber (config.baseline c))%num
            then Some (ANum (row c (ToNumber (config.baseline c))
                             - nabs (scale (config.yScale c) (ToNumber (config.baseline c))
                                     - scale (config.yScale c) (DataPoint.value d)))%num)
            else Some (ANum (row c (ToNumber (config.baseline c))))
          else Some (ANum (row c (DataPoint.value d))))
    /\ element.get "height" bar' =
         Some (ANum (if b then
                       if num_truthy (DataPoint.value d)
                       then nabs (scale (config.yScale c) (ToNumber (config.baseline c))
                                  - scale (config.yScale c) (DataPoint.value d))%num
                       else Num 0
                     else (scale (config.yScale c) (DataPoint.value d)
                           - config.marginTop c)%num)).
Proof.
  intros Hlen Hbar Hd.
  destruct (fill_value c d) as [s Hs].
  destruct b; [unfold updateDataFromBaseline | unfold updateDataFromAxis];
    rewrite each_attr_ok by (simpl; exact Hlen); cbn [and_then];
    rewrite each_attr_ok by (rewrite set_each_count by discriminate; exact Hlen);
    cbn [and_then];
    rewrite each_attr_ok by (rewrite !set_each_count by discriminate; exact Hlen);
    (eexists; eexists; split; [reflexivity |]);
    rewrite !set_each_selected by discriminate; rewrite Hbar;
    (split; [reflexivity |]);
    unfold from_data; cbn [Nat.add]; rewrite Hd; unfold row, num_attr;
    (split; [| split]).
  - rewrite !get_attr_other by discriminate. now rewrite (get_attr_set _ _ _ _ Hs).
  - rewrite get_attr_other by discriminate.
    destruct (DataPoint.value d >=? ToNumber (config.baseline c))%num; apply get_attr_same.
  - apply get_attr_same.
  - rewrite !get_attr_other by discriminate. now rewrite (get_attr_set _ _ _ _ Hs).
  - rewrite get_attr_other by discriminate. apply get_attr_same.
  - apply get_attr_same.
Qed.

(** Where the two calls of [updateReference] put a marker, when the new
    data reach as far as the markers. *)
Lemma updateReference_markers (svg : drawing) (c : config.t) (i : nat)
    (marker : element.t) (d : DataPoint.t) :
  (List.length (selectAll (sel_class "reference") svg) <= List.length (config.data c))%nat ->
  nth_error (selectAll (sel_class "reference") svg) i = Some marker ->
  nth_error (config.data c) i = Some d ->
  exists svg' marker',
    updateReference svg c = (svg', Normal)
    /\ nth_error (selectAll (sel_class "reference") svg') i = Some marker'
    /\ element.get "y1" marker'
       = Some (ANum (row c (reference_or_0 (DataPoint.reference d))))
    /\ element.get "y2" marker'
       = Some (ANum (row c (reference_or_0 (DataPoint.reference d)))).
Proof.
  intros Hlen Hm Hd. unfold updateReference.
  rewrite each_attr_ok by (simpl; exact Hlen). cbn [and_then].
  rewrite each_attr_ok by (rewrite set_each_count by discriminate; exact Hlen).
  eexists. eexists. split; [reflexivity |].
  rewrite !set_each_selected by discriminate. rewrite Hm. split; [reflexivity |].
  unfold from_data. cbn [Nat.add]. rewrite Hd. unfold row, num_attr. split.
  - rewrite get_attr_other by discriminate. apply get_attr_same.
  - apply get_attr_same.
Qed.

(** C5: [update] replaces [config.data] and keeps the rest of the state,
    the mode among it.  It redraws the bars and the reference markers: when
    the new data reach as far as the bars, every bar gets the [y] and the
    [height] of its new point by the formulas of the mode fixed when [link]
    ran (from the baseline or from the axis), and the colour of the new value
    as its [fill] when the point has no colour of its own; when they also
    reach as far as the markers, [update] completes and every marker is in
    the row of the reference of its new point.  It changes nothing else:
    only [fill], [y] and [height] of the elements of class [data] and [y1]
    and [y2] of the elements of class [reference] can differ, and every other
    element is left as it is, in its place.  The elements drawn for the
    backgrounds, the threshold lines, the axis labels, the error bars and the
    borders are such other elements, and the error-bar update returns the
    drawing it is given. *)
Theorem update_frame (st : state.t) (newData : list DataPoint.t) :
  let st' := fst (update st newData) in
  let c := config.set_data (state.cfg st) newData in
  let base := ToNumber (config.baseline c) in
  let bars := selectAll (sel_class "data") (state.svg st) in
  let markers := selectAll (sel_class "reference") (state.svg st) in
  state.cfg st' = c
  /\ state.params st' = state.params st
  /\ state.showBaseline st' = state.showBaseline st
  /\ state.tooltip st' = state.tooltip st
  /\ state.svg_attrs st' = state.svg_attrs st
  /\ state.console st' = state.console st
  /\ Forall2 updated (state.svg st) (state.svg st')
  /\ (forall c0,
        Forall (fun e => has_class "data" e = false /\ has_class "reference" e = false)
               (renderBackgrounds [] c0 ++ renderThresholdMarkers [] c0 ++ renderXAxis [] c0
                ++ renderYAxis [] c0 ++ renderErrorBars [] c0 ++ renderBorders [] c0))
  /\ (forall svg c0, updateErrorBars svg c0 = svg)
  /\ ((List.length bars <= List.length newData)%nat ->
      forall i bar d,
        nth_error bars i = Some bar ->
        nth_error newData i = Some d ->
        exists bar',
          nth_error (selectAll (sel_class "data") (state.svg st')) i = Some bar'
          /\ element.get "y" bar' =
               (if state.showBaseline st then
                  if (DataPoint.value d >=? base)%num
                  then Some (ANum (row c base
                                   - nabs (scale (config.yScale c) base
                                           - scale (config.yScale c) (DataPoint.value d)))%num)
                  else Some (ANum (row c base))
                else Some (ANum (row c (DataPoint.value d))))
          /\ element.get "height" bar' =
               Some (ANum (if state.showBaseline st then
                             if num_truthy (DataPoint.value d)
                             then nabs (scale (config.yScale c) base
                                        - scale (config.yScale c) (DataPoint.value d))%num
                             else Num 0
                           else (scale (config.yScale c) (DataPoint.value d)
                                 - config.marginTop c)%num))
          /\ (color_truthy (DataPoint.color d) = false ->
              element.get "fill" bar'
              = Some (AStr (getColor (DataPoint.value d) (config.thresholds c)))))
  /\ ((List.length bars <= List.length newData)%nat ->
      (List.length markers <= List.length newData)%nat ->
      snd (update st newData) = Normal
      /\ forall i marker d,
           nth_error markers i = Some marker ->
           nth_error newData i = Some d ->
           exists marker',
             nth_error (selectAll (sel_class "reference") (state.svg st')) i = Some marker'
             /\ element.get "y1" marker'
                = Some (ANum (row c (reference_or_0 (DataPoint.reference d))))
             /\ element.get "y2" marker'
                = Some (ANum (row c (reference_or_0 (DataPoint.reference d))))).
Proof.
  intros st' c base bars markers.
  assert (Hnc1 : ~ In "class" ["fill"; "y"; "height"]) by (simpl; intuition discriminate).
  assert (Hnc2 : ~ In "class" ["y1"; "y2"]) by (simpl; intuition discriminate).
  assert (Hfields :
    state.cfg st' = c
    /\ state.params st' = state.params st
    /\ state.showBaseline st' = state.showBaseline st
    /\ state.tooltip st' = state.tooltip st
    /\ state.svg_attrs st' = state.svg_attrs st
    /\ state.console st' = state.console st).
  { subst st' c. unfold update.
    destruct ((if state.showBaseline (state.set_cfg st (config.set_data (state.cfg st) newData))
               then updateDataFromBaseline _ _ else updateDataFromAxis _ _)
              >>= _ >>= _) as [svg' r].
    repeat split. }
  destruct Hfields as (F1 & F2 & F3 & F4 & F5 & F6).
  repeat (split; [assumption |]).
  split; [apply update_drawing |].
  split.
  { intros c0. rewrite !Forall_app. repeat split.
    - eapply Forall_impl; [| apply renderBackgrounds_kind].
      intros e K. now apply (kind_unselected _ _ _ K).
    - eapply Forall_impl; [| apply renderThresholdMarkers_kind].
      intros e K. now apply (kind_unselected _ _ _ K).
    - eapply Forall_impl; [| apply renderXAxis_kind].
      intros e K. now apply (kind_unselected _ _ _ K).
    - eapply Forall_impl; [| apply renderYAxis_kind].
      intros e K. now apply (kind_unselected _ _ _ K).
    - eapply Forall_impl; [| apply renderErrorBars_lines]. now intros e (_ & Hd & Hr).
    - eapply Forall_impl; [| apply renderBorders_kind].
      intros e K. now apply (kind_unselected _ _ _ K). }
  split; [intros svg c0; apply updateErrorBars_noop |].
  destruct (update_passes st newData) as (H1 & H2 & H3). cbv zeta in H1, H2, H3.
  fold c in H1, H2, H3. fold st' in H2, H3.
  split.
  - intros Hlen i bar d Hbar Hd.
    destruct (updateData_geometry (state.showBaseline st) (state.svg st) c i bar d
                Hlen Hbar Hd) as (svg1 & bar1 & Hup & Hbar1 & Hf & Hy & Hh).
    rewrite Hup in H2. cbn [fst] in H2.
    destruct (other_pass (sel_class "reference") (sel_class "data") ["y1"; "y2"] _ _ i bar1
                Hnc2 H2 Hbar1) as (bar2 & Hbar2 & Hk2).
    exists bar2. split; [exact Hbar2 |].
    rewrite !Hk2 by (simpl; intuition discriminate).
    split; [exact Hy |]. split; [exact Hh |].
    intros Hc. rewrite Hf, Hc. reflexivity.
  - intros Hlen Hlen2.
    destruct (updateData_completion (state.showBaseline st) (state.svg st) c) as [Hok _].
    cbv zeta in Hok. destruct (Hok Hlen) as [Hn Hcount].
    set (m := if state.showBaseline st
              then updateDataFromBaseline (state.svg st) c
              else updateDataFromAxis (state.svg st) c) in *.
    assert (Hm2 : (List.length (selectAll (sel_class "reference") (fst m))
                   <= List.length (config.data c))%nat).
    { rewrite Hcount. exact Hlen2. }
    split.
    + subst st'. unfold update. fold c.
      cbn [state.showBaseline state.set_cfg state.svg]. fold m.
      destruct m as [svg1 cm]. cbn [fst snd] in *. subst cm. cbn [and_then].
      rewrite updateErrorBars_noop.
      pose proof (updateReference_completion svg1 c) as Hr.
      destruct (Nat.leb_spec (List.length (selectAll (sel_class "reference") svg1))
                             (List.length (config.data c))) as [_ | Hgt]; [| lia].
      destruct (updateReference svg1 c) as [svg2 r]. exact Hr.
    + intros i marker d Hmk Hd.
      destruct (other_pass (sel_class "data") (sel_class "reference") ["fill"; "y"; "height"]
                  _ _ i marker Hnc1 H1 Hmk) as (m1 & Hm1 & _).
      destruct (updateReference_markers (fst m) c i m1 d Hm2 Hm1 Hd)
        as (svg2 & m2 & Hup & Hm2' & Hy1 & Hy2).
      rewrite (H3 Hn), Hup. cbn [fst]. now exists m2.
Qed.

Lemma update_frame_witness :
  exists st bar bar' h h' marker',
    link three_from_axis = Returns st
    /\ snd (update st three_referenced) = Normal
    /\ nth_error (selectAll (sel_class "data") (state.svg st)) 2 = Some bar
    /\ nth_error (selectAll (sel_class "data") (state.svg (fst (update st three_referenced)))) 2
       = Some bar'
    /\ element.get "height" bar = Some (ANum h)
    /\ element.get "height" bar' = Some (ANum h')
    /\ ~ h =n= h'
    /\ nth_error (selectAll (sel_class "reference")
                    (state.svg (fst (update st three_referenced)))) 0 = Some marker'
    /\ element.get "y1" marker'
       = Some (ANum (row (config.set_data (state.cfg st) three_referenced) (Num 5))).
Proof.
  eassert (E : link three_from_axis = Returns _) by (vm_compute; reflexivity).
  match type of E with _ = Returns ?s => set (st := s) in E end.
  destruct (update_frame st three_referenced)
    as (_ & _ & _ & _ & _ & _ & _ & _ & _ & Hbars & Hmarkers).
  assert (L1 : (List.length (selectAll (sel_class "data") (state.svg st))
                <= List.length three_referenced)%nat) by (vm_compute; lia).
  assert (L2 : (List.length (selectAll (sel_class "reference") (state.svg st))
                <= List.length three_referenced)%nat) by (vm_compute; lia).
  eassert (B : nth_error (selectAll (sel_class "data") (state.svg st)) 2 = Some _)
    by (vm_compute; reflexivity).
  eassert (M : nth_error (selectAll (sel_class "reference") (state.svg st)) 0 = Some _)
    by (vm_compute; reflexivity).
  destruct (Hbars L1 2%nat _ (DataPoint.mk "c" (Num 2) None (Some 1%Q) None) B eq_refl)
    as (bar' & Hbar' & _ & Hh' & _).
  destruct (Hmarkers L1 L2) as (Hn & Hm).
  destruct (Hm 0%nat _ (DataPoint.mk "a" (Num 4) None (Some 5%Q) None) M eq_refl)
    as (marker' & Hmarker' & Hy1 & _).
  match type of B with _ = Some ?b => exists st, b, bar' end.
  eexists. eexists. exists marker'.
  split; [exact E |]. split; [exact Hn |]. split; [exact B |]. split; [exact Hbar' |].
  split; [vm_compute; reflexivity |]. split; [exact Hh' |].
  split; [vm_compute; intros C; discriminate C |].
  split; [exact Hmarker' | exact Hy1].
Defined.

(** X12: a bar is filled with the colour of its point when the point has a
    colour that is not the empty string, and with the colour [getColor]
    gives to its value otherwise; so it is after [link].  After an update
    whose new data reach as far as the bars, the fill is the colour
    [getColor] gives to the new value, for the thresholds of the
    configuration, when the new point has no colour or the empty one, and it
    is the colour of the new point when that is written as [#] and six
    lower-case hexadecimal digits or is the fill the bar has already.  (For
    another text of a colour the transition of the update ends on the
    [#rrggbb] form of the colour, which is not computed here.)  The update
    leaves the attributes of the bar as they were, but for [fill], [y] and
    [height] (and for [y1] and [y2], which it sets on markers). *)
Theorem bar_fill :
  (forall p st i d,
     link p = Returns st ->
     nth_error (config.data (state.cfg st)) i = Some d ->
     exists bar,
       nth_error (selectAll (sel_class "data") (state.svg st)) i = Some bar
       /\ (forall s, DataPoint.color d = Some s -> s <> EmptyString ->
             element.get "fill" bar = Some (AStr s))
       /\ (DataPoint.color d = None \/ DataPoint.color d = Some EmptyString ->
             element.get "fill" bar
             = Some (AStr (getColor (DataPoint.value d) (config.thresholds (state.cfg st))))))
  /\
  (forall st newData i bar d,
     (List.length (selectAll (sel_class "data") (state.svg st)) <= List.length newData)%nat ->
     nth_error (selectAll (sel_class "data") (state.svg st)) i = Some bar ->
     nth_error newData i = Some d ->
     exists bar',
       nth_error (selectAll (sel_class "data") (state.svg (fst (update st newData)))) i
       = Some bar'
       /\ (forall s, DataPoint.color d = Some s -> s <> EmptyString ->
             hex_colour s = true \/ element.get "fill" bar = Some (AStr s) ->
             element.get "fill" bar' = Some (AStr s))
       /\ (DataPoint.color d = None \/ DataPoint.color d = Some EmptyString ->
             element.get "fill" bar'
             = Some (AStr (getColor (DataPoint.value d) (config.thresholds (state.cfg st)))))
       /\ (forall k, ~ In k ["fill"; "y"; "height"; "y1"; "y2"] ->
             element.get k bar' = element.get k bar)).
Proof.
  assert (Hcases : forall (c : config.t) (d : DataPoint.t) (bar : element.t),
    element.get "fill" bar =
      (if color_truthy (DataPoint.color d) then opt_str_attr (DataPoint.color d)
       else str_attr (getColor (DataPoint.value d) (config.thresholds c))) ->
    (forall s, DataPoint.color d = Some s -> s <> EmptyString ->
       element.get "fill" bar = Some (AStr s))
    /\ (DataPoint.color d = None \/ DataPoint.color d = Some EmptyString ->
        element.get "fill" bar
        = Some (AStr (getColor (DataPoint.value d) (config.thresholds c))))).
  { intros c d bar ->. split.
    - intros s -> Hs. destruct s; [contradiction | reflexivity].
    - intros [-> | ->]; reflexivity. }
  split.
  - intros p st i d H Hd.
    destruct (link_drawing _ _ H) as (_ & Hbars & _).
    destruct (drawn_bar_column (state.showBaseline st) (state.cfg st) i d Hd)
      as (bar & Hbar & _ & _ & Hf).
    exists bar. rewrite Hbars. split; [exact Hbar |]. exact (Hcases (state.cfg st) d bar Hf).
  - intros st newData i bar d Hlen Hbar Hd.
    set (c := config.set_data (state.cfg st) newData).
    destruct (updateData_bars (state.showBaseline st) (state.svg st) c i bar d Hlen Hbar Hd)
      as (svg1 & bar1 & Hup & Hbar1 & Hf1 & Hk1).
    destruct (update_passes st newData) as (_ & Hr & _). cbv zeta in Hr. fold c in Hr.
    rewrite Hup in Hr. cbn [fst] in Hr.
    assert (Hnc : ~ In "class" ["y1"; "y2"]) by (simpl; intuition discriminate).
    destruct (other_pass (sel_class "reference") (sel_class "data") ["y1"; "y2"] _ _ i bar1
                Hnc Hr Hbar1) as (bar2 & Hbar2 & Hk2).
    exists bar2. split; [exact Hbar2 |].
    assert (Hf2 : element.get "fill" bar2 = element.get "fill" bar1).
    { apply Hk2. simpl. intuition discriminate. }
    rewrite <- Hf2 in Hf1.
    destruct (Hcases c d bar2 Hf1) as [Hc1 Hc2].
    split; [intros s Hs Hne _; now apply Hc1 |]. split; [exact Hc2 |].
    intros k Hk. rewrite <- (Hk1 k).
    + apply Hk2. simpl in *. tauto.
    + simpl in *. tauto.
Qed.

Lemma bar_fill_witness :
  exists st bar bar',
    link three_from_axis = Returns st
    /\ nth_error (selectAll (sel_class "data") (state.svg st)) 0 = Some bar
    /\ element.get "fill" bar = Some (AStr "#123456")
    /\ nth_error (selectAll (sel_class "data") (state.svg (fst (update st three_recoloured)))) 0
       = Some bar'
    /\ element.get "fill" bar' = Some (AStr "#abcdef").
Proof.
  eassert (E : link three_from_axis = Returns _) by (vm_compute; reflexivity).
  match type of E with _ = Returns ?s => set (st := s) in E end.
  eassert (D : nth_error (config.data (state.cfg st)) 0 = Some _) by reflexivity.
  destruct (proj1 bar_fill _ st 0%nat _ E D) as (bar & Hbar & Hc & _).
  assert (L : (List.length (selectAll (sel_class "data") (state.svg st))
               <= List.length three_recoloured)%nat) by (vm_compute; lia).
  destruct (proj2 bar_fill st three_recoloured 0%nat bar
              (DataPoint.mk "a" (Num 4) (Some "#abcdef") None None) L Hbar eq_refl)
    as (bar' & Hbar' & Hc' & _).
  exists st, bar, bar'. split; [exact E |]. split; [exact Hbar |].
  split; [apply Hc; [reflexivity | discriminate] |]. split; [exact Hbar' |].
  apply Hc'; [reflexivity | discriminate | left; reflexivity].
Defined.

(** X13: after [link] the reference marker of a point is in the row of
    its reference, or of 0 when the point has none, and its stroke width is
    that of the configuration (2 from the height 150 on, 1 below) when the
    reference is a number other than 0, and 0 otherwise.  An update moves a
    marker and never changes its stroke width or its ends: a marker drawn
    with the stroke width 0 stays invisible when new data bring a
    reference. *)
Theorem marker_stroke :
  (forall p st i d,
     link p = Returns st ->
     nth_error (config.data (state.cfg st)) i = Some d ->
     exists marker,
       nth_error (selectAll (sel_class "reference") (state.svg st)) i = Some marker
       /\ element.get "y1" marker
          = Some (ANum (row (state.cfg st) (reference_or_0 (DataPoint.reference d))))
       /\ element.get "y2" marker
          = Some (ANum (row (state.cfg st) (reference_or_0 (DataPoint.reference d))))
       /\ element.get "stroke-width" marker
          = Some (ANum (if reference_truthy (DataPoint.reference d)
                        then config.stroke (state.cfg st) else Num 0))
       /\ config.stroke (state.cfg st)
          = (if (config.height (state.cfg st) >=? Num 150)%num then Num 2 else Num 1))
  /\
  (forall st newData i marker,
     nth_error (selectAll (sel_class "reference") (state.svg st)) i = Some marker ->
     exists marker',
       nth_error (selectAll (sel_class "reference") (state.svg (fst (update st newData)))) i
       = Some marker'
       /\ element.get "stroke-width" marker' = element.get "stroke-width" marker
       /\ element.get "x1" marker' = element.get "x1" marker
       /\ element.get "x2" marker' = element.get "x2" marker).
Proof.
  split.
  - intros p st i d H Hd.
    destruct (link_drawing _ _ H) as (_ & _ & Hrefs).
    destruct (link_layout _ _ H) as (_ & _ & Hs & _).
    destruct (reference_marker (state.cfg st) i d Hd) as (marker & Hm & Hy1 & Hy2).
    destruct (marker_ends (state.cfg st) i d Hd) as (marker' & Hm' & _ & _ & _ & Hsw).
    rewrite Hm in Hm'. injection Hm' as <-.
    exists marker. rewrite Hrefs. repeat split; assumption.
  - intros st newData i marker Hm.
    destruct (update_passes st newData) as (H1 & H2 & _). cbv zeta in H1, H2.
    assert (Hn1 : ~ In "class" ["fill"; "y"; "height"]) by (simpl; intuition discriminate).
    assert (Hn2 : ~ In "class" ["y1"; "y2"]) by (simpl; intuition discriminate).
    destruct (other_pass _ (sel_class "reference") _ _ _ i marker Hn1 H1 Hm)
      as (m1 & Hm1 & Hk1).
    destruct (other_pass _ (sel_class "reference") _ _ _ i m1 Hn2 H2 Hm1)
      as (m2 & Hm2 & Hk2).
    exists m2. split; [exact Hm2 |].
    repeat split; (rewrite Hk2, Hk1; [reflexivity | ..]); simpl; intuition discriminate.
Qed.

Lemma marker_stroke_witness :
  exists st marker marker',
    link three_from_axis = Returns st
    /\ nth_error (selectAll (sel_class "reference") (state.svg st)) 0 = Some marker
    /\ element.get "stroke-width" marker = Some (ANum (Num 0))
    /\ snd (update st three_referenced) = Normal
    /\ nth_error (selectAll (sel_class "reference")
                    (state.svg (fst (update st three_referenced)))) 0 = Some marker'
    /\ element.get "stroke-width" marker' = Some (ANum (Num 0)).
Proof.
  eassert (E : link three_from_axis = Returns _) by (vm_compute; reflexivity).
  match type of E with _ = Returns ?s => set (st := s) in E end.
  eassert (D : nth_error (config.data (state.cfg st)) 0 = Some _) by reflexivity.
  destruct (proj1 marker_stroke _ st 0%nat _ E D) as (marker & Hm & _ & _ & Hs & _).
  destruct (proj2 marker_stroke st three_referenced 0%nat marker Hm)
    as (marker' & Hm' & Hs' & _).
  exists st, marker, marker'. split; [exact E |]. split; [exact Hm |].
  split; [exact Hs |]. split; [vm_compute; reflexivity |]. split; [exact Hm' |].
  rewrite Hs'. exact Hs.
Defined.

(* ================================================================= *)
(** ** How many elements are drawn *)

Lemma rebind_length (s : selector.t) (values : list DataPoint.t) (svg : drawing) :
  List.length (rebind s values svg) = List.length svg.
Proof.
  revert values. induction svg as [| e r IH]; intros values; simpl; [reflexivity |].
  destruct (matches s e); simpl; [| now rewrite IH].
  destruct values; simpl; [reflexivity | now rewrite IH].
Qed.

(** A data join appends one element for every value beyond the selection. *)
Lemma enter_append_length (s : selector.t) (values : list DataPoint.t) (tag : string)
    (chain : list step) (svg : drawing) :
  List.length (enter_append s values tag chain svg)
  = (List.length svg + (List.length values - List.length (selectAll s svg)))%nat.
Proof.
  unfold enter_append. rewrite length_app, rebind_length, enter_from_length, length_skipn.
  reflexivity.
Qed.

Lemma renderErrorBars_length (c : config.t) :
  List.length (renderErrorBars [] c) = (3 * List.length (config.data c))%nat.
Proof.
  unfold renderErrorBars.
  assert (L : forall values chain i,
             selectAll (sel_tag_class "rect" "error") (enter_from i values "line" chain) = []).
  { intros. apply selectAll_rect_lines, enter_from_Forall. intros. apply tag_chain. }
  change (enter_append ?s ?v ?t ?ch []) with (enter_from 0 v t ch).
  rewrite (enter_append_fresh _ _ _ _ (enter_from _ _ _ _)) by apply L.
  rewrite (enter_append_fresh _ _ _ _ (enter_from _ _ _ _ ++ _))
    by (rewrite ?selectAll_app, ?L; reflexivity).
  rewrite !length_app, !enter_from_length. lia.
Qed.

Lemma renderThresholdMarkers_length (c : config.t) :
  List.length (renderThresholdMarkers [] c)
  = match config.thresholds c with Some t => List.length t | None => 0%nat end.
Proof.
  unfold renderThresholdMarkers. destruct (config.thresholds c) as [t |]; [| reflexivity].
  apply thresholdMarkers_length.
Qed.

Lemma renderDataFromBaseline_length (c : config.t) :
  List.length (renderDataFromBaseline [] c) = S (List.length (config.data c)).
Proof.
  unfold renderDataFromBaseline. rewrite append_spec, length_app.
  change (enter_append ?s ?v ?t ?ch []) with (enter_from 0 v t ch).
  rewrite enter_from_length. simpl. lia.
Qed.

(** The thresholds are [null] when the attribute is left out or empty. *)
Lemma link_no_thresholds (p : params.t) (st : state.t) :
  link p = Returns st ->
  attr_truthy (params.thresholds p) = false ->
  config.thresholds (state.cfg st) = None.
Proof.
  intros H Hattr.
  destruct (link_layout _ _ H) as (_ & _ & _ & _ & _ & (j & Hj & Hdec) & _).
  cbv zeta in Hdec. unfold if_given, attr_truthy in *.
  destruct (params.thresholds p) as [s |].
  - rewrite Hattr in Hj. injection Hj as <-. now injection Hdec as <-.
  - injection Hj as <-. now injection Hdec as <-.
Qed.

Lemma link_params (p : params.t) (st : state.t) :
  link p = Returns st ->
  state.params st = p
  /\ state.console st = []
  /\ state.showBaseline st = attr_truthy (params.baseline p)
  /\ state.showXAxis st = is_true (params.showXAxis p)
  /\ state.showYAxis st = is_true (params.showYAxis p).
Proof.
  intros H. destruct (link_returns _ _ H) as (st0 & H0 & ->).
  destruct (link_setup_returns _ _ H0) as (_ & Hc & Hp & Hb & Hx & Hy & _).
  repeat split; assumption.
Qed.

(** X14: [link] draws, for [n] points, [n] backgrounds, [n] bars, [n]
    reference markers and [3 * n] lines of error bars, whether or not a point
    has a reference or an error range; two borders; a line for every
    threshold; [n] labels with the x-axis, one group with the y-axis and one
    line with a baseline; and nothing else.  Without data, what is left are
    the borders, the threshold lines, the axis group and the baseline. *)
Theorem link_element_count (p : params.t) (st : state.t) :
  link p = Returns st ->
  let c := state.cfg st in
  let n := List.length (config.data c) in
  let thresholds := match config.thresholds c with
                    | Some t => List.length t
                    | None => 0%nat
                    end in
  List.length (selectAll (sel_tag_class "rect" "bg") (state.svg st)) = n
  /\ List.length (selectAll (sel_class "data") (state.svg st)) = n
  /\ List.length (selectAll (sel_class "reference") (state.svg st)) = n
  /\ List.length (selectAll (sel_tag "text") (state.svg st))
     = (if state.showXAxis st then n else 0%nat)
  /\ List.length (selectAll (sel_tag "g") (state.svg st))
     = (if state.showYAxis st then 1%nat else 0%nat)
  /\ List.length (state.svg st)
     = (n + thresholds + (if state.showXAxis st then n else 0)
        + (if state.showYAxis st then 1 else 0)
        + n + (if state.showBaseline st then 1 else 0)
        + 3 * n + 2 + n)%nat.
Proof.
  intros H c n thresholds.
  destruct (link_drawing _ _ H) as (Hsvg & Hbars & Hrefs).
  destruct (link_params _ _ H) as (Hp & _).
  assert (Hbg : List.length (renderBackgrounds [] c) = n) by apply enter_from_length.
  assert (Hx : List.length (renderXAxis [] c) = n) by apply enter_from_length.
  split; [now rewrite Hsvg, layers_backgrounds |].
  split; [rewrite Hbars; apply drawn_bars_length |].
  split; [rewrite Hrefs; apply drawn_references_length |].
  split; [rewrite Hsvg, layers_labels; now destruct (state.showXAxis st) |].
  split; [rewrite Hsvg, layers_axis; now destruct (state.showYAxis st) |].
  rewrite Hsvg. unfold layers. fold c. rewrite !length_app.
  rewrite Hbg, renderErrorBars_length. fold n.
  assert (Ht : List.length (if attr_truthy (params.thresholds (state.params st))
                            then renderThresholdMarkers [] c else []) = thresholds).
  { rewrite Hp. destruct (attr_truthy (params.thresholds p)) eqn:E.
    - apply renderThresholdMarkers_length.
    - subst thresholds c. now rewrite (link_no_thresholds _ _ H E). }
  rewrite Ht.
  assert (Hr : List.length (renderReference [] c) = n) by apply enter_from_length.
  assert (Hb : List.length (renderBorders [] c) = 2%nat) by reflexivity.
  assert (Hd : List.length (if state.showBaseline st
                            then renderDataFromBaseline [] c else renderDataFromAxis [] c)
               = (n + (if state.showBaseline st then 1 else 0))%nat).
  { destruct (state.showBaseline st).
    - rewrite renderDataFromBaseline_length. subst n. lia.
    - rewrite Nat.add_0_r. apply enter_from_length. }
  rewrite Hr, Hb, Hd.
  destruct (state.showXAxis st), (state.showYAxis st); rewrite ?Hx; simpl List.length; lia.
Qed.

Lemma link_element_count_witness :
  exists st,
    link three_from_axis = Returns st
    /\ List.length (selectAll (sel_class "data") (state.svg st)) = 3%nat
    /\ List.length (state.svg st) = 28%nat.
Proof.
  eassert (E : link three_from_axis = Returns _) by (vm_compute; reflexivity).
  match type of E with _ = Returns ?s => set (st := s) in E end.
  destruct (link_element_count _ st E) as (_ & Hb & _ & _ & _ & Hn).
  exists st. split; [exact E |]. split; [exact Hb | exact Hn].
Defined.

(* ================================================================= *)
(** ** What [link] resolves when attributes are left out *)

Lemma if_given_default {A : Type} (a : option string) (f : string -> A) (dflt : A) :
  attr_truthy a = false -> if_given a f dflt = dflt.
Proof.
  unfold attr_truthy, if_given. destruct a as [s |]; [| reflexivity]. now intros ->.
Qed.

(** The data are empty when the attribute is left out or empty. *)
Lemma link_no_data (p : params.t) (st : state.t) :
  link p = Returns st ->
  attr_truthy (params.data p) = false ->
  config.data (state.cfg st) = [].
Proof.
  intros H E. destruct (link_returns _ _ H) as (st0 & H0 & ->).
  destruct (link_setup_returns _ _ H0)
    as (_ & _ & _ & _ & _ & _ & _ & _ & _ & _ & _ & (j & Hj & Hdec) & _).
  rewrite render_cfg. rewrite if_given_default in Hj by exact E.
  injection Hj as <-. now injection Hdec as <-.
Qed.

(** The tooltip [link] creates is hidden. *)
Lemma link_tooltip (p : params.t) (st : state.t) :
  link p = Returns st -> lookup "visibility" (state.tooltip st) = Some "hidden".
Proof.
  intros H. destruct (link_returns _ _ H) as (st0 & H0 & ->).
  clear H. revert H0. unfold link_setup.
  destruct (parse_both _ _) as [[tj dj] | e |]; cbn [bind]; try discriminate.
  destruct (if_given (params.max p) parseFloat (Some (Num 100))) as [mx |];
    cbn [bind modelled]; try discriminate.
  destruct (if_given (params.min p) parseFloat (Some (Num 0))) as [mn |];
    cbn [bind modelled]; try discriminate.
  destruct (parseFloat_attr (params.baseline p)) as [b' |];
    cbn [bind modelled]; try discriminate.
  destruct (as_thresholds _) as [t | e |]; cbn [bind]; try discriminate.
  destruct (as_data _) as [ds | e |]; cbn [bind]; try discriminate.
  intros [= <-]. reflexivity.
Qed.

(** X15: an attribute that is left out or empty resolves to its default:
    the width 150, the height 75, the range from 0 to 100, no thresholds, no
    data, and no baseline, with the bars drawn from the axis.  The baseline
    of the configuration is [null] or a number other than 0, and the tooltip
    starts hidden.  When the data are left out, empty or the text of an
    array, the array without elements among them, [link] renders and writes
    nothing to the console: an array is truthy also when it is empty, so it
    is not for want of elements that the source reports that there are no
    data.  (It does for data that parse to a falsy value such as [0], which
    are not an array; [link] returns here for arrays only.) *)
Theorem link_defaults (p : params.t) (st : state.t) :
  link p = Returns st ->
  let c := state.cfg st in
  (attr_truthy (params.width p) = false -> config.width c = Num 150)
  /\ (attr_truthy (params.height p) = false -> config.height c = Num 75)
  /\ (attr_truthy (params.max p) = false -> config.max c = Num 100)
  /\ (attr_truthy (params.min p) = false -> config.min c = Num 0)
  /\ (attr_truthy (params.thresholds p) = false -> config.thresholds c = None)
  /\ (attr_truthy (params.data p) = false -> config.data c = [])
  /\ (attr_truthy (params.baseline p) = false ->
      state.showBaseline st = false /\ config.baseline c = None)
  /\ (config.baseline c = None
      \/ exists b, config.baseline c = Some (Num b) /\ ~ b == 0)
  /\ lookup "visibility" (state.tooltip st) = Some "hidden"
  /\ (exists items,
        if_given (params.data p) JSON_parse (Returns (JArray [])) = Returns (JArray items)
        /\ List.length items = List.length (config.data c))
  /\ state.console st = []
  /\ state.svg st = layers st.
Proof.
  intros H c.
  destruct (link_drawing _ _ H) as (Hsvg & _).
  destruct (link_baseline_num _ _ H) as (b & _ & Hb).
  pose proof (link_no_thresholds _ _ H) as Ht.
  destruct (link_returns _ _ H) as (st0 & H0 & E).
  destruct (link_setup_returns _ _ H0)
    as (_ & Hcon & _ & Hsb & _ & _ & Hw & Hh & Hmx & Hmn & (n & Hn & Hbase)
        & (j & Hj & Hdec) & _).
  pose proof (link_tooltip _ _ H) as Htip.
  subst c st. rewrite render_cfg in *. rewrite render_showBaseline.
  split; [intros E; now rewrite Hw, if_given_default |].
  split; [intros E; now rewrite Hh, if_given_default |].
  split; [intros E; rewrite if_given_default in Hmx by exact E; now injection Hmx as <- |].
  split; [intros E; rewrite if_given_default in Hmn by exact E; now injection Hmn as <- |].
  split; [exact Ht |].
  split; [intros E; rewrite if_given_default in Hj by exact E; injection Hj as <-;
          now injection Hdec as <- |].
  split.
  { intros E. split; [now rewrite Hsb |].
    rewrite Hbase. unfold attr_truthy in E. revert Hn.
    destruct (params.baseline p) as [s |].
    - destruct s; [| discriminate E]. vm_compute. now intros [= <-].
    - vm_compute. now intros [= <-]. }
  split.
  { destruct Hb as [[Hb _] | [Hb Hnz]]; [now left | right; now exists b]. }
  split; [exact Htip |].
  split; [| split; [exact Hcon | exact Hsvg]].
  destruct j as [| | | | items |]; try discriminate Hdec.
  exists items. split; [exact Hj |].
  simpl in Hdec. destruct (as_points items) as [ds |] eqn:Ep; [| discriminate Hdec].
  injection Hdec as <-. clear - Ep. revert ds Ep.
  induction items as [| j r IH]; intros ds Ep; simpl in Ep.
  - now injection Ep as <-.
  - destruct (as_point j); [| discriminate Ep].
    destruct (as_points r) as [ds' |]; [| discriminate Ep].
    injection Ep as <-. simpl. f_equal. now apply IH.
Qed.

Lemma link_defaults_witness :
  exists st,
    link no_params = Returns st
    /\ config.width (state.cfg st) = Num 150
    /\ config.data (state.cfg st) = []
    /\ state.console st = []
    /\ List.length (state.svg st) = 2%nat.
Proof.
  eassert (E : link no_params = Returns _) by (vm_compute; reflexivity).
  match type of E with _ = Returns ?s => set (st := s) in E end.
  destruct (link_defaults _ st E) as (Hw & _ & _ & _ & _ & Hd & _ & _ & _ & _ & Hc & _).
  exists st. split; [exact E |]. split; [now apply Hw |]. split; [now apply Hd |].
  split; [exact Hc | reflexivity].
Defined.

(* ================================================================= *)
(** ** The watcher of the attribute [data] *)

(** X16: when the attribute [data] changes to the empty string, or is
    taken away, the listener throws a SyntaxError and updates nothing:
    [JSON.parse] rejects the empty string and the text of [undefined].
    ([link] takes the empty string for no data.)  So does it for every new
    text that [JSON.parse] rejects, and it does nothing when the value has
    not changed. *)
Theorem watch_data_cleared (st : state.t) (oldVal : option string) :
  (oldVal <> Some EmptyString ->
   watch_data st (Some EmptyString) oldVal = Throws SyntaxError)
  /\ (oldVal <> None -> watch_data st None oldVal = Throws SyntaxError)
  /\ (forall text, oldVal <> Some text -> malformed text ->
        watch_data st (Some text) oldVal = Throws SyntaxError)
  /\ watch_data st oldVal oldVal = Returns (st, Normal)
  /\ (forall p st', link (with_data EmptyString p) = Returns st' ->
        config.data (state.cfg st') = []).
Proof.
  assert (Hne : forall a b, a <> b -> same_value a b = false).
  { intros [x |] [y |] Hab; simpl; try reflexivity.
    - destruct (String.eqb_spec x y); [subst; contradiction | reflexivity].
    - contradiction. }
  split; [| split; [| split; [| split]]].
  - intros Ho. unfold watch_data. rewrite Hne by congruence. reflexivity.
  - intros Ho. unfold watch_data. rewrite Hne by congruence. reflexivity.
  - intros text Ho Hm. unfold watch_data. rewrite Hne by congruence.
    cbn [negb ToString_attr]. unfold malformed in Hm. now rewrite Hm.
  - unfold watch_data.
    assert (E : same_value oldVal oldVal = true).
    { destruct oldVal as [x |]; simpl; [apply String.eqb_refl | reflexivity]. }
    now rewrite E.
  - intros p st' H. now apply (link_no_data _ _ H).
Qed.

(** X17: when the attribute [data] changes to another text of the data
    already drawn (with other white space, say), the listener parses it and
    the update leaves the drawing and the configuration as they are. *)
Theorem watch_data_same_points (p : params.t) (st : state.t) (text : string)
    (oldVal : option string) (j : json) :
  link p = Returns st ->
  oldVal <> Some text ->
  JSON_parse text = Returns j ->
  as_data j = Returns (config.data (state.cfg st)) ->
  watch_data st (Some text) oldVal = Returns (st, Normal).
Proof.
  intros H Hne Hj Hd. unfold watch_data.
  assert (E : same_value (Some text) oldVal = false).
  { destruct oldVal as [x |]; simpl; [| reflexivity].
    destruct (String.eqb_spec text x); [subst; contradiction | reflexivity]. }
  rewrite E. cbn [negb ToString_attr]. rewrite Hj. cbn [bind]. rewrite Hd. cbn [bind].
  now rewrite (update_same_data _ _ H).
Qed.

Lemma watch_data_same_points_witness :
  exists st,
    link (with_data two_columns no_params) = Returns st
    /\ watch_data st (Some two_columns_spaced) (Some two_columns) = Returns (st, Normal).
Proof.
  eassert (E : link (with_data two_columns no_params) = Returns _)
    by (vm_compute; reflexivity).
  match type of E with _ = Returns ?s => set (st := s) in E end.
  eassert (J : JSON_parse two_columns_spaced = Returns _) by (vm_compute; reflexivity).
  exists st. split; [exact E |].
  match type of J with
  | _ = Returns ?x =>
      apply (watch_data_same_points _ st two_columns_spaced (Some two_columns) x E)
  end.
  - intros C. vm_compute in C. discriminate C.
  - exact J.
  - vm_compute. reflexivity.
Defined.

(* ================================================================= *)
(** ** A second call of [render] *)

Lemma set_datum_same (d : DataPoint.t) (e : element.t) :
  element.datum e = Some d -> element.set_datum d e = e.
Proof. destruct e as [t dd a i]. simpl. now intros ->. Qed.

(** Binding anew the values the elements are bound to changes nothing. *)
Lemma rebind_same (s : selector.t) (values : list DataPoint.t) (svg : drawing) :
  (forall j e, nth_error (selectAll s svg) j = Some e ->
     exists d, nth_error values j = Some d /\ element.datum e = Some d) ->
  rebind s values svg = svg.
Proof.
  revert values. induction svg as [| e r IH]; intros values H; simpl; [reflexivity |].
  simpl in H. destruct (matches s e) eqn:E.
  - destruct (H 0%nat e eq_refl) as (d & Hd & He).
    destruct values as [| d' ds]; [discriminate Hd |]. injection Hd as ->.
    rewrite (set_datum_same _ _ He). f_equal. apply IH.
    intros j e' Hj. exact (H (S j) e' Hj).
  - f_equal. now apply IH.
Qed.

(** A data join on a selection that has an element for every value, bound
    to it, appends nothing. *)
Lemma enter_append_again (s : selector.t) (values : list DataPoint.t) (tag : string)
    (chain chain' : list step) (svg : drawing) :
  selectAll s svg = enter_from 0 values tag chain' ->
  enter_append s values tag chain svg = svg.
Proof.
  intros H. unfold enter_append. rewrite H, enter_from_length.
  rewrite skipn_all. simpl. rewrite app_nil_r.
  apply rebind_same. intros j e Hj. rewrite H, enter_from_nth in Hj.
  destruct (nth_error values j) as [d |]; [| discriminate].
  injection Hj as <-. exists d. split; [reflexivity | apply datum_chain].
Qed.

Lemma selectAll_appended (s : selector.t) (l : drawing) :
  Forall appended l ->
  selector.tag s = Some "rect" \/ selector.tag s = Some "text"
  \/ selector.cls s = Some "data" ->
  selectAll s l = [].
Proof.
  intros H Hs. apply selectAll_none. eapply Forall_impl; [| exact H].
  intros e [Ht Hc]. unfold matches.
  destruct Hs as [Hs | [Hs | Hs]]; rewrite Hs.
  - destruct Ht as [-> | ->]; reflexivity.
  - destruct Ht as [-> | ->]; reflexivity.
  - rewrite Hc. apply andb_false_r.
Qed.

Lemma kind_appended (t : string) (cls : list string) (l : drawing) :
  Forall (kind t cls) l ->
  t = "line" \/ t = "g" ->
  existsb (String.eqb "data") cls = false ->
  Forall appended l.
Proof.
  intros H Ht Hc. eapply Forall_impl; [| exact H].
  intros e [He Hcls]. split; [now rewrite He |]. unfold has_class. now rewrite Hcls.
Qed.

Lemma other_lines_appended (l : drawing) : Forall other_line l -> Forall appended l.
Proof.
  intros H. eapply Forall_impl; [| exact H]. intros e (Ht & Hd & _). split; [now left | exact Hd].
Qed.

(** The line [renderDataFromBaseline] draws for the baseline. *)
Lemma baseline_line (c : config.t) :
  exists marker,
    renderDataFromBaseline [] c
    = firstn (List.length (config.data c)) (renderDataFromBaseline [] c) ++ [marker]
    /\ skipn (List.length (config.data c)) (renderDataFromBaseline [] c) = [marker]
    /\ selectAll (sel_tag_class "rect" "data") (renderDataFromBaseline [] c)
       = firstn (List.length (config.data c)) (renderDataFromBaseline [] c)
    /\ kind "line" [] marker
    /\ forall svg,
         selectAll (sel_tag_class "rect" "data") svg
         = firstn (List.length (config.data c)) (renderDataFromBaseline [] c) ->
         renderDataFromBaseline svg c = svg ++ [marker].
Proof.
  unfold renderDataFromBaseline.
  change (enter_append ?s ?v ?t ?ch []) with (enter_from 0 v t ch).
  rewrite append_spec.
  match goal with
  | |- context [enter_from 0 ?v ?t ?ch ++ append ?a ?b ?e []] =>
      set (bars := enter_from 0 v t ch); set (line := append a b e [])
  end.
  assert (Hlen : List.length bars = List.length (config.data c)) by apply enter_from_length.
  assert (Hfirst : firstn (List.length (config.data c)) (bars ++ line) = bars).
  { rewrite <- Hlen, firstn_app, Nat.sub_diag, firstn_all. simpl. apply app_nil_r. }
  assert (Hskip : skipn (List.length (config.data c)) (bars ++ line) = line).
  { rewrite <- Hlen, skipn_app, Nat.sub_diag, skipn_all. reflexivity. }
  assert (Hk : kind "line" [] (fold_left (fun e kv => element.attr (fst kv) (snd kv) e)
      [ ("x1", num_attr (config.marginLeft c));
        ("x2", num_attr (config.width c - config.marginRight c)%num);
        ("y1", num_attr (config.height c - config.marginBottom c + config.marginTop c
                         - scale (config.yScale c) (ToNumber (config.baseline c)))%num);
        ("y2", num_attr (config.height c - config.marginBottom c + config.marginTop c
                         - scale (config.yScale c) (ToNumber (config.baseline c)))%num);
        ("stroke-width", num_attr (config.stroke c));
        ("stroke", str_attr defaults.colors.reference);
        ("shape-rendering", str_attr "crispEdges") ] (element.create "line"))).
  { built_kind. }
  eexists. rewrite Hfirst, Hskip. split; [reflexivity |]. split; [reflexivity |].
  split; [| split].
  - rewrite selectAll_app.
    rewrite sel_all_kind with (t := "rect") (cls := ["data"]);
      [| apply enter_from_Forall; intros d i; built_kind | reflexivity].
    rewrite sel_none_kind with (t := "line") (cls := []);
      [apply app_nil_r | constructor; [built_kind | constructor] | reflexivity].
  - exact Hk.
  - intros svg Hsel. rewrite append_spec. fold line. f_equal.
    eapply enter_append_again. exact Hsel.
Qed.

Lemma renderBackgrounds_again (svg : drawing) (c : config.t) :
  selectAll (sel_tag_class "rect" "bg") svg = renderBackgrounds [] c ->
  renderBackgrounds svg c = svg.
Proof. intros H. unfold renderBackgrounds. eapply enter_append_again. exact H. Qed.

Lemma renderXAxis_again (svg : drawing) (c : config.t) :
  selectAll (sel_tag "text") svg = renderXAxis [] c ->
  renderXAxis svg c = svg.
Proof. intros H. unfold renderXAxis. eapply enter_append_again. exact H. Qed.

Lemma renderDataFromAxis_again (svg : drawing) (c : config.t) :
  selectAll (sel_tag_class "rect" "data") svg = renderDataFromAxis [] c ->
  renderDataFromAxis svg c = svg.
Proof. intros H. unfold renderDataFromAxis. eapply enter_append_again. exact H. Qed.

Lemma layers_rect_data (st : state.t) :
  selectAll (sel_tag_class "rect" "data") (layers st)
  = selectAll (sel_tag_class "rect" "data")
      (if state.showBaseline st
       then renderDataFromBaseline [] (state.cfg st)
       else renderDataFromAxis [] (state.cfg st)).
Proof.
  unfold layers.
  destruct (attr_truthy (params.thresholds (state.params st))),
           (state.showXAxis st), (state.showYAxis st), (state.showBaseline st);
    select_layers.
Qed.

Lemma layers_rect_error (st : state.t) :
  selectAll (sel_tag_class "rect" "error") (layers st) = [].
Proof.
  unfold layers.
  destruct (attr_truthy (params.thresholds (state.params st))),
           (state.showXAxis st), (state.showYAxis st), (state.showBaseline st);
    select_layers.
Qed.

Lemma layers_line_data (st : state.t) :
  selectAll (sel_tag_class "line" "data") (layers st) = [].
Proof.
  unfold layers.
  destruct (attr_truthy (params.thresholds (state.params st))),
           (state.showXAxis st), (state.showYAxis st), (state.showBaseline st);
    select_layers.
Qed.

(** The pieces a second call appends. *)
Lemma thresholds_appended (c : config.t) : Forall appended (renderThresholdMarkers [] c).
Proof.
  apply (kind_appended _ _ _ (renderThresholdMarkers_kind c)); [now left | reflexivity].
Qed.

Lemma axis_appended (c : config.t) : Forall appended (renderYAxis [] c).
Proof. apply (kind_appended _ _ _ (renderYAxis_kind c)); [now right | reflexivity]. Qed.

Lemma errors_appended (c : config.t) : Forall appended (renderErrorBars [] c).
Proof. apply other_lines_appended, renderErrorBars_lines. Qed.

Lemma borders_appended (c : config.t) : Forall appended (renderBorders [] c).
Proof. apply (kind_appended _ _ _ (renderBorders_kind c)); [now left | reflexivity]. Qed.

Lemma references_appended (c : config.t) : Forall appended (renderReference [] c).
Proof. apply (kind_appended _ _ _ (renderReference_kind c)); [now left | reflexivity]. Qed.

Lemma baseline_appended (c : config.t) :
  Forall appended (skipn (List.length (config.data c)) (renderDataFromBaseline [] c)).
Proof.
  destruct (baseline_line c) as (marker & _ & -> & _ & Hk & _).
  apply (kind_appended "line" []); [now constructor | now left | reflexivity].
Qed.

(** What a call of [render] appends to a drawing that has the layers of the
    first call at its start, and after them only what such calls append. *)
Lemma render_again (st : state.t) (more : drawing) :
  state.svg st = layers st ++ more ->
  Forall appended more ->
  let c := state.cfg st in
  state.svg (render st)
  = state.svg st
    ++ (if attr_truthy (params.thresholds (state.params st))
        then renderThresholdMarkers [] c else [])
    ++ (if state.showYAxis st then renderYAxis [] c else [])
    ++ (if state.showBaseline st
        then skipn (List.length (config.data c)) (renderDataFromBaseline [] c) else [])
    ++ renderErrorBars [] c
    ++ renderBorders [] c
    ++ renderReference [] c.
Proof.
  intros Hsvg Hmore c. unfold render. cbn [state.svg state.set_svg]. fold c.
  rewrite Hsvg.
  set (T := if attr_truthy (params.thresholds (state.params st))
            then renderThresholdMarkers [] c else []).
  set (Y := if state.showYAxis st then renderYAxis [] c else []).
  set (M := if state.showBaseline st
            then skipn (List.length (config.data c)) (renderDataFromBaseline [] c) else []).
  assert (HT : Forall appended T).
  { subst T. destruct (attr_truthy _); [apply thresholds_appended | constructor]. }
  assert (HY : Forall appended Y).
  { subst Y. destruct (state.showYAxis st); [apply axis_appended | constructor]. }
  assert (HM : Forall appended M).
  { subst M. destruct (state.showBaseline st); [apply baseline_appended | constructor]. }
  assert (Hsel : forall s extra,
            selector.tag s = Some "rect" \/ selector.tag s = Some "text"
            \/ selector.cls s = Some "data" ->
            Forall appended extra ->
            selectAll s ((layers st ++ more) ++ extra) = selectAll s (layers st)).
  { intros s extra Hs He. rewrite !selectAll_app.
    rewrite (selectAll_appended s more Hmore Hs), (selectAll_appended s extra He Hs).
    now rewrite !app_nil_r. }
  set (L := layers st ++ more) in *.
  (* the backgrounds *)
  assert (E1 : renderBackgrounds L c = L).
  { apply renderBackgrounds_again. rewrite <- (app_nil_r L). subst L.
    rewrite Hsel; [apply layers_backgrounds | cbn; tauto | constructor]. }
  rewrite E1.
  (* the threshold markers *)
  assert (E2 : (if attr_truthy (params.thresholds (state.params st))
                then renderThresholdMarkers L c else L) = L ++ T).
  { subst T. destruct (attr_truthy _).
    - apply renderThresholdMarkers_adds.
    - now rewrite app_nil_r. }
  rewrite E2.
  (* the labels *)
  assert (E3 : (if state.showXAxis st then renderXAxis (L ++ T) c else L ++ T) = L ++ T).
  { destruct (state.showXAxis st) eqn:Ex; [| reflexivity].
    apply renderXAxis_again. subst L. rewrite Hsel; [| cbn; tauto | exact HT].
    now rewrite layers_labels, Ex. }
  rewrite E3.
  (* the y-axis *)
  assert (E4 : (if state.showYAxis st then renderYAxis (L ++ T) c else L ++ T)
               = (L ++ T) ++ Y).
  { subst Y. destruct (state.showYAxis st).
    - apply renderYAxis_adds.
    - now rewrite app_nil_r. }
  rewrite E4.
  (* the bars *)
  assert (HTY : Forall appended (T ++ Y)) by (apply Forall_app; now split).
  assert (E5 : (if state.showBaseline st
                then renderDataFromBaseline ((L ++ T) ++ Y) c
                else renderDataFromAxis ((L ++ T) ++ Y) c) = ((L ++ T) ++ Y) ++ M).
  { assert (Hd : selectAll (sel_tag_class "rect" "data") ((L ++ T) ++ Y)
                 = selectAll (sel_tag_class "rect" "data") (layers st)).
    { rewrite <- app_assoc. subst L. apply Hsel; [cbn; tauto | exact HTY]. }
    rewrite layers_rect_data in Hd. subst M.
    destruct (state.showBaseline st).
    - destruct (baseline_line c) as (marker & _ & Hskip & Hb & _ & Hagain).
      rewrite Hskip. apply Hagain. rewrite Hd. exact Hb.
    - rewrite app_nil_r. apply renderDataFromAxis_again. rewrite Hd.
      apply (sel_all_kind _ _ _ _ (renderDataFromAxis_kind c)). reflexivity. }
  rewrite E5.
  (* the error bars, the borders and the reference markers *)
  assert (HTYM : Forall appended ((T ++ Y) ++ M)) by (apply Forall_app; now split).
  rewrite renderErrorBars_adds.
  2:{ rewrite <- !app_assoc. rewrite (app_assoc T). subst L.
      rewrite Hsel; [apply layers_rect_error | cbn; tauto | exact HTYM]. }
  rewrite renderBorders_adds.
  rewrite renderReference_adds.
  2:{ rewrite !selectAll_app.
      assert (Hl : forall l, Forall appended l -> selectAll (sel_tag_class "line" "data") l = []).
      { intros l Hl. apply selectAll_appended; [exact Hl | cbn; tauto]. }
      subst L. rewrite !selectAll_app, layers_line_data.
      rewrite (Hl more Hmore), (Hl T HT), (Hl Y HY), (Hl M HM).
      rewrite (Hl _ (errors_appended c)), (Hl _ (borders_appended c)). reflexivity. }
  now rewrite <- !app_assoc.
Qed.

Lemma render_fields (st : state.t) :
  state.cfg (render st) = state.cfg st
  /\ state.params (render st) = state.params st
  /\ state.showBaseline (render st) = state.showBaseline st
  /\ state.showXAxis (render st) = state.showXAxis st
  /\ state.showYAxis (render st) = state.showYAxis st
  /\ layers (render st) = layers st.
Proof. repeat split. Qed.

Lemma iter_render_fields (st : state.t) (k : nat) :
  state.cfg (Nat.iter k render st) = state.cfg st
  /\ state.params (Nat.iter k render st) = state.params st
  /\ state.showBaseline (Nat.iter k render st) = state.showBaseline st
  /\ state.showXAxis (Nat.iter k render st) = state.showXAxis st
  /\ state.showYAxis (Nat.iter k render st) = state.showYAxis st
  /\ layers (Nat.iter k render st) = layers st.
Proof.
  induction k as [| k IH]; [repeat split |].
  destruct IH as (H1 & H2 & H3 & H4 & H5 & H6). simpl Nat.iter.
  destruct (render_fields (Nat.iter k render st)) as (R1 & R2 & R3 & R4 & R5 & R6).
  repeat split; congruence.
Qed.

Lemma concat_repeat_appended (l : drawing) (k : nat) :
  Forall appended l -> Forall appended (List.concat (repeat l k)).
Proof.
  intros H. induction k as [| k IH]; simpl; [constructor |]. apply Forall_app. now split.
Qed.

Lemma concat_repeat_end {A : Type} (l : list A) (k : nat) :
  List.concat (repeat l k) ++ l = l ++ List.concat (repeat l k).
Proof.
  induction k as [| k IH]; simpl; [now rewrite app_nil_r |].
  now rewrite <- app_assoc, IH.
Qed.

(** X18: [render] is not a repaint.  A call after the one [link] makes
    leaves what is drawn as it is and draws no background, bar or label
    again, but it appends, every time, the same elements once more: the
    threshold lines, the group of the y-axis, the line of the baseline, the
    lines of the error bars, the two borders and the reference markers. *)
Theorem render_repeated (p : params.t) (st : state.t) :
  link p = Returns st ->
  let c := state.cfg st in
  let n := List.length (config.data c) in
  exists again,
    (forall k, state.svg (Nat.iter k render st) = state.svg st ++ List.concat (repeat again k))
    /\ selectAll (sel_tag_class "rect" "bg") again = []
    /\ selectAll (sel_class "data") again = []
    /\ selectAll (sel_tag "text") again = []
    /\ selectAll (sel_class "reference") again
       = selectAll (sel_class "reference") (state.svg st)
    /\ List.length again
       = ((match config.thresholds c with Some t => List.length t | None => 0 end)
          + (if state.showYAxis st then 1 else 0)
          + (if state.showBaseline st then 1 else 0)
          + 3 * n + 2 + n)%nat.
Proof.
  intros H c n.
  destruct (link_drawing _ _ H) as (Hsvg & _ & Hrefs).
  destruct (link_params _ _ H) as (Hp & _).
  set (T := if attr_truthy (params.thresholds (state.params st))
            then renderThresholdMarkers [] c else []).
  set (Y := if state.showYAxis st then renderYAxis [] c else []).
  set (M := if state.showBaseline st
            then skipn (List.length (config.data c)) (renderDataFromBaseline [] c) else []).
  set (again := T ++ Y ++ M ++ renderErrorBars [] c ++ renderBorders [] c
                ++ renderReference [] c).
  assert (HT : Forall appended T).
  { subst T. destruct (attr_truthy _); [apply thresholds_appended | constructor]. }
  assert (HY : Forall appended Y).
  { subst Y. destruct (state.showYAxis st); [apply axis_appended | constructor]. }
  assert (HM : Forall appended M).
  { subst M. destruct (state.showBaseline st); [apply baseline_appended | constructor]. }
  assert (Hagain : Forall appended again).
  { subst again. rewrite !Forall_app.
    repeat split; try assumption;
      [apply errors_appended | apply borders_appended | apply references_appended]. }
  exists again. split; [| split; [| split; [| split; [| split]]]].
  - induction k as [| k IH]; [simpl; now rewrite app_nil_r |].
    simpl Nat.iter.
    destruct (iter_render_fields st k) as (F1 & F2 & F3 & F4 & F5 & F6).
    rewrite (render_again (Nat.iter k render st) (List.concat (repeat again k))).
    + rewrite F1, F2, F3, F5. fold c T Y M again. rewrite IH.
      rewrite <- app_assoc. f_equal. simpl. apply concat_repeat_end.
    + rewrite F6, IH. now rewrite Hsvg.
    + now apply concat_repeat_appended.
  - apply selectAll_appended; [exact Hagain | cbn; tauto].
  - apply selectAll_appended; [exact Hagain | cbn; tauto].
  - apply selectAll_appended; [exact Hagain | cbn; tauto].
  - rewrite Hrefs. subst again. rewrite !selectAll_app.
    assert (ET : selectAll (sel_class "reference") T = []).
    { subst T. destruct (attr_truthy _); [| reflexivity].
      apply (sel_none_kind _ _ _ _ (renderThresholdMarkers_kind c)). reflexivity. }
    assert (EY : selectAll (sel_class "reference") Y = []).
    { subst Y. destruct (state.showYAxis st); [| reflexivity].
      apply (sel_none_kind _ _ _ _ (renderYAxis_kind c)). reflexivity. }
    assert (EM : selectAll (sel_class "reference") M = []).
    { subst M. destruct (state.showBaseline st); [| reflexivity].
      destruct (baseline_line c) as (marker & _ & -> & _ & Hk & _).
      apply (sel_none_kind _ "line" []); [now constructor | reflexivity]. }
    rewrite ET, EY, EM.
    rewrite (sel_none_other_lines _ _ (renderErrorBars_lines c)) by (cbn; tauto).
    rewrite (sel_none_kind _ _ _ _ (renderBorders_kind c)) by reflexivity.
    reflexivity.
  - subst again. rewrite !length_app, renderErrorBars_length.
    assert (LT : List.length T
                 = match config.thresholds c with Some t => List.length t | None => 0%nat end).
    { subst T. rewrite Hp. destruct (attr_truthy (params.thresholds p)) eqn:E.
      - apply renderThresholdMarkers_length.
      - subst c. now rewrite (link_no_thresholds _ _ H E). }
    assert (LY : List.length Y = if state.showYAxis st then 1%nat else 0%nat).
    { subst Y. now destruct (state.showYAxis st). }
    assert (LM : List.length M = if state.showBaseline st then 1%nat else 0%nat).
    { subst M. destruct (state.showBaseline st); [| reflexivity].
      now destruct (baseline_line c) as (marker & _ & -> & _). }
    assert (LR : List.length (renderReference [] c) = n) by apply enter_from_length.
    assert (LB : List.length (renderBorders [] c) = 2%nat) by reflexivity.
    rewrite LT, LY, LM, LR, LB. fold n. lia.
Qed.

Lemma render_repeated_witness :
  exists st,
    link three_from_axis = Returns st
    /\ List.length (state.svg st) = 28%nat
    /\ List.length (state.svg (render st)) = 47%nat
    /\ selectAll (sel_class "data") (state.svg (render st))
       = selectAll (sel_class "data") (state.svg st).
Proof.
  eassert (E : link three_from_axis = Returns _) by (vm_compute; reflexivity).
  match type of E with _ = Returns ?s => set (st := s) in E end.
  destruct (render_repeated _ st E) as (again & Hk & _ & Hd & _ & _ & Hn).
  exists st. split; [exact E |]. split; [reflexivity |].
  specialize (Hk 1%nat). simpl Nat.iter in Hk. simpl List.concat in Hk.
  rewrite app_nil_r in Hk. rewrite Hk. split.
  - rewrite length_app, Hn. reflexivity.
  - now rewrite selectAll_app, Hd, app_nil_r.
Defined.

(* ================================================================= *)
(** ** The tooltip under the mouse *)

Lemma moveTooltip_visibility (client : tooltip.t -> num * num) (tt : tooltip.t)
    (event : pointer.t) :
  lookup "visibility" (tooltip.styles (moveTooltip client tt event))
  = lookup "visibility" (tooltip.styles tt)
  /\ tooltip.html (moveTooltip client tt event) = tooltip.html tt.
Proof.
  unfold moveTooltip, tooltip.style. cbn [tooltip.styles tooltip.html].
  split; [| reflexivity].
  rewrite !lookup_assign_other by discriminate. reflexivity.
Qed.

Lemma on_mouse_visible (client : tooltip.t -> num * num) (c : config.t) (tt tt' : tooltip.t)
    (m : mouse) :
  config.showTooltip c = true ->
  on_mouse client c tt m = Returns tt' ->
  match m with
  | mousemove _ =>
      lookup "visibility" (tooltip.styles tt') = lookup "visibility" (tooltip.styles tt)
      /\ tooltip.html tt' = tooltip.html tt
  | mouseover _ _ => lookup "visibility" (tooltip.styles tt') = Some "visible"
  | mouseout =>
      lookup "visibility" (tooltip.styles tt') = Some "visible"
      /\ tooltip.html tt' = EmptyString
  end.
Proof.
  intros Hc. unfold on_mouse. rewrite Hc. destruct m as [item event | event |].
  - unfold renderTooltip. destruct item as [t |]; [| discriminate].
    intros [= <-]. rewrite (proj1 (moveTooltip_visibility _ _ _)).
    cbn [tooltip.style tooltip.styles]. apply lookup_assign_same.
  - intros [= <-]. apply moveTooltip_visibility.
  - intros [= <-]. unfold hideTooltip. cbn. split; [apply lookup_assign_same | reflexivity].
Qed.

(** X19: with [showTooltip], a tooltip that is visible stays visible
    whatever the mouse does: leaving an element empties the tooltip and sets
    its visibility to [visible], not to [hidden], and moving changes only its
    position.  Entering an element whose point has no property [tooltip]
    throws a TypeError and leaves the tooltip as it was.  Without
    [showTooltip] the listeners do nothing, so the tooltip [link] created
    stays hidden. *)
Theorem tooltip_stays_visible (client : tooltip.t -> num * num) (c : config.t)
    (tt : tooltip.t) (ms : list mouse) :
  let tt' := fold_left (after_mouse client c) ms tt in
  (config.showTooltip c = false -> tt' = tt)
  /\ (config.showTooltip c = true ->
      lookup "visibility" (tooltip.styles tt) = Some "visible" ->
      lookup "visibility" (tooltip.styles tt') = Some "visible")
  /\ (config.showTooltip c = true ->
      lookup "visibility" (tooltip.styles (after_mouse client c tt mouseout)) = Some "visible"
      /\ tooltip.html (after_mouse client c tt mouseout) = EmptyString)
  /\ (config.showTooltip c = true ->
      forall event,
        on_mouse client c tt (mouseover None event) = Throws TypeError
        /\ after_mouse client c tt (mouseover None event) = tt)
  /\ (forall p st,
        link p = Returns st ->
        params.showTooltip p <> Some "true" ->
        config.showTooltip (state.cfg st) = false
        /\ lookup "visibility"
             (tooltip.styles (fold_left (after_mouse client (state.cfg st)) ms (tooltip_of st)))
           = Some "hidden").
Proof.
  assert (Hoff : forall c0 t0, config.showTooltip c0 = false ->
            fold_left (after_mouse client c0) ms t0 = t0).
  { intros c0 t0 Hc. revert t0. induction ms as [| m r IH]; intros t0; [reflexivity |].
    simpl. unfold after_mouse at 2, on_mouse. rewrite Hc. apply IH. }
  split; [| split; [| split; [| split]]].
  - intros Hc. now apply Hoff.
  - intros Hc. revert tt. induction ms as [| m r IH]; intros tt Hv; [exact Hv |].
    simpl. apply IH.
    + intros c0 t0 Hc0. specialize (Hoff c0 t0 Hc0). simpl in Hoff.
      unfold after_mouse at 2, on_mouse in Hoff. now rewrite Hc0 in Hoff.
    + unfold after_mouse. destruct (on_mouse client c tt m) as [t1 | e |] eqn:E; try exact Hv.
      pose proof (on_mouse_visible client c tt t1 m Hc E) as Hm.
      destruct m; [exact Hm | now rewrite (proj1 Hm) | exact (proj1 Hm)].
  - intros Hc. unfold after_mouse.
    destruct (on_mouse client c tt mouseout) as [t1 | e |] eqn:E.
    + exact (on_mouse_visible client c tt t1 mouseout Hc E).
    + unfold on_mouse in E. rewrite Hc in E. discriminate.
    + unfold on_mouse in E. rewrite Hc in E. discriminate.
  - intros Hc event. unfold after_mouse, on_mouse. rewrite Hc. split; reflexivity.
  - intros p st H Hp.
    assert (Hs : config.showTooltip (state.cfg st) = false).
    { destruct (link_returns _ _ H) as (st0 & H0 & ->). rewrite render_cfg.
      clear H. revert H0. unfold link_setup.
      destruct (parse_both _ _) as [[tj dj] | e |]; cbn [bind]; try discriminate.
      destruct (if_given (params.max p) parseFloat (Some (Num 100))) as [mx |];
        cbn [bind modelled]; try discriminate.
      destruct (if_given (params.min p) parseFloat (Some (Num 0))) as [mn |];
        cbn [bind modelled]; try discriminate.
      destruct (parseFloat_attr (params.baseline p)) as [b' |];
        cbn [bind modelled]; try discriminate.
      destruct (as_thresholds _) as [t | e |]; cbn [bind]; try discriminate.
      destruct (as_data _) as [ds | e |]; cbn [bind]; try discriminate.
      intros [= <-]. cbn. unfold is_true.
      destruct (params.showTooltip p) as [s |]; [| reflexivity].
      destruct (String.eqb_spec s "true"); [subst; contradiction | reflexivity]. }
    split; [exact Hs |]. rewrite (Hoff _ _ Hs). apply (link_tooltip _ _ H).
Qed.

(* ================================================================= *)
(** ** The lines of the error bars *)

Lemma layers_error_lines (st : state.t) (cls : string) :
  cls = "error-center" \/ cls = "error-high" \/ cls = "error-low" ->
  selectAll (sel_class cls) (layers st)
  = selectAll (sel_class cls) (renderErrorBars [] (state.cfg st)).
Proof.
  intros Hc. unfold layers.
  destruct Hc as [-> | [-> | ->]];
    destruct (attr_truthy (params.thresholds (state.params st))),
             (state.showXAxis st), (state.showYAxis st), (state.showBaseline st);
    select_layers.
Qed.

(** The three groups of lines, each with a line for every point. *)
Lemma renderErrorBars_groups (c : config.t) :
  exists centres highs lows,
    renderErrorBars [] c = centres ++ highs ++ lows
    /\ selectAll (sel_class "error-center") (renderErrorBars [] c) = centres
    /\ selectAll (sel_class "error-high") (renderErrorBars [] c) = highs
    /\ selectAll (sel_class "error-low") (renderErrorBars [] c) = lows
    /\ forall i d,
         nth_error (config.data c) i = Some d ->
         exists centre high low,
           nth_error centres i = Some centre
           /\ nth_error highs i = Some high
           /\ nth_error lows i = Some low
           /\ element.get "x1" centre = opt_num_attr (errorbar.xCenter (errorBars d i c))
           /\ element.get "x2" centre = opt_num_attr (errorbar.xCenter (errorBars d i c))
           /\ element.get "y1" centre = Some (ANum (errorbar.y1 (errorBars d i c)))
           /\ element.get "y2" centre = Some (ANum (errorbar.y2 (errorBars d i c)))
           /\ element.get "x1" high = Some (ANum (errorbar.x1 (errorBars d i c)))
           /\ element.get "x2" high = Some (ANum (errorbar.x2 (errorBars d i c)))
           /\ element.get "y1" high = Some (ANum (errorbar.y1 (errorBars d i c)))
           /\ element.get "y2" high = Some (ANum (errorbar.y1 (errorBars d i c)))
           /\ element.get "x1" low = Some (ANum (errorbar.x1 (errorBars d i c)))
           /\ element.get "x2" low = Some (ANum (errorbar.x2 (errorBars d i c)))
           /\ element.get "y1" low = Some (ANum (errorbar.y2 (errorBars d i c)))
           /\ element.get "y2" low = Some (ANum (errorbar.y2 (errorBars d i c)))
           /\ element.get "stroke-width" centre
              = Some (ANum (errorbar.stroke (errorBars d i c)))
           /\ element.get "stroke-width" high
              = Some (ANum (errorbar.stroke (errorBars d i c)))
           /\ element.get "stroke-width" low
              = Some (ANum (errorbar.stroke (errorBars d i c))).
Proof.
  unfold renderErrorBars.
  assert (L : forall values chain i,
             selectAll (sel_tag_class "rect" "error") (enter_from i values "line" chain) = []).
  { intros. apply selectAll_rect_lines, enter_from_Forall. intros. apply tag_chain. }
  change (enter_append ?s ?v ?t ?ch []) with (enter_from 0 v t ch).
  rewrite (enter_append_fresh _ _ _ _ (enter_from _ _ _ _)) by apply L.
  rewrite (enter_append_fresh _ _ _ _ (enter_from _ _ _ _ ++ _))
    by (rewrite ?selectAll_app, ?L; reflexivity).
  rewrite <- app_assoc.
  match goal with
  | |- context [enter_from 0 ?v "line" ?c1 ++ enter_from 0 ?v "line" ?c2
                ++ enter_from 0 ?v "line" ?c3] =>
      set (centres := enter_from 0 v "line" c1);
      set (highs := enter_from 0 v "line" c2);
      set (lows := enter_from 0 v "line" c3)
  end.
  assert (Hc : Forall (fun e => has_class "error-center" e = true
                                /\ has_class "error-high" e = false
                                /\ has_class "error-low" e = false) centres).
  { apply enter_from_Forall. intros d i. destruct (words_error_center i) as [w Hw].
    unfold has_class, classes. read_attr. rewrite Hw. repeat split. }
  assert (Hh : Forall (kind "line" ["error-high"]) highs).
  { apply enter_from_Forall. intros d i. built_kind. }
  assert (Hl : Forall (kind "line" ["error-low"]) lows).
  { apply enter_from_Forall. intros d i. built_kind. }
  assert (Sc : selectAll (sel_class "error-center") centres = centres
               /\ selectAll (sel_class "error-high") centres = []
               /\ selectAll (sel_class "error-low") centres = []).
  { split; [| split].
    - apply selectAll_all. eapply Forall_impl; [| exact Hc]. intros e (H1 & _).
      now rewrite matches_class.
    - apply selectAll_none. eapply Forall_impl; [| exact Hc]. intros e (_ & H2 & _).
      now rewrite matches_class.
    - apply selectAll_none. eapply Forall_impl; [| exact Hc]. intros e (_ & _ & H3).
      now rewrite matches_class. }
  destruct Sc as (Sc1 & Sc2 & Sc3).
  exists centres, highs, lows. split; [reflexivity |].
  rewrite !selectAll_app, Sc1, Sc2, Sc3.
  split; [| split; [| split]].
  - rewrite (sel_none_kind _ _ _ _ Hh), (sel_none_kind _ _ _ _ Hl) by reflexivity.
    now rewrite !app_nil_r.
  - rewrite (sel_all_kind _ _ _ _ Hh), (sel_none_kind _ _ _ _ Hl) by reflexivity.
    now rewrite app_nil_r.
  - rewrite (sel_none_kind _ _ _ _ Hh), (sel_all_kind _ _ _ _ Hl) by reflexivity.
    reflexivity.
  - intros i d Hd. subst centres highs lows. rewrite !enter_from_nth, Hd.
    do 3 eexists. split; [reflexivity |]. split; [reflexivity |]. split; [reflexivity |].
    cbn [Nat.add].
    repeat split; read_attr; try reflexivity;
      destruct (errorbar.xCenter (errorBars d i c)); reflexivity.
Qed.

(** X20: after [link], every point has three lines for its error bar,
    the [i]-th of the classes [error-center], [error-high] and [error-low]:
    a vertical line at [xCenter] between the two rows [errorBars] gives, and
    a cap in each of the two rows from [x1] to [x2], all of the stroke width
    [errorBars] gives.  For a point without an error range the three lines
    are drawn with the stroke width 0 and the vertical line has no [x1] and
    no [x2]. *)
Theorem link_error_bars (p : params.t) (st : state.t) (i : nat) (d : DataPoint.t) :
  link p = Returns st ->
  nth_error (config.data (state.cfg st)) i = Some d ->
  let bar := errorBars d i (state.cfg st) in
  exists centre high low,
    nth_error (selectAll (sel_class "error-center") (state.svg st)) i = Some centre
    /\ nth_error (selectAll (sel_class "error-high") (state.svg st)) i = Some high
    /\ nth_error (selectAll (sel_class "error-low") (state.svg st)) i = Some low
    /\ element.get "x1" centre = opt_num_attr (errorbar.xCenter bar)
    /\ element.get "x2" centre = opt_num_attr (errorbar.xCenter bar)
    /\ element.get "y1" centre = Some (ANum (errorbar.y1 bar))
    /\ element.get "y2" centre = Some (ANum (errorbar.y2 bar))
    /\ element.get "x1" high = Some (ANum (errorbar.x1 bar))
    /\ element.get "x2" high = Some (ANum (errorbar.x2 bar))
    /\ element.get "y1" high = Some (ANum (errorbar.y1 bar))
    /\ element.get "y2" high = Some (ANum (errorbar.y1 bar))
    /\ element.get "x1" low = Some (ANum (errorbar.x1 bar))
    /\ element.get "x2" low = Some (ANum (errorbar.x2 bar))
    /\ element.get "y1" low = Some (ANum (errorbar.y2 bar))
    /\ element.get "y2" low = Some (ANum (errorbar.y2 bar))
    /\ element.get "stroke-width" centre = Some (ANum (errorbar.stroke bar))
    /\ element.get "stroke-width" high = Some (ANum (errorbar.stroke bar))
    /\ element.get "stroke-width" low = Some (ANum (errorbar.stroke bar))
    /\ (DataPoint.error d = None ->
        errorbar.stroke bar = Num 0
        /\ element.get "x1" centre = None /\ element.get "x2" centre = None).
Proof.
  intros H Hd bar.
  destruct (link_drawing _ _ H) as (Hsvg & _).
  destruct (renderErrorBars_groups (state.cfg st))
    as (centres & highs & lows & _ & Hc & Hh & Hl & Hnth).
  destruct (Hnth i d Hd)
    as (centre & high & low & H1 & H2 & H3 & A1 & A2 & A3 & A4 & A5 & A6 & A7 & A8
        & A9 & A10 & A11 & A12 & A13 & A14 & A15).
  exists centre, high, low. rewrite Hsvg.
  rewrite !layers_error_lines by tauto. rewrite Hc, Hh, Hl.
  repeat (split; [assumption |]).
  intros He. subst bar. rewrite A1, A2. unfold errorBars. rewrite He. repeat split.
Qed.

Lemma link_error_bars_witness :
  exists st high,
    link three_from_baseline = Returns st
    /\ nth_error (selectAll (sel_class "error-high") (state.svg st)) 1 = Some high
    /\ element.get "stroke-width" high = Some (ANum (Num 1)).
Proof.
  eassert (E : link three_from_baseline = Returns _) by (vm_compute; reflexivity).
  match type of E with _ = Returns ?s => set (st := s) in E end.
  eassert (D : nth_error (config.data (state.cfg st)) 1 = Some _) by reflexivity.
  destruct (link_error_bars _ st 1%nat _ E D) as (centre & high & low & _ & Hh & H).
  exists st, high. split; [exact E |]. split; [exact Hh |].
  apply H.
Defined.
